(** * ProcessadorINPI: extraction and filtering of granted trademark records

    A shallow embedding of [src/processador_inpi.py] (class [ProcessadorINPI]):
    the class normalizers, the XML record extractor and the class / keyword
    filters, followed by the properties of the specification that concern
    them.

    Modelling conventions.
    - A Python [str] is a [string]; each [ascii] stands for the Unicode code
      point of the same number, so the strings of the model are exactly the
      strings over U+0000..U+00FF.  The predicates [isspace], [isdigit],
      [lower] and the regular-expression class [\d] are the ones Python
      defines on those code points.
    - A Python [int] is an [N] (the only integers the code builds come from
      runs of digits); [int(...)] and [str(...)] go through the decimal
      representation of the Standard Library.  CPython refuses to convert a
      string of more than [int_max_str_digits] digits (4300, the default of
      [sys.set_int_max_str_digits]): there [int(...)] raises [ValueError].
    - A cell of a pandas column is an [option string]: [None] is a missing
      value (what [pd.isna] accepts), [Some s] a value whose [str()] is [s].
      The column labels of a [DataFrame] are strings; a table as
      [pd.read_csv] or [pd.read_excel] returns it may have labels of other
      types, and is a list of [Rotulo] with its rows.
    - [int(...)] also raises [ValueError] on a string that [str.isdigit]
      accepts but that holds a superscript digit; the functions that can
      reach it return a [Result]. *)

From Stdlib Require Import Bool List Arith NArith Lia.
From Stdlib Require Import Ascii String.
From Stdlib Require Import Decimal DecimalFacts DecimalN DecimalString.
Import ListNotations.

Open Scope string_scope.
Open Scope bool_scope.

(** ** Exceptions *)

Inductive Result (A : Type) : Type :=
| Ok (a : A)
| ValueError.
Arguments Ok {A} a.
Arguments ValueError {A}.

Definition bind {A B : Type} (m : Result A) (k : A -> Result B) : Result B :=
  match m with
  | Ok a => k a
  | ValueError => ValueError
  end.

Notation "x <- m ;; k" := (bind m (fun x => k))
  (at level 61, m at next level, right associativity).

(** [[f(x) for x in l]] (and [Series.apply(f)]) with a function that may raise:
    the first exception, in order, is the one that escapes. *)
Fixpoint mapM {A B : Type} (f : A -> Result B) (l : list A) : Result (list B) :=
  match l with
  | [] => Ok []
  | x :: l' => y <- f x ;; ys <- mapM f l' ;; Ok (y :: ys)
  end.

(** ** Python strings *)

Module PyStr.

Definition ord (c : ascii) : N := N_of_ascii c.

Definition between (lo hi n : N) : bool := (lo <=? n)%N && (n <=? hi)%N.

(** [c.isspace()]: TAB..CR, FS..US, SPACE, NEL, NBSP. *)
Definition isspace (c : ascii) : bool :=
  let n := ord c in
  between 9 13 n || between 28 32 n || (n =? 133)%N || (n =? 160)%N.

(** The class [\d] of [re] on [str] patterns, which is also the set of
    digits [int()] accepts: the decimal digits. *)
Definition isdecimal (c : ascii) : bool := between 48 57 (ord c).

(** [c.isdigit()]: the decimal digits and the superscripts 2, 3 and 1. *)
Definition isdigit_char (c : ascii) : bool :=
  let n := ord c in
  isdecimal c || (n =? 178)%N || (n =? 179)%N || (n =? 185)%N.

(** [c.lower()]: A..Z and the capital letters U+00C0..U+00DE, the
    multiplication sign U+00D7 apart. *)
Definition lower_char (c : ascii) : ascii :=
  let n := ord c in
  if between 65 90 n || (between 192 222 n && negb (n =? 215)%N)
  then ascii_of_N (n + 32)
  else c.

Fixpoint lower (s : string) : string :=
  match s with
  | "" => ""
  | String c s' => String (lower_char c) (lower s')
  end.

Fixpoint forallb (p : ascii -> bool) (s : string) : bool :=
  match s with
  | "" => true
  | String c s' => p c && forallb p s'
  end.

(** [bool(s)]: a string is truthy when it is not empty. *)
Definition truthy (s : string) : bool :=
  match s with
  | "" => false
  | _ => true
  end.

(** [s.isdigit()]: at least one character, and all of them digits. *)
Definition isdigit (s : string) : bool := truthy s && forallb isdigit_char s.

Fixpoint lstrip (s : string) : string :=
  match s with
  | "" => ""
  | String c s' => if isspace c then lstrip s' else s
  end.

Fixpoint rstrip (s : string) : string :=
  match s with
  | "" => ""
  | String c s' =>
      match rstrip s' with
      | "" => if isspace c then "" else String c ""
      | r => String c r
      end
  end.

(** [s.strip()] *)
Definition strip (s : string) : string := rstrip (lstrip s).

Fixpoint startswith (p s : string) : bool :=
  match p, s with
  | "", _ => true
  | String a p', String b s' => Ascii.eqb a b && startswith p' s'
  | String _ _, "" => false
  end.

(** [p in s] *)
Fixpoint contains (p s : string) : bool :=
  startswith p s ||
  match s with
  | "" => false
  | String _ s' => contains p s'
  end.

(** [s in l] for a list of strings *)
Definition mem (s : string) (l : list string) : bool :=
  existsb (String.eqb s) l.

(** The digits a greedy [\d+] takes at the start of [s]. *)
Fixpoint digit_run (s : string) : string :=
  match s with
  | "" => ""
  | String c s' => if isdecimal c then String c (digit_run s') else ""
  end.

(** [re.search(r'\d+', s)]: [None], or the text of the leftmost match. *)
Fixpoint search_digits (s : string) : option string :=
  match s with
  | "" => None
  | String c s' => if isdecimal c then Some (digit_run s) else search_digits s'
  end.

(** The largest number of digits [int()] converts: the default value of
    [sys.get_int_max_str_digits()]. *)
Definition int_max_str_digits : nat := 4300.

(** [int(s)], for the arguments the code passes: strings that [isdigit]
    accepts and matches of [\d+].  Such a string has no sign, blank or
    underscore, so [int] returns its value when all its characters are
    decimal digits and there are at most [int_max_str_digits] of them
    (leading zeros count), and raises [ValueError] otherwise. *)
Definition int (s : string) : Result N :=
  match NilZero.uint_of_string s with
  | Some d =>
      if Nat.leb (String.length s) int_max_str_digits then Ok (N.of_uint d)
      else ValueError
  | None => ValueError
  end.

(** [str(n)], for the integers the code passes: the values of [int] above,
    which have at most [int_max_str_digits] digits, so that the limit never
    applies on the way back. *)
Definition str (n : N) : string := NilEmpty.string_of_uint (N.to_uint n).

End PyStr.
Import PyStr.

(** ** Class normalizers *)

(** [x or default] for an optional string: [None] and the empty string are
    falsy. *)
Definition or_default (x : option string) (default : string) : string :=
  match x with
  | Some s => if truthy s then s else default
  | None => default
  end.

(** [extrair_classe], the function [normalizar_classes] applies to the class
    column. *)
Definition extrair_classe (valor : option string) : Result (option string) :=
  match valor with
  | None => Ok None
  | Some v =>
      let valor_str := strip v in
      if mem (lower valor_str) ["n/a"; "nan"; "none"; ""] then Ok None
      else if isdigit valor_str then
        n <- int valor_str ;; Ok (Some (str n))
      else
        match search_digits valor_str with
        | Some m =>
            num <- int m ;;
            if (1 <=? num)%N && (num <=? 45)%N then Ok (Some (str num))
            else Ok (Some valor_str)
        | None => Ok (Some valor_str)
        end
  end.

(** [normalizar_valor_classe], the function [filtrar_por_classes] applies to
    the class column before comparing. *)
Definition normalizar_valor_classe (valor : option string)
  : Result (option string) :=
  match valor with
  | None => Ok None
  | Some v =>
      let valor_str := strip v in
      if mem (lower valor_str) ["n/a"; "nan"; "none"; ""] then Ok None
      else if isdigit valor_str then
        n <- int valor_str ;; Ok (Some (str n))
      else
        match search_digits valor_str with
        | Some m =>
            num <- int m ;;
            if (1 <=? num)%N && (num <=? 45)%N then Ok (Some (str num))
            else Ok (Some valor_str)
        | None => Ok (Some valor_str)
        end
  end.

(** The body of the loop of [filtrar_por_classes] over [classes_desejadas]:
    what one requested token appends to [classes_normalizadas]. *)
Definition normalizar_classe_desejada (c : string) : Result (list string) :=
  if truthy c && truthy (strip c) then
    let c_str := strip c in
    if isdigit c_str then
      n <- int c_str ;; Ok [str n]
    else
      match search_digits c_str with
      | Some m =>
          num <- int m ;;
          if (1 <=? num)%N && (num <=? 45)%N then Ok [str num] else Ok []
      | None => Ok [c_str]
      end
  else Ok [].

(** The loop itself: [classes_normalizadas] grows by [append], token after
    token. *)
Fixpoint classes_normalizadas_loop (classes_desejadas : list string)
    (classes_normalizadas : list string) : Result (list string) :=
  match classes_desejadas with
  | [] => Ok classes_normalizadas
  | c :: rest =>
      novos <- normalizar_classe_desejada c ;;
      classes_normalizadas_loop rest (classes_normalizadas ++ novos)
  end.

Definition classes_normalizadas (classes_desejadas : list string)
  : Result (list string) :=
  classes_normalizadas_loop classes_desejadas [].


(** ** The parsed XML document ([xml.etree.ElementTree]) *)

#[warnings="-register-all"] Inductive Element : Type :=
| Elem (tag : string) (attrib : list (string * string))
       (text : option string) (children : list Element).

Module ET.

Definition tag (e : Element) : string :=
  match e with Elem t _ _ _ => t end.
Definition attrib (e : Element) : list (string * string) :=
  match e with Elem _ a _ _ => a end.
Definition text (e : Element) : option string :=
  match e with Elem _ _ t _ => t end.
Definition children (e : Element) : list Element :=
  match e with Elem _ _ _ c => c end.

(** [e.get(key)]: [None] when the attribute is absent. *)
Fixpoint lookup (key : string) (a : list (string * string)) : option string :=
  match a with
  | [] => None
  | (k, v) :: a' => if String.eqb k key then Some v else lookup key a'
  end.

(** [e.get(key, default)] *)
Definition get (e : Element) (key default : string) : string :=
  match lookup key (attrib e) with
  | Some v => v
  | None => default
  end.

(** [e.iter()]: the element, then its descendants, in document order. *)
Fixpoint iter (e : Element) : list Element :=
  match e with
  | Elem _ _ _ cs => e :: flat_map iter cs
  end.

Definition has_tag (t : string) (e : Element) : bool := String.eqb (tag e) t.

(** [e.findall('t')] and [e.find('t')]: the children called [t]. *)
Definition findall_child (t : string) (e : Element) : list Element :=
  filter (has_tag t) (children e).
Definition find_child (t : string) (e : Element) : option Element :=
  hd_error (findall_child t e).

(** [e.findall('.//t')] and [e.find('.//t')]: the descendants called [t],
    the element itself excluded. *)
Definition findall_desc (t : string) (e : Element) : list Element :=
  filter (has_tag t) (flat_map iter (children e)).
Definition find_desc (t : string) (e : Element) : option Element :=
  hd_error (findall_desc t e).

(** [e.find('.//t/u')]: the first child called [u] of a descendant called
    [t]. *)
Definition find_desc_child (t u : string) (e : Element) : option Element :=
  hd_error (flat_map (findall_child u) (findall_desc t e)).

End ET.

(** ** Granted records *)

(** The dictionary [processo_dict]; its keys are the fields. *)
Record GrantedRecord : Type := mkRecord {
  numero_processo : string;
  marca : string;
  classe : string;
  titular : string;
  procurador : string;
  data_concessao : string;
  status_classe : string;
  especificacao : string;
  traducao_especificacao : string
}.

(** [x.text] of an element that may be [None]. *)
Definition text_of (e : option Element) : option string :=
  match e with
  | Some x => ET.text x
  | None => None
  end.

(** The process-level fields [_extrair_dados_processo_inpi] reads before it
    walks the classes. *)
Definition extrair_titular (processo : Element) : option string :=
  match ET.findall_desc "titular" processo with
  | titular_elem :: _ =>
      let t := ET.get titular_elem "nome-razao-social" "" in
      if truthy t then Some t else ET.text titular_elem
  | [] => None
  end.

Definition extrair_marca (processo : Element) : option string :=
  match ET.find_desc_child "marca" "nome" processo with
  | Some marca_elem => ET.text marca_elem
  | None =>
      match ET.find_desc "marca" processo with
      | Some marca_elem => text_of (ET.find_child "nome" marca_elem)
      | None => None
      end
  end.

Definition extrair_procurador (processo : Element) : option string :=
  text_of (ET.find_desc "procurador" processo).

Definition extrair_data_concessao (processo : Element) : string :=
  ET.get processo "data-concessao" (ET.get processo "data_concessao" "").

(** The test of the loop over [classes_nice]:
    [status_classe is not None and status_classe.text], then
    ['deferid' in status_classe.text.strip().lower()]. *)
Definition classe_deferida (classe_nice : Element) : bool :=
  match ET.find_child "status" classe_nice with
  | Some status_classe =>
      match ET.text status_classe with
      | Some t =>
          if truthy t then
            let status_texto := lower (strip t) in
            contains "deferid" status_texto
          else false
      | None => false
      end
  | None => false
  end.

(** The [processo_dict] built for a class that passed the test. *)
Definition registro_da_classe (processo classe_nice : Element) : GrantedRecord :=
  let codigo_classe := ET.get classe_nice "codigo" "" in
  let especificacao := text_of (ET.find_child "especificacao" classe_nice) in
  let traducao := text_of (ET.find_child "traducao-especificacao" classe_nice) in
  {| numero_processo := ET.get processo "numero" "";
     marca := or_default (extrair_marca processo) "N/A";
     classe := or_default (Some codigo_classe) "N/A";
     titular := or_default (extrair_titular processo) "N/A";
     procurador := or_default (extrair_procurador processo) "";
     data_concessao := or_default (Some (extrair_data_concessao processo)) "";
     status_classe :=
       or_default (text_of (ET.find_child "status" classe_nice)) "Deferido";
     especificacao := or_default especificacao "";
     traducao_especificacao := or_default traducao "" |}.

(** The [processo_dict] built when no class was kept. *)
Definition registro_sem_classe (processo : Element) : GrantedRecord :=
  {| numero_processo := ET.get processo "numero" "";
     marca := or_default (extrair_marca processo) "N/A";
     classe := "N/A";
     titular := or_default (extrair_titular processo) "N/A";
     procurador := or_default (extrair_procurador processo) "";
     data_concessao := or_default (Some (extrair_data_concessao processo)) "";
     status_classe := "Concedido";
     especificacao := "";
     traducao_especificacao := "" |}.

(** [for classe_nice in classes_nice: ...], with [processos_classe] as the
    accumulator the loop appends to. *)
Fixpoint classes_loop (processo : Element) (classes_nice : list Element)
    (processos_classe : list GrantedRecord) : list GrantedRecord :=
  match classes_nice with
  | [] => processos_classe
  | classe_nice :: rest =>
      if classe_deferida classe_nice then
        classes_loop processo rest
          (processos_classe ++ [registro_da_classe processo classe_nice])
      else classes_loop processo rest processos_classe
  end.

Definition nonempty {A : Type} (l : list A) : bool :=
  match l with
  | [] => false
  | _ => true
  end.

(** [_extrair_dados_processo_inpi] *)
Definition _extrair_dados_processo_inpi (processo : Element) : list GrantedRecord :=
  let numero_processo := ET.get processo "numero" "" in
  let classes_nice := ET.findall_desc "classe-nice" processo in
  let processos_classe := classes_loop processo classes_nice [] in
  if negb (nonempty processos_classe) && truthy numero_processo then
    processos_classe ++ [registro_sem_classe processo]
  else processos_classe.

(** [for despacho in despachos: if codigo == 'IPAS158': ...; break] *)
Fixpoint tem_concessao_loop (despachos : list Element) : bool :=
  match despachos with
  | [] => false
  | despacho :: rest =>
      let codigo := ET.get despacho "codigo" "" in
      if String.eqb codigo "IPAS158" then true
      else tem_concessao_loop rest
  end.

Definition tem_concessao (processo : Element) : bool :=
  tem_concessao_loop (ET.findall_desc "despacho" processo).

(** [for processo in root.findall('.//processo'): ...], with [processos] as
    the accumulator. *)
Fixpoint processos_loop (nodes : list Element) (processos : list GrantedRecord)
  : list GrantedRecord :=
  match nodes with
  | [] => processos
  | processo :: rest =>
      if tem_concessao processo then
        let dados_processo := _extrair_dados_processo_inpi processo in
        if nonempty dados_processo then
          processos_loop rest (processos ++ dados_processo)
        else processos_loop rest processos
      else processos_loop rest processos
  end.

(** The records of [processar_xml], before they are put in a table. *)
Definition processar_xml_registros (root : Element) : list GrantedRecord :=
  processos_loop (ET.findall_desc "processo" root) [].

(** The number of the gazette read by [processar_xml]. *)
Definition numero_revista (root : Element) : option string :=
  if String.eqb (lower (ET.tag root)) "revista" then
    ET.lookup "numero" (ET.attrib root)
  else
    match ET.find_desc "revista" root with
    | Some revista_elem => ET.lookup "numero" (ET.attrib revista_elem)
    | None => None
    end.

(** ** Tables ([pandas.DataFrame]) *)

Definition Cell : Type := option string.

(** A row is the dictionary of its cells; a column the row does not hold
    reads as a missing value. *)
Definition Row : Type := list (string * Cell).

Record DataFrame : Type := mkDF {
  columns : list string;
  rows : list Row
}.

Module DF.

(** [df.empty]: no row, or no column. *)
Definition empty (df : DataFrame) : bool :=
  negb (nonempty (rows df)) || negb (nonempty (columns df)).

Fixpoint loc (col : string) (r : Row) : Cell :=
  match r with
  | [] => None
  | (k, v) :: r' => if String.eqb k col then v else loc col r'
  end.

Fixpoint row_set (col : string) (v : Cell) (r : Row) : Row :=
  match r with
  | [] => [(col, v)]
  | (k, w) :: r' =>
      if String.eqb k col then (k, v) :: r' else (k, w) :: row_set col v r'
  end.

Definition row_drop (col : string) (r : Row) : Row :=
  filter (fun kv => negb (String.eqb (fst kv) col)) r.

(** [df[col]] *)
Definition column (col : string) (df : DataFrame) : list Cell :=
  map (loc col) (rows df).

(** [df[col] = values]: the column is replaced, or added as the last one. *)
Definition assign (col : string) (values : list Cell) (df : DataFrame)
  : DataFrame :=
  {| columns := if mem col (columns df) then columns df
                else columns df ++ [col];
     rows := map (fun rv => row_set col (snd rv) (fst rv))
                 (combine (rows df) values) |}.

(** [df[mask]] *)
Definition select (mask : list bool) (df : DataFrame) : DataFrame :=
  {| columns := columns df;
     rows := map fst (filter snd (combine (rows df) mask)) |}.

(** [df.drop(columns=[col])] *)
Definition drop (col : string) (df : DataFrame) : DataFrame :=
  {| columns := filter (fun c => negb (String.eqb c col)) (columns df);
     rows := map (row_drop col) (rows df) |}.

End DF.

(** [pd.DataFrame(processos)] for the dictionaries of the extractor, and
    [pd.DataFrame()]. *)
Definition linha (r : GrantedRecord) : Row :=
  [ ("numero_processo", Some (numero_processo r));
    ("marca", Some (marca r));
    ("classe", Some (classe r));
    ("titular", Some (titular r));
    ("procurador", Some (procurador r));
    ("data_concessao", Some (data_concessao r));
    ("status_classe", Some (status_classe r));
    ("especificacao", Some (especificacao r));
    ("traducao_especificacao", Some (traducao_especificacao r)) ].

Definition colunas_registro : list string :=
  [ "numero_processo"; "marca"; "classe"; "titular"; "procurador";
    "data_concessao"; "status_classe"; "especificacao";
    "traducao_especificacao" ].

Definition DataFrame_de_registros (processos : list GrantedRecord) : DataFrame :=
  {| columns := colunas_registro; rows := map linha processos |}.

Definition DataFrame_vazio : DataFrame := {| columns := []; rows := [] |}.

(** [processar_xml], from the parsed document on. *)
Definition processar_xml (root : Element) : DataFrame * option string :=
  let processos := processar_xml_registros root in
  if nonempty processos then (DataFrame_de_registros processos, numero_revista root)
  else (DataFrame_vazio, numero_revista root).

(** ** Filters *)

(** [Series.isin(values)] on one cell; a missing value is in no list of
    strings. *)
Definition isin (values : list string) (c : Cell) : bool :=
  match c with
  | Some s => mem s values
  | None => false
  end.

(** [filtrar_por_classes] *)
Definition filtrar_por_classes (df : DataFrame)
    (classes_desejadas : option (list string)) (coluna_classe : string)
  : Result DataFrame :=
  match classes_desejadas with
  | None => Ok df
  | Some desejadas =>
      if negb (nonempty desejadas) || negb (mem coluna_classe (columns df))
      then Ok df
      else if DF.empty df then Ok df
      else
        normalizadas <- classes_normalizadas desejadas ;;
        if negb (nonempty normalizadas) then Ok df
        else
          let temporaria := coluna_classe ++ "_normalizada" in
          valores <- mapM normalizar_valor_classe (DF.column coluna_classe df) ;;
          let df_filtrado := DF.assign temporaria valores df in
          let mask := map (isin normalizadas) (DF.column temporaria df_filtrado) in
          let df_resultado := DF.select mask df_filtrado in
          if mem temporaria (columns df_resultado)
          then Ok (DF.drop temporaria df_resultado)
          else Ok df_resultado
  end.

(** [[p.lower().strip() for p in palavras_chave if p and str(p).strip()]] *)
Fixpoint palavras_lower (palavras_chave : list string) : list string :=
  match palavras_chave with
  | [] => []
  | p :: rest =>
      if truthy p && truthy (strip p)
      then strip (lower p) :: palavras_lower rest
      else palavras_lower rest
  end.

(** [Series.fillna('')] on one cell *)
Definition fillna (c : Cell) : Cell :=
  match c with
  | Some s => Some s
  | None => Some ""
  end.

(** [Series.astype(str)] on one cell; a missing value prints as [nan]. *)
Definition astype_str (c : Cell) : string :=
  match c with
  | Some s => s
  | None => "nan"
  end.

(** [Series.str.contains(padrao, case=False, na=False, regex=True)] on one
    lowercased text, where [padrao] is ['|'.join(re.escape(p) ...)] over
    lowercased words: a search for any of the words, taken literally.  On
    strings over U+0000..U+00FF that are already lowercased, ignoring the
    case adds no match. *)
Definition contem_padrao (palavras : list string) (texto : string) : bool :=
  existsb (fun p => contains p texto) palavras.

(** [filtrar_por_palavras_chave] *)
Definition filtrar_por_palavras_chave (df : DataFrame)
    (palavras_chave : option (list string)) (coluna_especificacao : string)
  : DataFrame :=
  match palavras_chave with
  | None => df
  | Some palavras =>
      if negb (nonempty palavras) || negb (mem coluna_especificacao (columns df))
      then df
      else if DF.empty df then df
      else
        let lowers := palavras_lower palavras in
        if negb (nonempty lowers) then df
        else
          let df_filtrado :=
            DF.assign coluna_especificacao
              (map fillna (DF.column coluna_especificacao df)) df in
          let mask :=
            map (fun c => contem_padrao lowers (lower (astype_str c)))
                (DF.column coluna_especificacao df_filtrado) in
          DF.select mask df_filtrado
  end.

(** The calls [filtrar_processos] makes to the two filters, in order. *)
Inductive Chamada : Type :=
| ChamadaClasses
| ChamadaPalavrasChave.

(** [x and len(x) > 0] for an optional list *)
Definition informada (x : option (list string)) : bool :=
  match x with
  | Some l => nonempty l
  | None => false
  end.

(** A computation that calls methods of [self]: it takes the calls made so
    far and gives its outcome with the calls it made added to them.  A call
    that raises is a call too, and the exception leaves the computation. *)
Definition Efeito (A : Type) : Type :=
  list Chamada -> Result A * list Chamada.

Definition retorna {A : Type} (a : A) : Efeito A :=
  fun chamadas => (Ok a, chamadas).

Definition entao {A B : Type} (m : Efeito A) (k : A -> Efeito B) : Efeito B :=
  fun chamadas =>
    match m chamadas with
    | (Ok a, chamadas') => k a chamadas'
    | (ValueError, chamadas') => (ValueError, chamadas')
    end.

(** [self], as [filtrar_processos] uses it: the two filters it calls as
    [self.filtrar_por_classes] and [self.filtrar_por_palavras_chave]. *)
Record Self : Type := mkSelf {
  self_filtrar_por_classes :
    DataFrame -> option (list string) -> string -> Efeito DataFrame;
  self_filtrar_por_palavras_chave :
    DataFrame -> option (list string) -> string -> Efeito DataFrame
}.

(** The two filters of [ProcessadorINPI]; each call is recorded when it is
    made. *)
Definition ProcessadorINPI : Self := {|
  self_filtrar_por_classes df classes_desejadas coluna_classe :=
    fun chamadas =>
      (filtrar_por_classes df classes_desejadas coluna_classe,
       (chamadas ++ [ChamadaClasses])%list);
  self_filtrar_por_palavras_chave df palavras_chave coluna_especificacao :=
    fun chamadas =>
      (Ok (filtrar_por_palavras_chave df palavras_chave coluna_especificacao),
       (chamadas ++ [ChamadaPalavrasChave])%list)
|}.

(** The body of [filtrar_processos]. *)
Definition filtrar_processos_de (self : Self) (df : DataFrame)
    (classes_desejadas palavras_chave : option (list string))
    (coluna_classe coluna_especificacao : string) : Efeito DataFrame :=
  let etapa_palavras (df_filtrado : DataFrame) : Efeito DataFrame :=
    if informada palavras_chave then
      self_filtrar_por_palavras_chave self df_filtrado palavras_chave
        coluna_especificacao
    else retorna df_filtrado in
  if DF.empty df then retorna df
  else
    let df_filtrado := df in
    if informada classes_desejadas then
      entao (self_filtrar_por_classes self df_filtrado classes_desejadas
               coluna_classe)
            (fun df_filtrado =>
               if DF.empty df_filtrado then retorna df_filtrado
               else etapa_palavras df_filtrado)
    else etapa_palavras df_filtrado.

(** [filtrar_processos] of [ProcessadorINPI], returning with its result the
    calls it made. *)
Definition filtrar_processos_chamadas (df : DataFrame)
    (classes_desejadas palavras_chave : option (list string))
    (coluna_classe coluna_especificacao : string)
  : Result DataFrame * list Chamada :=
  filtrar_processos_de ProcessadorINPI df classes_desejadas palavras_chave
    coluna_classe coluna_especificacao [].

Definition filtrar_processos (df : DataFrame)
    (classes_desejadas palavras_chave : option (list string))
    (coluna_classe coluna_especificacao : string) : Result DataFrame :=
  fst (filtrar_processos_chamadas df classes_desejadas palavras_chave
         coluna_classe coluna_especificacao).

(** ** The other functions of the processor *)

(** The exceptions they raise: the [ValueError] of [int()], the [KeyError]
    of [df[col]] on a column the table lacks, and [Exception(mensagem)]. *)
Inductive Excecao : Type :=
| ExcValueError
| KeyError (chave : string)
| Exception (mensagem : string).

Inductive Py (A : Type) : Type :=
| Retorna (a : A)
| Levanta (e : Excecao).
Arguments Retorna {A} a.
Arguments Levanta {A} e.

Definition de_result {A : Type} (m : Result A) : Py A :=
  match m with
  | Ok a => Retorna a
  | ValueError => Levanta ExcValueError
  end.

(** [normalizar_classes] *)
Definition normalizar_classes (df : DataFrame) (coluna_classe : string)
  : Py DataFrame :=
  if mem coluna_classe (columns df) then
    de_result
      (valores <- mapM extrair_classe (DF.column coluna_classe df) ;;
       Ok (DF.assign coluna_classe valores df))
  else Levanta (KeyError coluna_classe).

(** The inner loop of [_encontrar_coluna]:
    [for idx, col_lower in enumerate(colunas_lower)], returning
    [df.columns[idx]] at the first column that contains the name. *)
Fixpoint encontrar_nome (nome_lower : string)
    (colunas : list (string * string)) : option string :=
  match colunas with
  | [] => None
  | (col, col_lower) :: resto =>
      if contains nome_lower col_lower then Some col
      else encontrar_nome nome_lower resto
  end.

(** The outer loop, [for nome in possiveis_nomes]. *)
Fixpoint encontrar_nomes (colunas : list (string * string))
    (possiveis_nomes : list string) : option string :=
  match possiveis_nomes with
  | [] => None
  | nome :: resto =>
      match encontrar_nome (lower nome) colunas with
      | Some col => Some col
      | None => encontrar_nomes colunas resto
      end
  end.

(** [_encontrar_coluna], on a table whose column labels are all [str]: the
    tables of the model.  [_encontrar_coluna_rotulos] below is the function
    on the labels of any table that was read. *)
Definition _encontrar_coluna (df : DataFrame) (possiveis_nomes : list string)
  : option string :=
  let colunas_lower := map lower (columns df) in
  encontrar_nomes (combine (columns df) colunas_lower) possiveis_nomes.

(** A column label of a table that was read.  pandas takes the labels from
    the header cells: a label is a [str], or a value of another type (the
    [int] or [float] of a numeric header cell of a sheet, a [datetime]), of
    which [tipo] is the name of the type.  None of those types has a method
    [lower]. *)
Inductive Rotulo : Type :=
| RotuloStr (nome : string)
| RotuloOutro (tipo : string).

(** The outcome of code that can only raise [AttributeError]: a value, or
    the exception raised when a value of type [tipo] has no attribute
    [atributo]. *)
Inductive ComAtributo (A : Type) : Type :=
| Obtido (a : A)
| AttributeError (tipo atributo : string).
Arguments Obtido {A} a.
Arguments AttributeError {A} tipo atributo.

(** [str(e)] for that exception. *)
Definition str_AttributeError (tipo atributo : string) : string :=
  "'" ++ tipo ++ "' object has no attribute '" ++ atributo ++ "'".

(** [[col.lower() for col in df.columns]]: the first label, in order, that
    is not a [str] raises. *)
Fixpoint colunas_lower (rotulos : list Rotulo) : ComAtributo (list string) :=
  match rotulos with
  | [] => Obtido []
  | RotuloStr nome :: resto =>
      match colunas_lower resto with
      | Obtido lowers => Obtido (lower nome :: lowers)
      | AttributeError tipo atributo => AttributeError tipo atributo
      end
  | RotuloOutro tipo :: _ => AttributeError tipo "lower"
  end.

(** The labels that are [str]: all of them, once [colunas_lower] has
    returned. *)
Fixpoint nomes_dos_rotulos (rotulos : list Rotulo) : list string :=
  match rotulos with
  | [] => []
  | RotuloStr nome :: resto => nome :: nomes_dos_rotulos resto
  | RotuloOutro _ :: resto => nomes_dos_rotulos resto
  end.

(** [_encontrar_coluna] on the labels of a table that was read. *)
Definition _encontrar_coluna_rotulos (rotulos : list Rotulo)
    (possiveis_nomes : list string) : ComAtributo (option string) :=
  match colunas_lower rotulos with
  | Obtido colunas_lower =>
      Obtido (encontrar_nomes (combine (nomes_dos_rotulos rotulos) colunas_lower)
                possiveis_nomes)
  | AttributeError tipo atributo => AttributeError tipo atributo
  end.

(** The words of the pattern [concedido|concessao|deferido|registrado]. *)
Definition palavras_concedido : list string :=
  ["concedido"; "concessao"; "deferido"; "registrado"].

(** [Series.astype(str).str.contains(pattern, case=False, na=False,
    regex=True)] on one cell, for a pattern that is an alternation of
    lowercase words: on strings over U+0000..U+00FF a text matches, the case
    ignored, when lowercased it contains one of the words.  A missing value
    prints as a word (nan, None) that contains none of them. *)
Definition str_contains_nocase (palavras : list string) (c : Cell) : bool :=
  contem_padrao palavras (lower (astype_str c)).

(** The block [processar_csv] and [processar_excel] run once they looked
    for the status column ([if coluna_status: ... df = df[mask]]): the rows
    whose status matches are kept, when a status column was found. *)
Definition filtrar_status (coluna_status : option string) (df : DataFrame)
  : DataFrame :=
  match coluna_status with
  | Some coluna_status =>
      if truthy coluna_status then
        let mask := map (str_contains_nocase palavras_concedido)
                        (DF.column coluna_status df) in
        DF.select mask df
      else df
  | None => df
  end.

(** That block with the search before it, on a table whose labels are all
    [str]. *)
Definition filtrar_concedidos (df : DataFrame) : DataFrame :=
  filtrar_status
    (_encontrar_coluna df ["situacao"; "status"; "situacao_processo"; "estado"])
    df.

(** A table that was read, with its labels and, row after row, its cells
    in the order of the labels, as a table of the model: meant for labels
    that are all [str]. *)
Definition tabela_lida (rotulos : list Rotulo) (linhas : list (list Cell))
  : DataFrame :=
  let nomes := nomes_dos_rotulos rotulos in
  {| columns := nomes; rows := map (combine nomes) linhas |}.

(** The search and the block on a table with labels of any type: the
    search raises on a label that is not a [str]; when it returns, every
    label is a [str]. *)
Definition filtrar_concedidos_rotulos (rotulos : list Rotulo)
    (linhas : list (list Cell)) : ComAtributo DataFrame :=
  match _encontrar_coluna_rotulos rotulos
          ["situacao"; "status"; "situacao_processo"; "estado"] with
  | Obtido coluna_status =>
      Obtido (filtrar_status coluna_status (tabela_lida rotulos linhas))
  | AttributeError tipo atributo => AttributeError tipo atributo
  end.

(** What [pd.read_csv] or [pd.read_excel] does on the file: it returns a
    table, raises [UnicodeDecodeError], or raises another exception; the
    string is [str(e)].  [Lido df] is a table whose labels are all [str],
    [LidoRotulos rotulos linhas] a table with labels of any type.  (pandas
    renames the labels that are repeated, so that the labels of a table that
    was read are distinct.) *)
Inductive Leitura : Type :=
| Lido (df : DataFrame)
| LidoRotulos (rotulos : list Rotulo) (linhas : list (list Cell))
| UnicodeDecodeError (mensagem : string)
| ErroDeLeitura (mensagem : string).

(** The loop [for enc in encodings] of [processar_csv]: the table of the
    first encoding that does not raise [UnicodeDecodeError], no table
    ([df is None]) when every encoding raised it, or the exception of
    another kind that left the loop, with its [str(e)]. *)
Inductive Tentativa : Type :=
| Leu (df : DataFrame)
| LeuRotulos (rotulos : list Rotulo) (linhas : list (list Cell))
| NenhumEncoding
| Falhou (mensagem : string).

Fixpoint ler_com_encodings (read_csv : string -> Leitura)
    (encodings : list string) : Tentativa :=
  match encodings with
  | [] => NenhumEncoding
  | enc :: resto =>
      match read_csv enc with
      | Lido df => Leu df
      | LidoRotulos rotulos linhas => LeuRotulos rotulos linhas
      | UnicodeDecodeError _ => ler_com_encodings read_csv resto
      | ErroDeLeitura mensagem => Falhou mensagem
      end
  end.

(** The message of the exception raised when no encoding could read the
    file; its two accented letters are U+00E3 and U+00ED. *)
Definition mensagem_sem_encoding : string :=
  "N" ++ String (ascii_of_N 227) "o foi poss" ++ String (ascii_of_N 237)
    "vel ler o arquivo CSV com os encodings testados".

(** [except Exception as e: raise Exception(f'{prefixo}{str(e)}')] around
    the search and the block. *)
Definition reerguer (prefixo : string) (m : ComAtributo DataFrame)
  : Py DataFrame :=
  match m with
  | Obtido df => Retorna df
  | AttributeError tipo atributo =>
      Levanta (Exception (prefixo ++ str_AttributeError tipo atributo))
  end.

(** [processar_csv]; [read_csv enc] stands for
    [pd.read_csv(caminho_arquivo, sep=separador, encoding=enc, ...)].  Every
    exception raised inside is raised again as [Exception], its message
    prefixed. *)
Definition processar_csv (read_csv : string -> Leitura) (encoding : string)
  : Py DataFrame :=
  let encodings := [encoding; "latin-1"; "iso-8859-1"; "cp1252"] in
  match ler_com_encodings read_csv encodings with
  | Leu df => Retorna (filtrar_concedidos df)
  | LeuRotulos rotulos linhas =>
      reerguer "Erro ao processar CSV: "
        (filtrar_concedidos_rotulos rotulos linhas)
  | NenhumEncoding =>
      Levanta (Exception ("Erro ao processar CSV: " ++ mensagem_sem_encoding))
  | Falhou mensagem =>
      Levanta (Exception ("Erro ao processar CSV: " ++ mensagem))
  end.

(** [processar_excel]; [read_excel] stands for
    [pd.read_excel(caminho_arquivo, sheet_name=planilha, ...)]. *)
Definition processar_excel (read_excel : Leitura) : Py DataFrame :=
  match read_excel with
  | Lido df => Retorna (filtrar_concedidos df)
  | LidoRotulos rotulos linhas =>
      reerguer "Erro ao processar Excel: "
        (filtrar_concedidos_rotulos rotulos linhas)
  | UnicodeDecodeError mensagem | ErroDeLeitura mensagem =>
      Levanta (Exception ("Erro ao processar Excel: " ++ mensagem))
  end.

(** [Series.unique()]: the values in the order they first appear. *)
Definition cell_eqb (a b : Cell) : bool :=
  match a, b with
  | Some x, Some y => String.eqb x y
  | None, None => true
  | _, _ => false
  end.

Fixpoint unique_desde (vistos : list Cell) (l : list Cell) : list Cell :=
  match l with
  | [] => []
  | x :: l' =>
      if existsb (cell_eqb x) vistos then unique_desde vistos l'
      else x :: unique_desde (x :: vistos) l'
  end.

Definition unique (l : list Cell) : list Cell := unique_desde [] l.

(** [df[df[col] == classe]]: a missing value is equal to nothing. *)
Definition linhas_da_classe (df : DataFrame) (col classe : string) : DataFrame :=
  DF.select (map (fun c => match c with
                           | Some s => String.eqb s classe
                           | None => false
                           end) (DF.column col df)) df.

(** [grupos[chave] = valor] on a dictionary kept in insertion order. *)
Fixpoint dict_set {A : Type} (chave : string) (valor : A)
    (d : list (string * A)) : list (string * A) :=
  match d with
  | [] => [(chave, valor)]
  | (k, v) :: d' =>
      if String.eqb k chave then (k, valor) :: d'
      else (k, v) :: dict_set chave valor d'
  end.

Fixpoint dict_get {A : Type} (chave : string) (d : list (string * A))
  : option A :=
  match d with
  | [] => None
  | (k, v) :: d' => if String.eqb k chave then Some v else dict_get chave d'
  end.

(** The loop of [agrupar_por_classe] over the unique classes. *)
Fixpoint agrupar_loop (df : DataFrame) (coluna_classe : string)
    (classes : list Cell) (grupos : list (string * DataFrame))
  : list (string * DataFrame) :=
  match classes with
  | [] => grupos
  | Some classe :: resto =>
      agrupar_loop df coluna_classe resto
        (dict_set classe (linhas_da_classe df coluna_classe classe) grupos)
  | None :: resto => agrupar_loop df coluna_classe resto grupos
  end.

(** [agrupar_por_classe], on a class column whose values are strings or
    missing, as [normalizar_classes] returns it: there [str(classe)] is
    [classe], and [==] is the equality of strings.  (On a column that mixes
    types, the number 3 and the string 3 are distinct classes with the same
    key; such columns are outside this model, whose cells are strings.) *)
Definition agrupar_por_classe (df : DataFrame) (coluna_classe : string)
  : Py (list (string * DataFrame)) :=
  if mem coluna_classe (columns df) then
    Retorna (agrupar_loop df coluna_classe
               (unique (DF.column coluna_classe df)) [])
  else Levanta (KeyError coluna_classe).

(** ** Vocabulary of the specification *)

(** A token without its leading zeros, ["0"] when nothing else is left: what
    the specification calls stripping leading zeros by integer round-trip. *)
Fixpoint lstrip_zeros (s : string) : string :=
  match s with
  | String "0"%char s' => lstrip_zeros s'
  | _ => s
  end.

Definition sem_zeros_a_esquerda (s : string) : string :=
  match lstrip_zeros s with
  | "" => "0"
  | r => r
  end.

(** A string all of whose characters are decimal digits, and that has one. *)
Definition so_digitos (s : string) : bool := truthy s && forallb isdecimal s.


(** A string that does not start with white space. *)
Definition head_ok (s : string) : bool :=
  match s with
  | "" => true
  | String c _ => negb (isspace c)
  end.

(** What a normalized value contributes to a list of classes. *)
Definition lista_de (v : option string) : list string :=
  match v with
  | Some x => [x]
  | None => []
  end.

(** The test the class filter applies to a row once the requested classes
    are normalized: the normalized class of the row is one of them. *)
Definition linha_mantida (normalizadas : list string) (coluna_classe : string)
    (r : Row) : bool :=
  match normalizar_valor_classe (DF.loc coluna_classe r) with
  | Ok v => isin normalizadas v
  | ValueError => false
  end.

(** The test the keyword filter applies to a row: its specification text,
    lowercased, contains one of the words; a missing text contains none. *)
Definition linha_com_palavra (palavras : list string)
    (coluna_especificacao : string) (r : Row) : bool :=
  match DF.loc coluna_especificacao r with
  | Some t => existsb (fun p => contains p (lower t)) palavras
  | None => false
  end.

(** The output of the loop over the classes of a process, before the
    record without class is considered. *)
Definition registros_por_classe (processo : Element) : list GrantedRecord :=
  classes_loop processo (ET.findall_desc "classe-nice" processo) [].

(** A dispatch node that carries the grant code. *)
Definition despacho_de_concessao (despacho : Element) : bool :=
  String.eqb (ET.get despacho "codigo" "") "IPAS158".

(** The class [extrair_classe] gives for a cell, no value where it
    raises. *)
Definition valor_normalizado (c : Cell) : Cell :=
  match extrair_classe c with
  | Ok v => v
  | ValueError => None
  end.

(** A row with its class cell normalized. *)
Definition linha_normalizada (coluna_classe : string) (r : Row) : Row :=
  DF.row_set coluna_classe (valor_normalizado (DF.loc coluna_classe r)) r.

(** A string of more characters than [int()] converts. *)
Definition excede (s : string) : bool :=
  negb (Nat.leb (String.length s) int_max_str_digits).

(** The trimmed tokens on which a normalizer calls [int()] and [int()]
    refuses: a token of digit characters that are not all decimal digits
    or are too many, and a token of another kind whose first run of decimal
    digits is too long. *)
Definition conversao_recusada (s : string) : bool :=
  if isdigit s then negb (forallb isdecimal s) || excede s
  else match search_digits s with
       | Some run => excede run
       | None => false
       end.

(** The values of a list of cells that are not missing. *)
Fixpoint presentes (l : list Cell) : list string :=
  match l with
  | [] => []
  | Some s :: l' => s :: presentes l'
  | None :: l' => presentes l'
  end.

(** The class of a row is [k]; the class of a row is not missing. *)
Definition da_classe (col k : string) (r : Row) : bool :=
  match DF.loc col r with
  | Some s => String.eqb s k
  | None => false
  end.

Definition com_classe (col : string) (r : Row) : bool :=
  match DF.loc col r with
  | Some _ => true
  | None => false
  end.

(** [c * n]: a character repeated. *)
Fixpoint repetir (n : nat) (c : ascii) : string :=
  match n with
  | O => ""
  | S n' => String c (repetir n' c)
  end.

(** ** Sample documents and tables *)

Definition no_status (t : string) : Element := Elem "status" [] (Some t) [].

Definition no_classe_nice (codigo status : string) : Element :=
  Elem "classe-nice" [("codigo", codigo)] None [no_status status].

Definition no_despacho (codigo : string) : Element :=
  Elem "despacho" [("codigo", codigo)] None [].

(** One grant dispatch; three classes, two granted and one refused. *)
Definition processo_tres_classes : Element :=
  Elem "processo" [("numero", "900000001")] None
    [ Elem "despachos" [] None [no_despacho "IPAS158"];
      Elem "lista-classe-nice" [] None
        [ no_classe_nice "03" "Deferida";
          no_classe_nice "09" "Deferida";
          no_classe_nice "35" "Indeferido" ] ].

(** One grant dispatch and no class. *)
Definition processo_sem_classes : Element :=
  Elem "processo" [("numero", "900000002")] None
    [ Elem "despachos" [] None [no_despacho "IPAS158"] ].

(** One grant dispatch, no class and no process number. *)
Definition processo_sem_numero : Element :=
  Elem "processo" [] None
    [ Elem "despachos" [] None [no_despacho "IPAS158"] ].

(** Granted classes, but a dispatch of another code. *)
Definition processo_sem_concessao : Element :=
  Elem "processo" [("numero", "900000003")] None
    [ Elem "despachos" [] None [no_despacho "IPAS029"];
      Elem "lista-classe-nice" [] None [no_classe_nice "03" "Deferida"] ].

Definition revista_de (processos : list Element) : Element :=
  Elem "revista" [("numero", "2800")] None processos.

Definition linha_exemplo (classe especificacao : Cell) : Row :=
  [("classe", classe); ("especificacao", especificacao)].

Definition tabela_exemplo : DataFrame :=
  {| columns := ["classe"; "especificacao"];
     rows := [ linha_exemplo (Some "3") (Some "Ferramentas manuais");
               linha_exemplo (Some "Cl. 99") (Some "xyz");
               linha_exemplo (Some "N/A") None ] |}.

(** * Properties *)

(** ** Characters *)

Ltac each_char c :=
  destruct c as [[|] [|] [|] [|] [|] [|] [|] [|]].

Lemma isspace_lower_char (c : ascii) : isspace (lower_char c) = isspace c.
Proof. each_char c; reflexivity. Qed.

Lemma lower_char_decimal (c : ascii) : isdecimal c = true -> lower_char c = c.
Proof. each_char c; intros H; try discriminate H; reflexivity. Qed.

Lemma isspace_decimal (c : ascii) : isdecimal c = true -> isspace c = false.
Proof. each_char c; intros H; try discriminate H; reflexivity. Qed.

Lemma isdecimal_lower_char (c : ascii) : isdecimal (lower_char c) = isdecimal c.
Proof. each_char c; reflexivity. Qed.

Lemma isdigit_char_lower_char (c : ascii) :
  isdigit_char (lower_char c) = isdigit_char c.
Proof. each_char c; reflexivity. Qed.

Lemma isdigit_char_decimal (c : ascii) :
  isdecimal c = true -> isdigit_char c = true.
Proof. unfold isdigit_char. now intros ->. Qed.

Lemma decimal_not_n (c : ascii) :
  isdecimal c = true -> Ascii.eqb c "n"%char = false.
Proof. each_char c; intros H; try discriminate H; reflexivity. Qed.

Lemma uint_of_char_decimal (c : ascii) (d : uint) :
  isdecimal c = true -> exists d', uint_of_char c (Some d) = Some d'.
Proof. each_char c; intros H; try discriminate H; simpl; eauto. Qed.

Lemma uint_of_char_not_decimal (c : ascii) (d : option uint) :
  isdecimal c = false -> uint_of_char c d = None.
Proof.
  destruct d; [|reflexivity].
  each_char c; intros H; try discriminate H; reflexivity.
Qed.

(** ** Strings *)

Lemma truthy_true (s : string) : truthy s = true <-> s <> "".
Proof. destruct s; simpl; split; congruence. Qed.

Lemma truthy_false (s : string) : truthy s = false <-> s = "".
Proof. destruct s; simpl; split; congruence. Qed.

Lemma truthy_lower (s : string) : truthy (lower s) = truthy s.
Proof. now destruct s. Qed.

(** *** [strip] *)

Lemma lstrip_head_ok (s : string) : head_ok (lstrip s) = true.
Proof.
  induction s as [|c s IH]; simpl; [reflexivity|].
  destruct (isspace c) eqn:E; [exact IH|]. simpl. now rewrite E.
Qed.

Lemma lstrip_fixed (s : string) : head_ok s = true -> lstrip s = s.
Proof.
  destruct s as [|c s]; simpl; [reflexivity|].
  now destruct (isspace c).
Qed.

Lemma rstrip_head_ok (s : string) : head_ok s = true -> head_ok (rstrip s) = true.
Proof.
  destruct s as [|c s]; simpl; [reflexivity|].
  intros H. destruct (rstrip s); simpl; [|exact H].
  destruct (isspace c) eqn:E; simpl; [reflexivity|]. now rewrite E.
Qed.

Lemma rstrip_idem (s : string) : rstrip (rstrip s) = rstrip s.
Proof.
  induction s as [|c s IH]; simpl; [reflexivity|].
  destruct (rstrip s) as [|c' r] eqn:E.
  - destruct (isspace c) eqn:Ec; simpl; [reflexivity|]. now rewrite Ec.
  - change (rstrip (String c (String c' r))) with
      (match rstrip (String c' r) with
       | "" => if isspace c then "" else String c ""
       | r0 => String c r0
       end).
    now rewrite IH.
Qed.

Lemma strip_idem (s : string) : strip (strip s) = strip s.
Proof.
  unfold strip.
  rewrite (lstrip_fixed (rstrip (lstrip s))).
  - apply rstrip_idem.
  - apply rstrip_head_ok, lstrip_head_ok.
Qed.

Lemma lstrip_lower (s : string) : lstrip (lower s) = lower (lstrip s).
Proof.
  induction s as [|c s IH]; simpl; [reflexivity|].
  rewrite isspace_lower_char. now destruct (isspace c).
Qed.

Lemma rstrip_lower (s : string) : rstrip (lower s) = lower (rstrip s).
Proof.
  induction s as [|c s IH]; simpl; [reflexivity|].
  rewrite IH, isspace_lower_char.
  destruct (rstrip s); simpl; [now destruct (isspace c)|reflexivity].
Qed.

Lemma strip_lower (s : string) : strip (lower s) = lower (strip s).
Proof. unfold strip. now rewrite lstrip_lower, rstrip_lower. Qed.

Lemma strip_no_space (s : string) :
  forallb (fun c => negb (isspace c)) s = true -> strip s = s.
Proof.
  intros H. unfold strip.
  assert (Hr : forall t, forallb (fun c => negb (isspace c)) t = true ->
                         rstrip t = t).
  { induction t as [|c t IH]; simpl; [reflexivity|].
    intros Ht. apply andb_prop in Ht as [Hc Ht].
    rewrite (IH Ht). destruct t; [|reflexivity].
    apply negb_true_iff in Hc. now rewrite Hc. }
  rewrite lstrip_fixed; [now apply Hr|].
  destruct s; simpl in *; [reflexivity|]. now apply andb_prop in H.
Qed.

(** *** [in] on strings *)

Lemma startswith_spec (p s : string) :
  startswith p s = true <-> exists b, s = p ++ b.
Proof.
  revert s. induction p as [|a p IH]; intros s; simpl.
  - split; [intros _; now exists s|reflexivity].
  - destruct s as [|c s].
    + split; [discriminate|intros [b Hb]; discriminate Hb].
    + rewrite andb_true_iff, IH. split.
      * intros [Hac [b ->]]. apply Ascii.eqb_eq in Hac as ->. now exists b.
      * intros [b Hb]. injection Hb as -> ->. split; [apply Ascii.eqb_refl|].
        now exists b.
Qed.

Lemma contains_spec (p s : string) :
  contains p s = true <-> exists a b, s = a ++ p ++ b.
Proof.
  induction s as [|c s IH].
  - simpl. rewrite orb_false_r. split.
    + intros H. apply startswith_spec in H as [b Hb]. now exists "", b.
    + intros [a [b H]]. apply startswith_spec. exists b.
      destruct a; [exact H|discriminate H].
  - change (contains p (String c s)) with
      (startswith p (String c s) || contains p s).
    rewrite orb_true_iff, IH. split.
    + intros [H|[a [b ->]]].
      * apply startswith_spec in H as [b Hb]. now exists "", b.
      * now exists (String c a), b.
    + intros [a [b H]]. destruct a as [|c' a].
      * left. apply startswith_spec. now exists b.
      * right. injection H as -> ->. now exists a, b.
Qed.

Lemma contains_empty_text (p : string) : truthy p = true -> contains p "" = false.
Proof. destruct p; simpl; [discriminate|reflexivity]. Qed.

(** *** Digits, [int] and [str] *)

Lemma so_digitos_cons (c : ascii) (s : string) :
  so_digitos (String c s) = isdecimal c && forallb isdecimal s.
Proof. reflexivity. Qed.

Lemma so_digitos_parts (s : string) :
  so_digitos s = true -> s <> "" /\ forallb isdecimal s = true.
Proof.
  unfold so_digitos. intros H. apply andb_prop in H as [H1 H2].
  split; [now apply truthy_true|exact H2].
Qed.

Lemma string_of_uint_decimal (d : uint) :
  forallb isdecimal (NilEmpty.string_of_uint d) = true.
Proof. induction d; simpl; auto. Qed.

Lemma to_uint_unorm (n : N) : N.to_uint n = unorm (N.to_uint n).
Proof. now rewrite <- DecimalN.Unsigned.to_of, DecimalN.Unsigned.of_to. Qed.

Lemma str_so_digitos (n : N) : so_digitos (str n) = true.
Proof.
  unfold so_digitos, str. rewrite string_of_uint_decimal, andb_true_r.
  apply truthy_true. intros H.
  assert (Hn : N.to_uint n = Nil) by (now destruct (N.to_uint n)).
  apply (unorm_nonnil (N.to_uint n)). now rewrite <- to_uint_unorm.
Qed.

Lemma length_string_of_uint (d : uint) :
  String.length (NilEmpty.string_of_uint d) = nb_digits d.
Proof. induction d; simpl; auto. Qed.

Lemma uint_of_decimal_string (s : string) :
  forallb isdecimal s = true -> exists d, NilEmpty.uint_of_string s = Some d.
Proof.
  induction s as [|c s IH]; simpl; [now exists Nil|].
  intros H. apply andb_prop in H as [Hc Hs].
  destruct (IH Hs) as [d ->]. now apply uint_of_char_decimal.
Qed.

Lemma uint_of_not_decimal (s : string) :
  forallb isdecimal s = false -> NilEmpty.uint_of_string s = None.
Proof.
  induction s as [|c s IH]; simpl; [discriminate|].
  destruct (isdecimal c) eqn:Ec; simpl; intros H.
  - rewrite (IH H). reflexivity.
  - now apply uint_of_char_not_decimal.
Qed.

(** [int] on a string of decimal digits: the value, up to the limit. *)
Lemma int_so_digitos (s : string) :
  so_digitos s = true ->
  exists d, NilEmpty.string_of_uint d = s /\ (d <> Nil) /\
            int s = if Nat.leb (String.length s) int_max_str_digits
                    then Ok (N.of_uint d) else ValueError.
Proof.
  intros H. apply so_digitos_parts in H as [Hne Hd].
  destruct (uint_of_decimal_string s Hd) as [d Hs].
  pose proof (NilEmpty.sus _ _ Hs) as Hds.
  exists d. split; [exact Hds|]. split.
  - intros ->. simpl in Hds. congruence.
  - unfold int, NilZero.uint_of_string. destruct s; [congruence|]. now rewrite Hs.
Qed.

Lemma int_not_decimal (s : string) :
  forallb isdecimal s = false -> int s = ValueError.
Proof.
  intros H. unfold int, NilZero.uint_of_string.
  destruct s as [|c0 s0]; [reflexivity|].
  now rewrite (uint_of_not_decimal _ H).
Qed.

(** Above the limit [int] raises, whatever the string. *)
Lemma int_excede (s : string) :
  int_max_str_digits < String.length s -> int s = ValueError.
Proof.
  intros H. unfold int. destruct (NilZero.uint_of_string s); [|reflexivity].
  apply Nat.leb_gt in H. now rewrite H.
Qed.

Lemma nzhead_string (d : uint) :
  NilEmpty.string_of_uint (nzhead d) = lstrip_zeros (NilEmpty.string_of_uint d).
Proof. induction d; simpl; auto. Qed.

Lemma unorm_string (d : uint) :
  NilEmpty.string_of_uint (unorm d)
  = sem_zeros_a_esquerda (NilEmpty.string_of_uint d).
Proof.
  unfold sem_zeros_a_esquerda. rewrite <- nzhead_string. unfold unorm.
  destruct (nzhead d); reflexivity.
Qed.

(** What [int] returns, and on which strings: decimal digits, no more than
    the limit; [str] of the value is the string without its leading zeros,
    which is no longer. *)
Lemma int_ok (s : string) (n : N) :
  int s = Ok n ->
  so_digitos s = true /\ String.length s <= int_max_str_digits /\
  str n = sem_zeros_a_esquerda s /\
  String.length (str n) <= String.length s.
Proof.
  intros H.
  destruct (so_digitos s) eqn:Hs.
  - destruct (int_so_digitos s Hs) as [d [Hd [Hnil Hi]]].
    rewrite Hi in H.
    destruct (Nat.leb (String.length s) int_max_str_digits) eqn:Hl;
      [|discriminate H].
    injection H as <-. apply Nat.leb_le in Hl.
    assert (Hstr : str (N.of_uint d) = NilEmpty.string_of_uint (unorm d))
      by (unfold str; now rewrite DecimalN.Unsigned.to_of).
    split; [reflexivity|]. split; [exact Hl|]. split.
    + now rewrite Hstr, unorm_string, Hd.
    + rewrite Hstr, length_string_of_uint, <- Hd, length_string_of_uint.
      now apply nb_digits_unorm.
  - unfold so_digitos in Hs. apply andb_false_iff in Hs as [Hs|Hs].
    + apply truthy_false in Hs. subst s. discriminate H.
    + now rewrite (int_not_decimal s Hs) in H.
Qed.


(** [int] raises exactly on the strings that are not made of decimal digits
    and on those that have too many. *)
Lemma int_erro (s : string) :
  int s = ValueError <->
  so_digitos s = false \/ int_max_str_digits < String.length s.
Proof.
  split.
  - intros H. destruct (so_digitos s) eqn:Hs; [right|now left].
    destruct (int_so_digitos s Hs) as [d [_ [_ Hi]]]. rewrite Hi in H.
    destruct (Nat.leb (String.length s) int_max_str_digits) eqn:Hl;
      [discriminate H|].
    now apply Nat.leb_gt.
  - intros [H|H]; [|now apply int_excede].
    destruct (int s) as [n|] eqn:Hi; [|reflexivity].
    apply int_ok in Hi as [Hs _]. congruence.
Qed.

(** [int(str(n))] is [n], for the integers the code builds. *)
Lemma int_str (n : N) :
  String.length (str n) <= int_max_str_digits -> int (str n) = Ok n.
Proof.
  intros Hl.
  pose proof (str_so_digitos n) as H. apply so_digitos_parts in H as [Hne _].
  unfold int. apply Nat.leb_le in Hl. rewrite Hl.
  unfold NilZero.uint_of_string.
  destruct (str n) as [|c s] eqn:E; [congruence|].
  rewrite <- E. unfold str. rewrite NilEmpty.usu.
  now rewrite DecimalN.Unsigned.of_to.
Qed.

Lemma int_str_int (s : string) (n : N) : int s = Ok n -> int (str n) = Ok n.
Proof.
  intros H. apply int_ok in H as [_ [Hl [_ Hle]]].
  apply int_str. now apply (Nat.le_trans _ _ _ Hle).
Qed.

Lemma so_digitos_isdigit (s : string) : so_digitos s = true -> isdigit s = true.
Proof.
  unfold so_digitos, isdigit. intros H. apply andb_prop in H as [-> H]. simpl.
  induction s as [|c s IH]; simpl in *; [reflexivity|].
  apply andb_prop in H as [Hc Hs]. now rewrite (isdigit_char_decimal c Hc), IH.
Qed.

Lemma decimal_no_space (s : string) :
  forallb isdecimal s = true -> forallb (fun c => negb (isspace c)) s = true.
Proof.
  induction s as [|c s IH]; simpl; [reflexivity|].
  intros H. apply andb_prop in H as [Hc Hs].
  now rewrite (isspace_decimal c Hc), IH.
Qed.

Lemma so_digitos_strip (s : string) : so_digitos s = true -> strip s = s.
Proof.
  intros H. apply so_digitos_parts in H as [_ H].
  now apply strip_no_space, decimal_no_space.
Qed.

Lemma so_digitos_lower (s : string) : so_digitos s = true -> lower s = s.
Proof.
  intros H. apply so_digitos_parts in H as [_ H].
  induction s as [|c s IH]; simpl in *; [reflexivity|].
  apply andb_prop in H as [Hc Hs]. now rewrite (lower_char_decimal c Hc), IH.
Qed.

Lemma so_digitos_valido (s : string) :
  so_digitos s = true -> mem s ["n/a"; "nan"; "none"; ""] = false.
Proof.
  destruct s as [|c s]; [discriminate|].
  rewrite so_digitos_cons. intros H. apply andb_prop in H as [Hc _].
  unfold mem. simpl. now rewrite (decimal_not_n c Hc).
Qed.

(** *** [re.search(r'\d+', s)] *)

Lemma digit_run_decimal (s : string) : forallb isdecimal (digit_run s) = true.
Proof.
  induction s as [|c s IH]; simpl; [reflexivity|].
  destruct (isdecimal c) eqn:E; simpl; [now rewrite E|reflexivity].
Qed.

Lemma search_digits_so_digitos (s m : string) :
  search_digits s = Some m -> so_digitos m = true.
Proof.
  induction s as [|c s IH]; simpl; [discriminate|].
  destruct (isdecimal c) eqn:E; [|exact IH].
  intros [= <-]. rewrite so_digitos_cons, E. apply digit_run_decimal.
Qed.




Lemma isdigit_lower (s : string) : isdigit (lower s) = isdigit s.
Proof.
  unfold isdigit. rewrite truthy_lower. f_equal.
  induction s as [|c s IH]; simpl; [reflexivity|].
  now rewrite isdigit_char_lower_char, IH.
Qed.

Lemma search_digits_lower (s : string) :
  search_digits (lower s) = search_digits s.
Proof.
  assert (Hrun : forall t, digit_run (lower t) = digit_run t).
  { induction t as [|c t IH]; simpl; [reflexivity|].
    rewrite isdecimal_lower_char. destruct (isdecimal c) eqn:E; [|reflexivity].
    now rewrite (lower_char_decimal c E), IH. }
  induction s as [|c s IH]; [reflexivity|].
  cbn [lower search_digits]. rewrite isdecimal_lower_char.
  destruct (isdecimal c) eqn:E; [|exact IH].
  f_equal. apply (Hrun (String c s)).
Qed.

(** ** The class normalizer *)

(** The two copies of the normalizer of stored values are the same function. *)
Lemma normalizar_valor_classe_extrair_classe (valor : option string) :
  normalizar_valor_classe valor = extrair_classe valor.
Proof. reflexivity. Qed.


Lemma excede_true (s : string) :
  excede s = true <-> int_max_str_digits < String.length s.
Proof. unfold excede. rewrite negb_true_iff. apply Nat.leb_gt. Qed.


Lemma extrair_classe_str (n : N) :
  String.length (str n) <= int_max_str_digits ->
  extrair_classe (Some (str n)) = Ok (Some (str n)).
Proof.
  intros Hl. pose proof (str_so_digitos n) as H. unfold extrair_classe.
  rewrite (so_digitos_strip _ H), (so_digitos_lower _ H),
    (so_digitos_valido _ H), (so_digitos_isdigit _ H), (int_str n Hl).
  reflexivity.
Qed.

Lemma extrair_classe_int (s : string) (n : N) :
  int s = Ok n -> extrair_classe (Some (str n)) = Ok (Some (str n)).
Proof.
  intros H. apply extrair_classe_str.
  apply int_ok in H as [_ [Hl [_ Hle]]]. now apply (Nat.le_trans _ _ _ Hle).
Qed.


(** A token that [isdigit] accepts is none of the tokens without value. *)
Lemma isdigit_valido (s : string) :
  isdigit s = true -> mem (lower s) ["n/a"; "nan"; "none"; ""] = false.
Proof.
  destruct s as [|c s]; [discriminate|]. unfold isdigit, mem. cbn.
  intros H. apply andb_prop in H as [Hc _].
  each_char c; try discriminate Hc; reflexivity.
Qed.

(** Where [int()] refuses a token that [isdigit()] accepted, the normalizer
    raises. *)
Lemma extrair_classe_recusa_digitos (raw : string) :
  isdigit (strip raw) = true -> int (strip raw) = ValueError ->
  extrair_classe (Some raw) = ValueError.
Proof.
  intros Hd Hi. unfold extrair_classe.
  now rewrite (isdigit_valido _ Hd), Hd, Hi.
Qed.



(** A value the normalizer returns is one it leaves as it is. *)
Lemma extrair_classe_fixo (x v : option string) :
  extrair_classe x = Ok v -> extrair_classe v = Ok v.
Proof.
  destruct x as [raw|]; [|now intros [= <-]].
  unfold extrair_classe at 1.
  destruct (mem (lower (strip raw)) _) eqn:Hinv; [now intros [= <-]|].
  destruct (isdigit (strip raw)) eqn:Hdig.
  - destruct (int (strip raw)) as [n|] eqn:Hn; simpl; [|discriminate].
    intros [= <-]. exact (extrair_classe_int _ _ Hn).
  - destruct (search_digits (strip raw)) as [m|] eqn:Hm.
    + destruct (int m) as [num|] eqn:Hnum; simpl; [|discriminate].
      destruct ((1 <=? num)%N && (num <=? 45)%N) eqn:Hrange.
      * intros [= <-]. exact (extrair_classe_int _ _ Hnum).
      * intros [= <-]. unfold extrair_classe.
        rewrite strip_idem, Hinv, Hdig, Hm, Hnum. simpl. now rewrite Hrange.
    + intros [= <-]. unfold extrair_classe.
      now rewrite strip_idem, Hinv, Hdig, Hm.
Qed.

(** C7. The class normalizer is idempotent: normalizing what it returned
    gives the same value again, for every input (a missing value, or any
    string); where the first call raises, so does the composition. *)
Theorem extrair_classe_idempotente (x : option string) :
  (v <- extrair_classe x ;; extrair_classe v) = extrair_classe x.
Proof.
  destruct (extrair_classe x) as [v|] eqn:E; simpl; [|reflexivity].
  exact (extrair_classe_fixo x v E).
Qed.


(** Other tokens that give no value. *)
Lemma extrair_classe_exemplos :
  extrair_classe (Some "n/a") = Ok None /\
  extrair_classe (Some "NaN") = Ok None /\
  extrair_classe (Some " None ") = Ok None /\
  extrair_classe (Some "") = Ok None /\
  extrair_classe (Some "   ") = Ok None.
Proof. repeat split; reflexivity. Qed.



(** A token of digit characters that are not all decimal makes the
    normalizer raise; the token 3 followed by a superscript two is not
    returned unchanged either. *)
Lemma extrair_classe_expoente :
  isdigit (String (ascii_of_N 178) "") = true /\
  extrair_classe (Some (String (ascii_of_N 178) "")) = ValueError /\
  extrair_classe (Some (String "3" (String (ascii_of_N 178) ""))) = ValueError.
Proof. repeat split; reflexivity. Qed.

(** ** Lists, rows and tables *)

Lemma mem_In (s : string) (l : list string) : mem s l = true <-> In s l.
Proof.
  unfold mem. rewrite existsb_exists. split.
  - intros [x [Hx Heq]]. apply String.eqb_eq in Heq. now subst.
  - intros H. exists s. split; [exact H|apply String.eqb_refl].
Qed.

Lemma mem_last (s : string) (l : list string) : mem s (l ++ [s]) = true.
Proof. apply mem_In, in_or_app. right. now left. Qed.

Lemma nonempty_true {A : Type} (l : list A) : nonempty l = true <-> l <> [].
Proof. destruct l; simpl; split; congruence. Qed.

Lemma nonempty_false {A : Type} (l : list A) : nonempty l = false <-> l = [].
Proof. destruct l; simpl; split; congruence. Qed.

Lemma mapM_Forall2 {A B : Type} (f : A -> Result B) (l : list A) (ys : list B) :
  mapM f l = Ok ys -> Forall2 (fun x y => f x = Ok y) l ys.
Proof.
  revert ys. induction l as [|x l IH]; simpl; intros ys.
  - intros [= <-]. constructor.
  - destruct (f x) as [y|] eqn:Hx; simpl; [|discriminate].
    destruct (mapM f l) as [ys'|]; simpl; [|discriminate].
    intros [= <-]. constructor; [exact Hx|now apply IH].
Qed.

Lemma select_mask {A : Type} (m : A -> bool) (l : list A) :
  map fst (filter snd (combine l (map m l))) = filter m l.
Proof.
  induction l as [|x l IH]; simpl; [reflexivity|].
  destruct (m x); simpl; now rewrite IH.
Qed.

Lemma filter_map_comm {A B : Type} (p : B -> bool) (f : A -> B) (l : list A) :
  filter p (map f l) = map f (filter (fun x => p (f x)) l).
Proof.
  induction l as [|x l IH]; simpl; [reflexivity|].
  destruct (p (f x)); simpl; now rewrite IH.
Qed.

Lemma combine_map_self {A B : Type} (g : A -> B) (l : list A) :
  combine l (map g l) = map (fun x => (x, g x)) l.
Proof. induction l as [|x l IH]; simpl; [reflexivity|]. now rewrite IH. Qed.

Lemma loc_row_set (col : string) (v : Cell) (r : Row) :
  DF.loc col (DF.row_set col v r) = v.
Proof.
  induction r as [|[k w] r IH]; simpl.
  - now rewrite String.eqb_refl.
  - destruct (String.eqb k col) eqn:E; simpl; now rewrite E.
Qed.

Lemma row_drop_row_set (col : string) (v : Cell) (r : Row) :
  DF.row_drop col (DF.row_set col v r) = DF.row_drop col r.
Proof.
  unfold DF.row_drop. induction r as [|[k w] r IH]; simpl.
  - now rewrite String.eqb_refl.
  - destruct (String.eqb k col) eqn:E; simpl; rewrite E; simpl;
      [reflexivity|now rewrite IH].
Qed.

Lemma loc_row_drop (k col : string) (r : Row) :
  String.eqb col k = false -> DF.loc k (DF.row_drop col r) = DF.loc k r.
Proof.
  intros Hk. unfold DF.row_drop. induction r as [|[k' w] r IH]; simpl.
  - reflexivity.
  - destruct (String.eqb k' col) eqn:E; simpl.
    + apply String.eqb_eq in E. subst k'. now rewrite Hk.
    + now rewrite IH.
Qed.

Lemma row_set_loc (col : string) (t : string) (r : Row) :
  DF.loc col r = Some t -> DF.row_set col (Some t) r = r.
Proof.
  induction r as [|[k w] r IH]; simpl; [discriminate|].
  destruct (String.eqb k col); [now intros ->|].
  intros H. now rewrite IH.
Qed.

Lemma row_drop_absent (col : string) (r : Row) :
  mem col (map fst r) = false -> DF.row_drop col r = r.
Proof.
  unfold DF.row_drop, mem. induction r as [|[k w] r IH]; simpl; [reflexivity|].
  intros H. apply orb_false_elim in H as [Hk Hr].
  rewrite String.eqb_sym, Hk. simpl. now rewrite IH.
Qed.

Lemma length_append (s t : string) :
  String.length (s ++ t) = String.length s + String.length t.
Proof. induction s as [|c s IH]; simpl; [reflexivity|]. now rewrite IH. Qed.

Lemma temporaria_distinta (col : string) :
  String.eqb (col ++ "_normalizada") col = false.
Proof.
  apply String.eqb_neq. intros H.
  apply (f_equal String.length) in H. rewrite length_append in H.
  simpl in H. lia.
Qed.

(** ** The class filter *)

(** The requested tokens are normalized one by one, in order. *)
Lemma classes_normalizadas_loop_app (cs : list string) (acc : list string) :
  classes_normalizadas_loop cs acc
  = (l <- classes_normalizadas_loop cs [] ;; Ok (acc ++ l)%list).
Proof.
  revert acc. induction cs as [|c cs IH]; intros acc; simpl.
  - now rewrite List.app_nil_r.
  - destruct (normalizar_classe_desejada c) as [novos|]; simpl; [|reflexivity].
    rewrite (IH (acc ++ novos)%list), (IH novos).
    destruct (classes_normalizadas_loop cs []); simpl; [|reflexivity].
    now rewrite List.app_assoc.
Qed.

Lemma classes_normalizadas_cons (c : string) (cs : list string) :
  classes_normalizadas (c :: cs)
  = (novos <- normalizar_classe_desejada c ;;
     l <- classes_normalizadas cs ;; Ok (novos ++ l)%list).
Proof.
  unfold classes_normalizadas. simpl.
  destruct (normalizar_classe_desejada c) as [novos|]; simpl; [|reflexivity].
  apply classes_normalizadas_loop_app.
Qed.

Lemma classes_normalizadas_nonempty (cs cn : list string) :
  classes_normalizadas cs = Ok cn -> cn <> [] -> nonempty cs = true.
Proof. destruct cs; [intros [= <-]; congruence|reflexivity]. Qed.

Lemma kept_rows (cn : list string) (col : string) (l : list Row)
    (valores : list Cell) :
  Forall2 (fun r v => normalizar_valor_classe (DF.loc col r) = Ok v) l valores ->
  map fst (filter (fun rv => isin cn (snd rv)) (combine l valores))
  = filter (linha_mantida cn col) l.
Proof.
  induction 1 as [|r v l vs Hr _ IH]; simpl; [reflexivity|].
  unfold linha_mantida at 1. rewrite Hr.
  destruct (isin cn v); simpl; now rewrite IH.
Qed.

(** What the class filter returns once it got past its guards: the rows
    whose normalized class is requested, without the transient column. *)
Lemma filtrar_por_classes_ativo (df out : DataFrame) (cs cn : list string)
    (col : string) :
  mem col (columns df) = true ->
  DF.empty df = false ->
  classes_normalizadas cs = Ok cn ->
  cn <> [] ->
  filtrar_por_classes df (Some cs) col = Ok out ->
  columns out
  = filter (fun c => negb (String.eqb c (col ++ "_normalizada"))) (columns df)
  /\ rows out
     = map (DF.row_drop (col ++ "_normalizada"))
           (filter (linha_mantida cn col) (rows df)).
Proof.
  intros Hcol Hempty Hcn Hne. unfold filtrar_por_classes.
  rewrite (classes_normalizadas_nonempty cs cn Hcn Hne), Hcol, Hempty, Hcn.
  simpl. apply nonempty_true in Hne. rewrite Hne. simpl.
  remember (col ++ "_normalizada") as temp eqn:Htemp. clear Htemp.
  destruct (mapM normalizar_valor_classe (DF.column col df)) as [valores|] eqn:Hv;
    simpl; [|discriminate].
  assert (Hin : mem temp (if mem temp (columns df) then columns df
                          else (columns df ++ [temp])%list) = true).
  { destruct (mem temp (columns df)) eqn:E; [exact E|apply mem_last]. }
  rewrite Hin. intros [= <-]. simpl. split.
  - destruct (mem temp (columns df)) eqn:E; [reflexivity|].
    rewrite filter_app. simpl. rewrite String.eqb_refl. simpl.
    now rewrite List.app_nil_r.
  - unfold DF.column at 1. simpl.
    rewrite (map_map (DF.loc temp) (isin cn)).
    rewrite (select_mask (fun r => isin cn (DF.loc temp r))).
    rewrite filter_map_comm, map_map.
    rewrite (filter_ext _ (fun rv => isin cn (snd rv)))
      by (intros [r v]; simpl; now rewrite loc_row_set).
    rewrite (map_ext _ (fun rv => DF.row_drop temp (fst rv)))
      by (intros [r v]; simpl; apply row_drop_row_set).
    rewrite <- (map_map fst (DF.row_drop temp)). f_equal.
    apply kept_rows. apply mapM_Forall2 in Hv. unfold DF.column in Hv.
    clear -Hv. remember (map (DF.loc col) (rows df)) as cells eqn:Hc.
    revert Hc. generalize (rows df) as l.
    induction Hv as [|c v cells vs Hcv _ IH]; intros l Hc.
    + destruct l; [constructor|discriminate].
    + destruct l as [|r l]; [discriminate|]. injection Hc as -> ->.
      constructor; [exact Hcv|now apply IH].
Qed.

Lemma linha_mantida_com_classe (cn : list string) (col : string) (r : Row) :
  linha_mantida cn col r = true ->
  normalizar_valor_classe (DF.loc col r) <> Ok None.
Proof. unfold linha_mantida. intros H E. rewrite E in H. discriminate H. Qed.

Lemma filtrar_por_classes_linhas (df out : DataFrame) (cs cn : list string)
    (col : string) :
  mem col (columns df) = true ->
  classes_normalizadas cs = Ok cn ->
  cn <> [] ->
  filtrar_por_classes df (Some cs) col = Ok out ->
  rows out
  = map (DF.row_drop (col ++ "_normalizada"))
        (filter (linha_mantida cn col) (rows df))
  /\ Forall (fun r => normalizar_valor_classe (DF.loc col r) <> Ok None)
            (rows out).
Proof.
  intros Hcol Hcn Hne Hout.
  assert (Hrows : rows out
                  = map (DF.row_drop (col ++ "_normalizada"))
                      (filter (linha_mantida cn col) (rows df))).
  { destruct (DF.empty df) eqn:Hempty.
    - unfold filtrar_por_classes in Hout.
      rewrite (classes_normalizadas_nonempty cs cn Hcn Hne), Hcol, Hempty in Hout.
      simpl in Hout. injection Hout as <-.
      unfold DF.empty in Hempty. destruct (rows df); [reflexivity|].
      destruct (columns df); [discriminate Hcol|discriminate Hempty].
    - now apply (filtrar_por_classes_ativo df out cs cn col). }
  split; [exact Hrows|].
  rewrite Hrows. apply Forall_forall. intros r' Hr'.
  apply in_map_iff in Hr' as [r [<- Hr]]. apply filter_In in Hr as [_ Hr].
  rewrite loc_row_drop by apply temporaria_distinta.
  now apply (linha_mantida_com_classe cn).
Qed.

(** On a table none of whose rows holds the transient column, the rows kept
    are returned as they were. *)
Lemma filtrar_por_classes_linhas_intactas (df out : DataFrame)
    (cs cn : list string) (col : string) :
  mem col (columns df) = true ->
  classes_normalizadas cs = Ok cn ->
  cn <> [] ->
  (forall r, In r (rows df) ->
             mem (col ++ "_normalizada") (map fst r) = false) ->
  filtrar_por_classes df (Some cs) col = Ok out ->
  rows out = filter (linha_mantida cn col) (rows df).
Proof.
  intros Hcol Hcn Hne Hrows Hout.
  destruct (filtrar_por_classes_linhas df out cs cn col Hcol Hcn Hne Hout)
    as [-> _].
  rewrite <- (map_id (filter (linha_mantida cn col) (rows df))) at 2.
  apply map_ext_in. intros r Hr. apply filter_In in Hr as [Hr _].
  apply row_drop_absent. now apply Hrows.
Qed.

(** The table of the extractor is such a table. *)
Lemma filtrar_por_classes_registros (registros : list GrantedRecord)
    (out : DataFrame) (cs cn : list string) :
  classes_normalizadas cs = Ok cn ->
  cn <> [] ->
  filtrar_por_classes (DataFrame_de_registros registros) (Some cs) "classe"
  = Ok out ->
  rows out
  = map linha
        (filter (fun g => match normalizar_valor_classe (Some (classe g)) with
                          | Ok v => isin cn v
                          | ValueError => false
                          end) registros).
Proof.
  intros Hcn Hne Hout.
  rewrite (filtrar_por_classes_linhas_intactas
             (DataFrame_de_registros registros) out cs cn "classe"
             eq_refl Hcn Hne); [|now (simpl; intros r Hr;
                                      apply in_map_iff in Hr as [g [<- _]])
                                |exact Hout].
  simpl. now rewrite filter_map_comm.
Qed.

(** C10. When the class filter runs on the class column with a requested set
    that is not empty after normalization, the rows it returns are the rows
    whose normalized class is requested; a row whose class normalizes to no
    value is not one of them, so no row of the result has such a class.  In
    particular the record emitted for a granted process without class detail
    (class N/A) is never in the result of an active class filter on the
    extracted table. *)
Theorem filtro_de_classes_exclui_sem_classe :
  (forall (df out : DataFrame) (cs cn : list string) (col : string),
      mem col (columns df) = true ->
      classes_normalizadas cs = Ok cn ->
      cn <> [] ->
      filtrar_por_classes df (Some cs) col = Ok out ->
      rows out
      = map (DF.row_drop (col ++ "_normalizada"))
            (filter (linha_mantida cn col) (rows df))
      /\ (forall r, normalizar_valor_classe (DF.loc col r) = Ok None ->
                    linha_mantida cn col r = false)
      /\ Forall (fun r => normalizar_valor_classe (DF.loc col r) <> Ok None)
                (rows out))
  /\
  (forall (registros : list GrantedRecord) (out : DataFrame)
          (cs cn : list string) (processo : Element),
      classes_normalizadas cs = Ok cn ->
      cn <> [] ->
      filtrar_por_classes (DataFrame_de_registros registros) (Some cs) "classe"
      = Ok out ->
      ~ In (linha (registro_sem_classe processo)) (rows out)).
Proof.
  split.
  - intros df out cs cn col Hcol Hcn Hne Hout.
    destruct (filtrar_por_classes_linhas df out cs cn col Hcol Hcn Hne Hout)
      as [Hrows Hall].
    split; [exact Hrows|]. split; [|exact Hall].
    intros r Hr. unfold linha_mantida. now rewrite Hr.
  - intros registros out cs cn processo Hcn Hne Hout Hin.
    destruct (filtrar_por_classes_linhas
                (DataFrame_de_registros registros) out cs cn "classe"
                eq_refl Hcn Hne Hout) as [_ Hall].
    rewrite Forall_forall in Hall. now apply (Hall _ Hin).
Qed.

(** An active filter on the sample table, and on the table extracted from
    a process without classes: the rows without class are gone. *)
Lemma filtro_de_classes_exclui_sem_classe_witness :
  Forall (fun r => normalizar_valor_classe (DF.loc "classe" r) <> Ok None)
         [linha_exemplo (Some "3") (Some "Ferramentas manuais")]
  /\ ~ In (linha (registro_sem_classe processo_sem_classes))
          (rows {| columns := colunas_registro; rows := [] |}).
Proof.
  split.
  - exact (proj2 (proj2 (proj1 filtro_de_classes_exclui_sem_classe
             tabela_exemplo
             {| columns := ["classe"; "especificacao"];
                rows := [linha_exemplo (Some "3") (Some "Ferramentas manuais")] |}
             ["3"] ["3"] "classe"
             eq_refl eq_refl ltac:(discriminate) eq_refl))).
  - exact (proj2 filtro_de_classes_exclui_sem_classe
             [registro_sem_classe processo_sem_classes]
             {| columns := colunas_registro; rows := [] |}
             ["3"] ["3"] processo_sem_classes
             eq_refl ltac:(discriminate) eq_refl).
Defined.

(** *** The normalizer of the requested classes *)

Lemma strip_truthy (c : string) : truthy (strip c) = true -> truthy c = true.
Proof. destruct c; [discriminate|reflexivity]. Qed.

Lemma mem_invalidos (s : string) :
  mem s ["n/a"; "nan"; "none"; ""]
  = mem s ["n/a"; "nan"; "none"] || negb (truthy s).
Proof.
  unfold mem. simpl. rewrite !orb_false_r, <- !orb_assoc. do 3 f_equal.
  now destruct s.
Qed.

(** Where the two normalizers agree: on every requested token, unless it
    reads n/a, nan or none, or it is not made of digits and its first run of
    digits is out of range. *)
Lemma normalizar_classe_desejada_concorda (c : string) :
  mem (lower (strip c)) ["n/a"; "nan"; "none"] = false ->
  (forall m num,
      isdigit (strip c) = false -> search_digits (strip c) = Some m ->
      int m = Ok num -> (1 <=? num)%N && (num <=? 45)%N = true) ->
  normalizar_classe_desejada c
  = (v <- normalizar_valor_classe (Some c) ;; Ok (lista_de v)).
Proof.
  intros Hinv Hrange. unfold normalizar_classe_desejada, normalizar_valor_classe.
  rewrite mem_invalidos, Hinv, truthy_lower. simpl.
  destruct (truthy (strip c)) eqn:Hs; simpl.
  - rewrite (strip_truthy c Hs). simpl.
    destruct (isdigit (strip c)) eqn:Hdig.
    + destruct (int (strip c)); reflexivity.
    + destruct (search_digits (strip c)) as [m|] eqn:Hm; [|reflexivity].
      destruct (int m) as [num|] eqn:Hnum; [|reflexivity]. simpl.
      now rewrite (Hrange m num eq_refl eq_refl Hnum).
  - now rewrite andb_false_r.
Qed.

Lemma invalido_sem_digitos (s : string) :
  mem (lower s) ["n/a"; "nan"; "none"] = true ->
  truthy s = true /\ isdigit s = false /\ search_digits s = None.
Proof.
  intros H. rewrite <- truthy_lower, <- isdigit_lower, <- search_digits_lower.
  apply mem_In in H. simpl in H.
  destruct H as [<-|[<-|[<-|[]]]]; repeat split; reflexivity.
Qed.

(** Where they differ, first case: a token that reads n/a, nan or none is
    kept, trimmed, in the requested set, and is no value for the column. *)
Lemma normalizar_classe_desejada_invalida (c : string) :
  mem (lower (strip c)) ["n/a"; "nan"; "none"] = true ->
  normalizar_classe_desejada c = Ok [strip c] /\
  normalizar_valor_classe (Some c) = Ok None.
Proof.
  intros H. destruct (invalido_sem_digitos _ H) as [Ht [Hd Hs]].
  unfold normalizar_classe_desejada, normalizar_valor_classe.
  rewrite mem_invalidos, H, Ht, (strip_truthy c Ht), Hd, Hs. now split.
Qed.

(** Where they differ, second case: a token that is not made of digits and
    whose first run of digits is out of range is dropped from the requested
    set, and is kept, trimmed, as a value of the column. *)
Lemma normalizar_classe_desejada_fora (c m : string) (num : N) :
  mem (lower (strip c)) ["n/a"; "nan"; "none"; ""] = false ->
  isdigit (strip c) = false ->
  search_digits (strip c) = Some m ->
  int m = Ok num ->
  (1 <=? num)%N && (num <=? 45)%N = false ->
  normalizar_classe_desejada c = Ok [] /\
  normalizar_valor_classe (Some c) = Ok (Some (strip c)).
Proof.
  intros Hinv Hd Hs Hm Hr.
  unfold normalizar_classe_desejada, normalizar_valor_classe.
  rewrite Hinv, Hd, Hs, Hm. simpl. rewrite Hr.
  split; [|reflexivity].
  now destruct (truthy c && truthy (strip c)).
Qed.

(** A class the column normalizer returns never reads n/a, nan or none. *)
Lemma normalizar_valor_classe_valido (v : option string) (x : string) :
  normalizar_valor_classe v = Ok (Some x) ->
  mem (lower x) ["n/a"; "nan"; "none"; ""] = false.
Proof.
  assert (Hstr : forall n, mem (lower (str n)) ["n/a"; "nan"; "none"; ""] = false).
  { intros n. pose proof (str_so_digitos n) as H.
    now rewrite (so_digitos_lower _ H), (so_digitos_valido _ H). }
  destruct v as [raw|]; [|discriminate]. unfold normalizar_valor_classe.
  destruct (mem (lower (strip raw)) _) eqn:Hinv; [discriminate|].
  destruct (isdigit (strip raw)).
  - destruct (int (strip raw)) as [n|]; simpl; [|discriminate].
    intros [= <-]. apply Hstr.
  - destruct (search_digits (strip raw)) as [m|].
    + destruct (int m) as [num|]; simpl; [|discriminate].
      destruct ((1 <=? num)%N && (num <=? 45)%N); intros [= <-];
        [apply Hstr|exact Hinv].
    + now intros [= <-].
Qed.

Lemma classes_normalizadas_invalidas (cs : list string) :
  Forall (fun c => mem (lower (strip c)) ["n/a"; "nan"; "none"] = true) cs ->
  classes_normalizadas cs = Ok (map strip cs).
Proof.
  induction 1 as [|c cs Hc _ IH]; [reflexivity|].
  rewrite classes_normalizadas_cons, IH.
  now rewrite (proj1 (normalizar_classe_desejada_invalida c Hc)).
Qed.

(** On every table that is not empty and has the class column, a request
    made only of tokens that read n/a, nan or none leaves no row. *)
Lemma filtrar_por_classes_invalidas (df out : DataFrame) (cs : list string)
    (col : string) :
  cs <> [] ->
  Forall (fun c => mem (lower (strip c)) ["n/a"; "nan"; "none"] = true) cs ->
  mem col (columns df) = true ->
  DF.empty df = false ->
  filtrar_por_classes df (Some cs) col = Ok out ->
  rows out = [].
Proof.
  intros Hne Hcs Hcol Hempty Hout.
  assert (Hcn : map strip cs <> []) by (now destruct cs).
  destruct (filtrar_por_classes_ativo df out cs (map strip cs) col Hcol Hempty
              (classes_normalizadas_invalidas cs Hcs) Hcn Hout) as [_ ->].
  rewrite (filter_ext_in _ (fun _ => false)); [now rewrite filter_false|].
  intros r _. unfold linha_mantida.
  destruct (normalizar_valor_classe (DF.loc col r)) as [[x|]|] eqn:Hx;
    try reflexivity.
  simpl. destruct (mem x (map strip cs)) eqn:Hmem; [|reflexivity].
  apply mem_In, in_map_iff in Hmem as [c [<- Hc]].
  rewrite Forall_forall in Hcs. specialize (Hcs c Hc).
  apply normalizar_valor_classe_valido in Hx.
  rewrite mem_invalidos, Hcs in Hx. discriminate Hx.
Qed.

(** The requested class 3 and the stored class Classe 03 meet, whichever
    side holds which. *)
Lemma tres_e_classe_03 :
  classes_normalizadas ["Classe 03"] = Ok ["3"] /\
  normalizar_valor_classe (Some "3") = Ok (Some "3") /\
  classes_normalizadas ["3"] = Ok ["3"] /\
  normalizar_valor_classe (Some "Classe 03") = Ok (Some "3").
Proof. repeat split; reflexivity. Qed.

(** C2 on the code.  The normalizer of the requested classes is not the
    normalizer of the stored values: it discards Cl. 99, which the other
    keeps as it is, and keeps n/a, which the other maps to no value.  A row
    of class Cl. 99 is therefore not found by a request for Cl. 99. *)
Theorem normalizadores_divergem :
  normalizar_classe_desejada "Cl. 99" = Ok [] /\
  normalizar_valor_classe (Some "Cl. 99") = Ok (Some "Cl. 99") /\
  normalizar_classe_desejada "n/a" = Ok ["n/a"] /\
  normalizar_valor_classe (Some "n/a") = Ok None /\
  filtrar_por_classes tabela_exemplo (Some ["Cl. 99"; "3"]) "classe"
  = Ok {| columns := ["classe"; "especificacao"];
          rows := [linha_exemplo (Some "3") (Some "Ferramentas manuais")] |}.
Proof. repeat split; reflexivity. Qed.

(** Blank requested tokens are discarded, and a request made of them only
    leaves the table as it is. *)
Lemma classes_normalizadas_em_branco (cs : list string) :
  Forall (fun c => strip c = "") cs -> classes_normalizadas cs = Ok [].
Proof.
  induction 1 as [|c cs Hc _ IH]; [reflexivity|].
  rewrite classes_normalizadas_cons, IH. unfold normalizar_classe_desejada.
  rewrite Hc. simpl. now rewrite andb_false_r.
Qed.

Lemma filtrar_por_classes_em_branco (df : DataFrame) (cs : list string)
    (col : string) :
  Forall (fun c => strip c = "") cs ->
  filtrar_por_classes df (Some cs) col = Ok df.
Proof.
  intros H. unfold filtrar_por_classes.
  destruct (negb (nonempty cs) || negb (mem col (columns df))); [reflexivity|].
  destruct (DF.empty df); [reflexivity|].
  now rewrite (classes_normalizadas_em_branco cs H).
Qed.

(** C3 on the code.  The tokens n/a, nan and none normalize to no value, but
    the class filter keeps them in the requested set: the set is not empty,
    the filter runs, no row matches, and the result is empty instead of the
    input. *)
Theorem filtrar_por_classes_so_invalidas :
  extrair_classe (Some "n/a") = Ok None /\
  extrair_classe (Some "NaN") = Ok None /\
  extrair_classe (Some "None") = Ok None /\
  classes_normalizadas ["n/a"; "NaN"; "None"] = Ok ["n/a"; "NaN"; "None"] /\
  filtrar_por_classes tabela_exemplo (Some ["n/a"; "NaN"; "None"]) "classe"
  = Ok {| columns := ["classe"; "especificacao"]; rows := [] |} /\
  filtrar_por_classes tabela_exemplo (Some ["n/a"]) "classe"
  = Ok {| columns := ["classe"; "especificacao"]; rows := [] |} /\
  filtrar_por_classes tabela_exemplo (Some [""; "  "]) "classe"
  = Ok tabela_exemplo.
Proof. repeat split; reflexivity. Qed.

(** ** The XML extractor *)

Lemma classes_loop_spec (processo : Element) (classes_nice : list Element)
    (acc : list GrantedRecord) :
  classes_loop processo classes_nice acc
  = (acc ++ map (registro_da_classe processo)
                (filter classe_deferida classes_nice))%list.
Proof.
  revert acc. induction classes_nice as [|c cs IH]; intros acc; simpl.
  - now rewrite List.app_nil_r.
  - destruct (classe_deferida c); simpl; rewrite IH; [|reflexivity].
    now rewrite <- List.app_assoc.
Qed.

Lemma registros_por_classe_spec (processo : Element) :
  registros_por_classe processo
  = map (registro_da_classe processo)
        (filter classe_deferida (ET.findall_desc "classe-nice" processo)).
Proof. unfold registros_por_classe. now rewrite classes_loop_spec. Qed.

Lemma tem_concessao_loop_spec (despachos : list Element) :
  tem_concessao_loop despachos = existsb despacho_de_concessao despachos.
Proof.
  induction despachos as [|d ds IH]; simpl; [reflexivity|].
  unfold despacho_de_concessao at 1.
  now destruct (String.eqb (ET.get d "codigo" "") "IPAS158").
Qed.

Lemma processos_loop_spec (nodes : list Element) (acc : list GrantedRecord) :
  processos_loop nodes acc
  = (acc ++ flat_map (fun p => if tem_concessao p
                               then _extrair_dados_processo_inpi p else [])
                     nodes)%list.
Proof.
  revert acc. induction nodes as [|p ps IH]; intros acc; simpl.
  - now rewrite List.app_nil_r.
  - destruct (tem_concessao p); [|apply IH].
    destruct (_extrair_dados_processo_inpi p) as [|g gs] eqn:E; simpl.
    + apply IH.
    + rewrite IH. now rewrite <- List.app_assoc.
Qed.

Lemma processar_xml_registros_spec (root : Element) :
  processar_xml_registros root
  = flat_map (fun p => if tem_concessao p
                       then _extrair_dados_processo_inpi p else [])
             (ET.findall_desc "processo" root).
Proof. unfold processar_xml_registros. now rewrite processos_loop_spec. Qed.

Lemma extrair_dados_processo_inpi_spec (processo : Element) :
  _extrair_dados_processo_inpi processo
  = (registros_por_classe processo
     ++ (if negb (nonempty (registros_por_classe processo))
            && truthy (ET.get processo "numero" "")
         then [registro_sem_classe processo] else []))%list.
Proof.
  unfold _extrair_dados_processo_inpi. fold (registros_por_classe processo).
  destruct (negb (nonempty (registros_por_classe processo))
            && truthy (ET.get processo "numero" ""));
    [reflexivity|now rewrite List.app_nil_r].
Qed.

Lemma classe_deferida_spec (classe_nice : Element) :
  classe_deferida classe_nice = true <->
  exists status t a b,
    ET.find_child "status" classe_nice = Some status /\
    ET.text status = Some t /\ t <> "" /\
    lower (strip t) = a ++ "deferid" ++ b.
Proof.
  unfold classe_deferida. split.
  - destruct (ET.find_child "status" classe_nice) as [st|]; [|discriminate].
    destruct (ET.text st) as [t|] eqn:Ht; [|discriminate].
    destruct (truthy t) eqn:Htr; [|discriminate].
    intros H. apply contains_spec in H as [a [b Hab]].
    exists st, t, a, b. repeat split; try assumption. now apply truthy_true.
  - intros [st [t [a [b [-> [Ht [Hne Hab]]]]]]]. rewrite Ht.
    apply truthy_true in Hne. rewrite Hne.
    apply contains_spec. now exists a, b.
Qed.

(** C5. The records of a gazette are those of its process nodes that have a
    dispatch node whose code is exactly IPAS158 (the scan stops at the first
    one), a process without one contributing nothing whatever its classes;
    and the per-class records of a process are, in document order, one for
    each classification node whose status child exists with a non-empty text
    that, trimmed and lowercased, contains deferid, the other classification
    nodes being skipped. *)
Theorem registro_por_classe_deferida (root : Element) :
  processar_xml_registros root
  = flat_map (fun p => if existsb despacho_de_concessao
                            (ET.findall_desc "despacho" p)
                       then _extrair_dados_processo_inpi p else [])
             (ET.findall_desc "processo" root)
  /\ (forall d rest,
        ET.get d "codigo" "" = "IPAS158" -> tem_concessao_loop (d :: rest) = true)
  /\ (forall processo,
        tem_concessao processo = true <->
        exists d, In d (ET.findall_desc "despacho" processo) /\
                  ET.get d "codigo" "" = "IPAS158")
  /\ (forall processo,
        registros_por_classe processo
        = map (registro_da_classe processo)
              (filter classe_deferida (ET.findall_desc "classe-nice" processo))
        /\ exists resto,
            _extrair_dados_processo_inpi processo
            = (registros_por_classe processo ++ resto)%list /\
            (resto = [] \/ resto = [registro_sem_classe processo]))
  /\ (forall classe_nice,
        classe_deferida classe_nice = true <->
        exists status t a b,
          ET.find_child "status" classe_nice = Some status /\
          ET.text status = Some t /\ t <> "" /\
          lower (strip t) = a ++ "deferid" ++ b)
  /\ ((forall p, In p (ET.findall_desc "processo" root) ->
                 tem_concessao p = false) ->
      processar_xml_registros root = []).
Proof.
  split; [|split; [|split; [|split; [|split]]]].
  - rewrite processar_xml_registros_spec. apply flat_map_ext. intros p.
    unfold tem_concessao. now rewrite tem_concessao_loop_spec.
  - intros d rest Hd. simpl. now rewrite Hd.
  - intros processo. unfold tem_concessao.
    rewrite tem_concessao_loop_spec, existsb_exists.
    split; intros [d [Hin Hd]]; exists d; (split; [exact Hin|]).
    + now apply String.eqb_eq.
    + unfold despacho_de_concessao. rewrite Hd. reflexivity.
  - intros processo. split; [apply registros_por_classe_spec|].
    rewrite extrair_dados_processo_inpi_spec.
    destruct (negb (nonempty (registros_por_classe processo))
              && truthy (ET.get processo "numero" "")); eauto.
  - apply classe_deferida_spec.
  - intros Hnone. rewrite processar_xml_registros_spec.
    induction (ET.findall_desc "processo" root) as [|p ps IH]; [reflexivity|].
    simpl. rewrite (Hnone p (or_introl eq_refl)). simpl.
    apply IH. intros q Hq. apply Hnone. now right.
Qed.

(** A gazette whose only process has no grant dispatch, and a scan that
    stops at its first dispatch. *)
Lemma registro_por_classe_deferida_witness :
  processar_xml_registros (revista_de [processo_sem_concessao]) = []
  /\ tem_concessao_loop [no_despacho "IPAS158"; no_despacho "IPAS029"] = true.
Proof.
  pose proof (registro_por_classe_deferida (revista_de [processo_sem_concessao]))
    as [_ [Hstop [_ [_ [_ Hnone]]]]].
  split.
  - apply Hnone. intros p [<-|[]]. reflexivity.
  - apply Hstop. reflexivity.
Defined.

(** The grant code is compared as it is written, and a classification node
    without status, with an empty status or with another status is skipped. *)
Lemma registro_por_classe_exemplos :
  tem_concessao_loop [no_despacho "ipas158"; no_despacho "IPAS1580"] = false /\
  tem_concessao_loop [no_despacho "IPAS029"; no_despacho "IPAS158"] = true /\
  classe_deferida (Elem "classe-nice" [("codigo", "03")] None []) = false /\
  classe_deferida (no_classe_nice "03" "") = false /\
  classe_deferida (no_classe_nice "03" "Sobrestada") = false /\
  classe_deferida (no_classe_nice "03" "  DEFERIDO ") = true /\
  registros_por_classe
    (Elem "processo" [("numero", "1")] None
       [ no_despacho "IPAS158";
         Elem "classe-nice" [("codigo", "03")] None [];
         no_classe_nice "05" "Sobrestada";
         no_classe_nice "09" "Deferida" ])
  = [ {| numero_processo := "1"; marca := "N/A"; classe := "09";
         titular := "N/A"; procurador := ""; data_concessao := "";
         status_classe := "Deferida"; especificacao := "";
         traducao_especificacao := "" |} ].
Proof. repeat split; reflexivity. Qed.

(** Every classification node whose status text is Indeferido passes the
    test of the loop, whatever else it holds. *)
Lemma indeferido_classe_deferida (classe_nice status : Element) :
  ET.find_child "status" classe_nice = Some status ->
  ET.text status = Some "Indeferido" ->
  classe_deferida classe_nice = true.
Proof. intros Hs Ht. unfold classe_deferida. now rewrite Hs, Ht. Qed.

(** Every process whose classification nodes are two of status Deferida and
    one of status Indeferido gives three records. *)
Lemma duas_deferidas_uma_indeferida (processo c1 c2 c3 s1 s2 s3 : Element) :
  ET.findall_desc "classe-nice" processo = [c1; c2; c3] ->
  ET.find_child "status" c1 = Some s1 -> ET.text s1 = Some "Deferida" ->
  ET.find_child "status" c2 = Some s2 -> ET.text s2 = Some "Deferida" ->
  ET.find_child "status" c3 = Some s3 -> ET.text s3 = Some "Indeferido" ->
  List.length (_extrair_dados_processo_inpi processo) = 3.
Proof.
  intros Hc H1 T1 H2 T2 H3 T3.
  rewrite extrair_dados_processo_inpi_spec, registros_por_classe_spec, Hc.
  simpl. unfold classe_deferida. rewrite H1, T1, H2, T2, H3, T3. reflexivity.
Qed.

(** C1 on the code.  For the process with one grant dispatch and three
    classification nodes of status Deferida, Deferida and Indeferido, the
    extractor returns three records, not two: the lowercased status
    indeferido contains deferid, so the refused class passes the test meant
    for the granted ones. *)
Theorem tres_classes_tres_registros :
  tem_concessao processo_tres_classes = true /\
  contains "deferid" (lower (strip "Indeferido")) = true /\
  classe_deferida (no_classe_nice "35" "Indeferido") = true /\
  map (fun g => (classe g, status_classe g))
      (processar_xml_registros (revista_de [processo_tres_classes]))
  = [("03", "Deferida"); ("09", "Deferida"); ("35", "Indeferido")] /\
  List.length (_extrair_dados_processo_inpi processo_tres_classes) = 3.
Proof. repeat split; reflexivity. Qed.

(** A process with the grant code and no classification node gives the one
    record without class; a process without the grant code gives none. *)
Lemma processo_sem_classes_um_registro :
  processar_xml_registros (revista_de [processo_sem_classes])
  = [registro_sem_classe processo_sem_classes] /\
  classe (registro_sem_classe processo_sem_classes) = "N/A" /\
  processar_xml_registros (revista_de [processo_sem_concessao]) = [].
Proof. repeat split; reflexivity. Qed.

(** C4, as the code has it.  A process with a grant dispatch and a non-empty
    process number gives at least one record, all of them among the records
    of the gazette: when the loop over its classes gave nothing, exactly the
    one record without class, of class N/A and status Concedido; when the
    loop gave something, its records and no other. *)
Theorem registro_sem_classe_com_numero (root processo : Element) :
  In processo (ET.findall_desc "processo" root) ->
  tem_concessao processo = true ->
  ET.get processo "numero" "" <> "" ->
  _extrair_dados_processo_inpi processo <> [] /\
  incl (_extrair_dados_processo_inpi processo) (processar_xml_registros root) /\
  (registros_por_classe processo = [] ->
   _extrair_dados_processo_inpi processo = [registro_sem_classe processo] /\
   classe (registro_sem_classe processo) = "N/A" /\
   status_classe (registro_sem_classe processo) = "Concedido") /\
  (registros_por_classe processo <> [] ->
   _extrair_dados_processo_inpi processo = registros_por_classe processo).
Proof.
  intros Hin Hgrant Hnum. apply truthy_true in Hnum.
  rewrite extrair_dados_processo_inpi_spec, Hnum, andb_true_r.
  split; [|split; [|split]].
  - destruct (registros_por_classe processo); simpl; discriminate.
  - rewrite processar_xml_registros_spec. intros g Hg.
    apply in_flat_map. exists processo. split; [exact Hin|].
    now rewrite Hgrant, extrair_dados_processo_inpi_spec, Hnum, andb_true_r.
  - intros ->. simpl. repeat split.
  - intros Hne. apply nonempty_true in Hne. rewrite Hne. simpl.
    apply List.app_nil_r.
Qed.

Lemma registro_sem_classe_com_numero_witness :
  _extrair_dados_processo_inpi processo_sem_classes
  = [registro_sem_classe processo_sem_classes].
Proof.
  exact (proj1 (proj1 (proj2 (proj2
           (registro_sem_classe_com_numero
              (revista_de [processo_sem_classes]) processo_sem_classes
              (or_introl eq_refl) eq_refl ltac:(discriminate))))
           eq_refl)).
Defined.

(** C4, as the specification words it, fails on a granted process without a
    process number: it has a grant dispatch, its loop over classes gives
    nothing, and no record at all is emitted for it. *)
Lemma processo_sem_numero_sem_registro :
  tem_concessao processo_sem_numero = true /\
  registros_por_classe processo_sem_numero = [] /\
  _extrair_dados_processo_inpi processo_sem_numero = [] /\
  processar_xml_registros (revista_de [processo_sem_numero]) = [].
Proof. repeat split; reflexivity. Qed.

(** ** The keyword filter *)

Lemma palavras_lower_spec (ps : list string) :
  palavras_lower ps
  = map (fun p => strip (lower p)) (filter (fun p => truthy (strip p)) ps).
Proof.
  induction ps as [|p ps IH]; simpl; [reflexivity|].
  destruct (truthy (strip p)) eqn:Hs; simpl.
  - rewrite (strip_truthy p Hs). simpl. now rewrite IH.
  - now rewrite andb_false_r.
Qed.

Lemma palavras_lower_truthy (ps : list string) (p : string) :
  In p (palavras_lower ps) -> truthy p = true.
Proof.
  rewrite palavras_lower_spec, in_map_iff. intros [q [<- Hq]].
  apply filter_In in Hq as [_ Hq]. now rewrite strip_lower, truthy_lower.
Qed.

Lemma contem_padrao_vazio (palavras : list string) :
  (forall p, In p palavras -> truthy p = true) ->
  contem_padrao palavras "" = false.
Proof.
  intros H. unfold contem_padrao.
  induction palavras as [|p ps IH]; cbn [existsb].
  - reflexivity.
  - rewrite (contains_empty_text p) by (apply H; now left).
    apply IH. intros q Hq. apply H. now right.
Qed.

Lemma linhas_com_palavra (palavras : list string) (col : string)
    (l : list Row) :
  (forall p, In p palavras -> truthy p = true) ->
  map (fun r => DF.row_set col (fillna (DF.loc col r)) r)
      (filter (fun r => contem_padrao palavras
                          (lower (astype_str (fillna (DF.loc col r))))) l)
  = filter (linha_com_palavra palavras col) l.
Proof.
  intros H. induction l as [|r l IH]; simpl; [reflexivity|].
  unfold linha_com_palavra at 1.
  destruct (DF.loc col r) as [t|] eqn:Ht; simpl.
  - fold (contem_padrao palavras (lower t)).
    destruct (contem_padrao palavras (lower t)); simpl; [|exact IH].
    rewrite Ht, IH. simpl. now rewrite (row_set_loc col t r Ht).
  - rewrite (contem_padrao_vazio palavras H). exact IH.
Qed.

(** What the keyword filter returns once it got past its guards. *)
Lemma filtrar_por_palavras_chave_ativo (df : DataFrame) (ps : list string)
    (col : string) :
  mem col (columns df) = true ->
  palavras_lower ps <> [] ->
  filtrar_por_palavras_chave df (Some ps) col
  = {| columns := columns df;
       rows := filter (linha_com_palavra (palavras_lower ps) col) (rows df) |}.
Proof.
  intros Hcol Hne. unfold filtrar_por_palavras_chave.
  assert (Hps : nonempty ps = true) by (now destruct ps).
  rewrite Hps, Hcol. simpl.
  destruct (DF.empty df) eqn:Hempty.
  - unfold DF.empty in Hempty. destruct df as [cols rws]. simpl in *.
    destruct rws; [reflexivity|]. destruct cols; discriminate.
  - apply nonempty_true in Hne. rewrite Hne. simpl.
    unfold DF.select, DF.assign, DF.column. simpl. rewrite Hcol. f_equal.
    rewrite (map_map (DF.loc col) fillna), combine_map_self.
    rewrite !(map_map (fun x => (x, fillna (DF.loc col x)))). simpl.
    rewrite (map_map (DF.loc col)).
    rewrite (select_mask
               (fun r => contem_padrao (palavras_lower ps)
                           (lower (astype_str (DF.loc col r))))).
    rewrite filter_map_comm.
    rewrite (filter_ext _
               (fun r => contem_padrao (palavras_lower ps)
                           (lower (astype_str (fillna (DF.loc col r))))))
      by (intros r; now rewrite loc_row_set).
    apply linhas_com_palavra, palavras_lower_truthy.
Qed.

Lemma linha_com_palavra_spec (ps : list string) (col : string) (r : Row) :
  linha_com_palavra (palavras_lower ps) col r = true <->
  exists p t a b,
    In p ps /\ strip p <> "" /\ DF.loc col r = Some t /\
    lower t = a ++ strip (lower p) ++ b.
Proof.
  unfold linha_com_palavra. rewrite palavras_lower_spec. split.
  - destruct (DF.loc col r) as [t|]; [|discriminate].
    intros H. apply existsb_exists in H as [w [Hw Hc]].
    apply in_map_iff in Hw as [p [<- Hp]]. apply filter_In in Hp as [Hp Hs].
    apply contains_spec in Hc as [a [b Hab]].
    exists p, t, a, b. repeat split; try assumption. now apply truthy_true.
  - intros [p [t [a [b [Hp [Hs [-> Hab]]]]]]].
    apply existsb_exists. exists (strip (lower p)). split.
    + apply in_map_iff. exists p. split; [reflexivity|].
      apply filter_In. split; [exact Hp|now apply truthy_true].
    + apply contains_spec. now exists a, b.
Qed.

(** C8, as the code has it.  On a table that has the specification column,
    with a keyword list that is not empty: the blank keywords are discarded;
    when none is left the table is returned as it is; otherwise the rows kept
    are, unchanged and in order, the rows whose specification text,
    lowercased, contains as a substring one of the remaining keywords,
    lowercased and trimmed, a missing text being read as the empty string
    and so never kept.  No word boundary is asked for: a row whose text
    contains ferramentas manuais, in any case, is kept for the keyword
    ferramentas. *)
Theorem filtrar_por_palavras_chave_spec :
  (forall (df : DataFrame) (ps : list string) (col : string),
      ps <> [] ->
      mem col (columns df) = true ->
      palavras_lower ps
      = map (fun p => strip (lower p)) (filter (fun p => truthy (strip p)) ps)
      /\ (palavras_lower ps = [] ->
          filtrar_por_palavras_chave df (Some ps) col = df)
      /\ (palavras_lower ps <> [] ->
          filtrar_por_palavras_chave df (Some ps) col
          = {| columns := columns df;
               rows := filter (linha_com_palavra (palavras_lower ps) col)
                              (rows df) |})
      /\ (forall r,
            linha_com_palavra (palavras_lower ps) col r = true <->
            exists p t a b,
              In p ps /\ strip p <> "" /\ DF.loc col r = Some t /\
              lower t = a ++ strip (lower p) ++ b))
  /\
  (forall (col : string) (r : Row) (t a b : string),
      DF.loc col r = Some t ->
      lower t = a ++ "ferramentas manuais" ++ b ->
      linha_com_palavra (palavras_lower ["ferramentas"]) col r = true).
Proof.
  split.
  - intros df ps col Hps Hcol.
    split; [apply palavras_lower_spec|]. split; [|split].
    + intros Hnil. unfold filtrar_por_palavras_chave.
      destruct (negb (nonempty ps) || negb (mem col (columns df)));
        [reflexivity|].
      destruct (DF.empty df); [reflexivity|]. now rewrite Hnil.
    + now apply filtrar_por_palavras_chave_ativo.
    + apply linha_com_palavra_spec.
  - intros col r t a b Ht Hab. apply linha_com_palavra_spec.
    exists "ferramentas", t, a, (" manuais" ++ b).
    repeat split; [now left|discriminate|exact Ht|exact Hab].
Qed.

(** The keyword ferramentas, in capitals and with a blank keyword beside
    it, finds the text Ferramentas manuais of the sample table. *)
Lemma filtrar_por_palavras_chave_witness :
  filtrar_por_palavras_chave tabela_exemplo (Some [" FERRAMENTAS"; "  "])
    "especificacao"
  = {| columns := ["classe"; "especificacao"];
       rows := [linha_exemplo (Some "3") (Some "Ferramentas manuais")] |}.
Proof.
  exact (proj1 (proj2 (proj2
           (proj1 filtrar_por_palavras_chave_spec tabela_exemplo
              [" FERRAMENTAS"; "  "] "especificacao"
              ltac:(discriminate) eq_refl)))
           ltac:(discriminate)).
Defined.

Lemma ferramentas_manuais :
  filtrar_por_palavras_chave tabela_exemplo (Some ["ferramentas"])
    "especificacao"
  = {| columns := ["classe"; "especificacao"];
       rows := [linha_exemplo (Some "3") (Some "Ferramentas manuais")] |} /\
  filtrar_por_palavras_chave tabela_exemplo (Some ["rramentas manu"])
    "especificacao"
  = {| columns := ["classe"; "especificacao"];
       rows := [linha_exemplo (Some "3") (Some "Ferramentas manuais")] |}.
Proof. split; reflexivity. Qed.

(** C8, as the specification words it, fails on a list with a blank keyword
    among others: trimmed, the blank keyword is the empty string, which every
    text contains, and yet the row of text xyz is not kept. *)
Lemma palavra_em_branco_descartada :
  contains (strip (lower "")) (lower "xyz") = true /\
  In (linha_exemplo (Some "Cl. 99") (Some "xyz")) (rows tabela_exemplo) /\
  filtrar_por_palavras_chave tabela_exemplo (Some [""; "ferramentas"])
    "especificacao"
  = {| columns := ["classe"; "especificacao"];
       rows := [linha_exemplo (Some "3") (Some "Ferramentas manuais")] |}.
Proof. repeat split; try reflexivity. right. now left. Qed.

(** ** The combined filter *)

Lemma filtrar_por_classes_vazio (df : DataFrame) (cs : option (list string))
    (col : string) :
  DF.empty df = true -> filtrar_por_classes df cs col = Ok df.
Proof.
  intros H. unfold filtrar_por_classes. destruct cs as [l|]; [|reflexivity].
  destruct (negb (nonempty l) || negb (mem col (columns df))); [reflexivity|].
  now rewrite H.
Qed.

Lemma filtrar_por_palavras_chave_vazio (df : DataFrame)
    (ks : option (list string)) (col : string) :
  DF.empty df = true -> filtrar_por_palavras_chave df ks col = df.
Proof.
  intros H. unfold filtrar_por_palavras_chave. destruct ks as [l|]; [|reflexivity].
  destruct (negb (nonempty l) || negb (mem col (columns df))); [reflexivity|].
  now rewrite H.
Qed.

Lemma filtrar_por_classes_nao_informada (df : DataFrame)
    (cs : option (list string)) (col : string) :
  informada cs = false -> filtrar_por_classes df cs col = Ok df.
Proof.
  destruct cs as [l|]; [|reflexivity]. simpl. intros H.
  unfold filtrar_por_classes. now rewrite H.
Qed.

Lemma filtrar_por_palavras_chave_nao_informada (df : DataFrame)
    (ks : option (list string)) (col : string) :
  informada ks = false -> filtrar_por_palavras_chave df ks col = df.
Proof.
  destruct ks as [l|]; [|reflexivity]. simpl. intros H.
  unfold filtrar_por_palavras_chave. now rewrite H.
Qed.

Lemma sem_linhas_vazio (df : DataFrame) : rows df = [] -> DF.empty df = true.
Proof. unfold DF.empty. now intros ->. Qed.

Lemma filtrar_processos_composto (df : DataFrame)
    (cs ks : option (list string)) (cc ce : string) :
  filtrar_processos df cs ks cc ce
  = (d <- filtrar_por_classes df cs cc ;;
     Ok (filtrar_por_palavras_chave d ks ce)).
Proof.
  unfold filtrar_processos, filtrar_processos_chamadas, filtrar_processos_de,
    entao, retorna. cbn [self_filtrar_por_classes
                         self_filtrar_por_palavras_chave ProcessadorINPI].
  destruct (DF.empty df) eqn:Hdf.
  - rewrite (filtrar_por_classes_vazio df cs cc Hdf). simpl.
    now rewrite (filtrar_por_palavras_chave_vazio df ks ce Hdf).
  - destruct (informada cs) eqn:Hcs.
    + destruct (filtrar_por_classes df cs cc) as [d|]; simpl; [|reflexivity].
      destruct (DF.empty d) eqn:Hde; simpl.
      * now rewrite (filtrar_por_palavras_chave_vazio d ks ce Hde).
      * destruct (informada ks) eqn:Hks; simpl; [reflexivity|].
        now rewrite (filtrar_por_palavras_chave_nao_informada d ks ce Hks).
    + rewrite (filtrar_por_classes_nao_informada df cs cc Hcs). simpl.
      destruct (informada ks) eqn:Hks; simpl; [reflexivity|].
      now rewrite (filtrar_por_palavras_chave_nao_informada df ks ce Hks).
Qed.

(** Where the class step leaves no row, the other filter of [self] is not
    reached: whatever it is, the outcome and the calls are the same. *)
Lemma filtrar_processos_curto (self : Self) (df d : DataFrame)
    (cs ks : option (list string)) (cc ce : string) :
  self_filtrar_por_classes self = self_filtrar_por_classes ProcessadorINPI ->
  DF.empty df = false ->
  informada cs = true ->
  filtrar_por_classes df cs cc = Ok d ->
  DF.empty d = true ->
  filtrar_processos_de self df cs ks cc ce [] = (Ok d, [ChamadaClasses]).
Proof.
  intros Hself Hdf Hcs Hd Hde.
  unfold filtrar_processos_de, entao, retorna.
  rewrite Hdf, Hcs, Hself. cbn [self_filtrar_por_classes ProcessadorINPI].
  now rewrite Hd, Hde.
Qed.

Lemma filtrar_processos_passos (df : DataFrame)
    (cs ks : option (list string)) (cc ce : string) :
  DF.empty df = false ->
  filtrar_processos_chamadas df cs ks cc ce
  = let palavras (d : DataFrame) (chamadas : list Chamada) :=
      if informada ks
      then (Ok (filtrar_por_palavras_chave d ks ce),
            (chamadas ++ [ChamadaPalavrasChave])%list)
      else (Ok d, chamadas) in
    if informada cs then
      match filtrar_por_classes df cs cc with
      | Ok d => if DF.empty d then (Ok d, [ChamadaClasses])
                else palavras d [ChamadaClasses]
      | ValueError => (ValueError, [ChamadaClasses])
      end
    else palavras df [].
Proof.
  intros Hdf.
  unfold filtrar_processos_chamadas, filtrar_processos_de, entao, retorna.
  rewrite Hdf. cbn [self_filtrar_por_classes self_filtrar_por_palavras_chave
                    ProcessadorINPI].
  destruct (informada cs), (informada ks); cbn [List.app];
    try reflexivity;
    destruct (filtrar_por_classes df cs cc) as [d|]; try reflexivity;
    now destruct (DF.empty d).
Qed.

(** C9. The combined filter is the class filter followed by the keyword
    filter on what the class filter returned, and it calls them in that
    order.  The calls it makes are these, and no other.  On an empty table it
    calls nothing and returns the table.  With a class set given (not absent,
    not empty) it calls the class filter first; when the class step raises,
    or returns an empty table (one without rows is empty), that is the
    outcome and the keyword filter is not called (whatever the keyword
    filter of [self] would do, it is not reached); when the class step
    returns a table that is not empty, the keyword filter is called next, on
    that table, if a keyword set is given.  Without a class
    set, the keyword filter alone is called, if a keyword set is given.  With
    neither a class set nor a keyword set given, the result is the input
    table itself, rows and order included, and no filter is called. *)
Theorem filtrar_processos_spec (df : DataFrame)
    (cs ks : option (list string)) (cc ce : string) :
  let execucao := filtrar_processos_chamadas df cs ks cc ce in
  filtrar_processos df cs ks cc ce
  = (d <- filtrar_por_classes df cs cc ;;
     Ok (filtrar_por_palavras_chave d ks ce))
  /\ (DF.empty df = true -> execucao = (Ok df, []))
  /\ (DF.empty df = false -> informada cs = true ->
      filtrar_por_classes df cs cc = ValueError ->
      execucao = (ValueError, [ChamadaClasses]))
  /\ (forall d,
        DF.empty df = false -> informada cs = true ->
        filtrar_por_classes df cs cc = Ok d ->
        DF.empty d = true ->
        execucao = (Ok d, [ChamadaClasses]) /\
        forall self,
          self_filtrar_por_classes self
          = self_filtrar_por_classes ProcessadorINPI ->
          filtrar_processos_de self df cs ks cc ce [] = execucao)
  /\ (forall d,
        DF.empty df = false -> informada cs = true ->
        filtrar_por_classes df cs cc = Ok d ->
        DF.empty d = false ->
        execucao
        = if informada ks
          then (Ok (filtrar_por_palavras_chave d ks ce),
                [ChamadaClasses; ChamadaPalavrasChave])
          else (Ok d, [ChamadaClasses]))
  /\ (DF.empty df = false -> informada cs = false ->
      execucao
      = if informada ks
        then (Ok (filtrar_por_palavras_chave df ks ce), [ChamadaPalavrasChave])
        else (Ok df, []))
  /\ (informada cs = false -> informada ks = false ->
      filtrar_processos df cs ks cc ce = Ok df /\ execucao = (Ok df, []))
  /\ (forall d, rows d = [] -> DF.empty d = true).
Proof.
  cbv zeta. split; [apply filtrar_processos_composto|].
  refine (conj _ (conj _ (conj _ (conj _ (conj _
            (conj _ sem_linhas_vazio)))))).
  - intros Hdf. unfold filtrar_processos_chamadas, filtrar_processos_de.
    now rewrite Hdf.
  - intros Hdf Hcs He.
    rewrite (filtrar_processos_passos df cs ks cc ce Hdf). cbv zeta.
    now rewrite Hcs, He.
  - intros d Hdf Hcs Hd Hde.
    assert (H : forall self,
               self_filtrar_por_classes self
               = self_filtrar_por_classes ProcessadorINPI ->
               filtrar_processos_de self df cs ks cc ce []
               = (Ok d, [ChamadaClasses])).
    { intros self Hself.
      exact (filtrar_processos_curto self df d cs ks cc ce
               Hself Hdf Hcs Hd Hde). }
    assert (H0 : filtrar_processos_chamadas df cs ks cc ce
                 = (Ok d, [ChamadaClasses]))
      by (apply (H ProcessadorINPI); reflexivity).
    split; [exact H0|]. intros self Hself. rewrite H0. now apply H.
  - intros d Hdf Hcs Hd Hde.
    rewrite (filtrar_processos_passos df cs ks cc ce Hdf). cbv zeta.
    rewrite Hcs, Hd, Hde. now destruct (informada ks).
  - intros Hdf Hcs.
    rewrite (filtrar_processos_passos df cs ks cc ce Hdf). cbv zeta.
    rewrite Hcs. now destruct (informada ks).
  - intros Hcs Hks.
    assert (H : filtrar_processos_chamadas df cs ks cc ce = (Ok df, [])).
    { destruct (DF.empty df) eqn:Hdf.
      - unfold filtrar_processos_chamadas, filtrar_processos_de.
        now rewrite Hdf.
      - rewrite (filtrar_processos_passos df cs ks cc ce Hdf). cbv zeta.
        now rewrite Hcs, Hks. }
    unfold filtrar_processos. now rewrite H.
Qed.

(** A request for class 7, which no row of the sample table has: the class
    filter is called, the keyword filter is not, even one that would
    raise. *)
Lemma filtrar_processos_witness :
  filtrar_processos_chamadas tabela_exemplo (Some ["7"]) (Some ["xyz"])
    "classe" "especificacao"
  = (Ok {| columns := ["classe"; "especificacao"]; rows := [] |},
     [ChamadaClasses])
  /\ filtrar_processos_de
       {| self_filtrar_por_classes :=
            self_filtrar_por_classes ProcessadorINPI;
          self_filtrar_por_palavras_chave :=
            fun _ _ _ chamadas =>
              (ValueError, (chamadas ++ [ChamadaPalavrasChave])%list) |}
       tabela_exemplo (Some ["7"]) (Some ["xyz"]) "classe" "especificacao" []
     = filtrar_processos_chamadas tabela_exemplo (Some ["7"]) (Some ["xyz"])
         "classe" "especificacao".
Proof.
  destruct (proj1 (proj2 (proj2 (proj2
             (filtrar_processos_spec tabela_exemplo (Some ["7"]) (Some ["xyz"])
                "classe" "especificacao"))))
             {| columns := ["classe"; "especificacao"]; rows := [] |}
             eq_refl eq_refl eq_refl eq_refl) as [H1 H2].
  split; [exact H1|]. apply H2. reflexivity.
Defined.

(** Both filters called, in order, and none called. *)
Lemma filtrar_processos_exemplos :
  filtrar_processos_chamadas tabela_exemplo (Some ["03"]) (Some ["manuais"])
    "classe" "especificacao"
  = (Ok {| columns := ["classe"; "especificacao"];
           rows := [linha_exemplo (Some "3") (Some "Ferramentas manuais")] |},
     [ChamadaClasses; ChamadaPalavrasChave]) /\
  filtrar_processos_chamadas tabela_exemplo None (Some [])
    "classe" "especificacao"
  = (Ok tabela_exemplo, []).
Proof. split; reflexivity. Qed.


(** * The other functions of the processor *)

(** ** [_encontrar_coluna] *)

Lemma find_primeiro {A : Type} (p : A -> bool) (l : list A) (x : A) :
  find p l = Some x <->
  exists pre post,
    l = (pre ++ x :: post)%list /\ p x = true /\
    (forall y, In y pre -> p y = false).
Proof.
  induction l as [|a l IH]; simpl.
  - split; [discriminate|]. intros [pre [post [H _]]].
    now destruct pre.
  - destruct (p a) eqn:Ha.
    + split.
      * intros [= <-]. exists [], l. now repeat split.
      * intros [pre [post [Hl [Hx Hpre]]]]. destruct pre as [|b pre].
        -- simpl in Hl. congruence.
        -- simpl in Hl. injection Hl as Hab _. subst b.
           rewrite (Hpre a (or_introl eq_refl)) in Ha. discriminate Ha.
    + rewrite IH. split.
      * intros [pre [post [-> [Hx Hpre]]]]. exists (a :: pre), post.
        repeat split; [exact Hx|]. intros y [<-|Hy]; [exact Ha|now apply Hpre].
      * intros [pre [post [Hl [Hx Hpre]]]]. destruct pre as [|b pre].
        -- simpl in Hl. injection Hl as Hax _. subst x.
           rewrite Hx in Ha. discriminate Ha.
        -- simpl in Hl. injection Hl as Hab Hl. subst b l. exists pre, post.
           repeat split; [exact Hx|]. intros y Hy. apply Hpre. now right.
Qed.

Lemma filter_idem {A : Type} (p : A -> bool) (l : list A) :
  filter p (filter p l) = filter p l.
Proof.
  induction l as [|x l IH]; [reflexivity|]. cbn [filter].
  destruct (p x) eqn:E; [|exact IH]. cbn [filter]. now rewrite E, IH.
Qed.

Lemma encontrar_nome_find (nome_lower : string) (cols : list string) :
  encontrar_nome nome_lower (combine cols (map lower cols))
  = find (fun c => contains nome_lower (lower c)) cols.
Proof.
  induction cols as [|c cols IH]; simpl; [reflexivity|].
  now destruct (contains nome_lower (lower c)).
Qed.

Lemma encontrar_nomes_none (cols : list string) (nomes : list string) :
  encontrar_nomes (combine cols (map lower cols)) nomes = None <->
  forall nome c, In nome nomes -> In c cols ->
                 contains (lower nome) (lower c) = false.
Proof.
  induction nomes as [|n nomes IH]; simpl.
  - split; [intros _ nome c []|reflexivity].
  - rewrite encontrar_nome_find.
    destruct (find (fun c => contains (lower n) (lower c)) cols) as [x|] eqn:Hf.
    + split; [discriminate|]. intros H. apply find_some in Hf as [Hin Hx].
      rewrite (H n x (or_introl eq_refl) Hin) in Hx. discriminate Hx.
    + rewrite IH. split.
      * intros H nome c [<-|Hn] Hc; [|now apply H].
        exact (find_none _ _ Hf c Hc).
      * intros H nome c Hn Hc. apply H; [now right|exact Hc].
Qed.

(** X1. [_encontrar_coluna] returns a column exactly when it is the first
    column, in the order of the table, whose lowercased name contains the
    first candidate, lowercased, that any column contains: the order of the
    candidates comes before the order of the columns. *)
Theorem encontrar_coluna_primeira (df : DataFrame) (nomes : list string)
    (c : string) :
  _encontrar_coluna df nomes = Some c <->
  exists npre nome npost cpre cpost,
    nomes = (npre ++ nome :: npost)%list /\
    columns df = (cpre ++ c :: cpost)%list /\
    contains (lower nome) (lower c) = true /\
    (forall x, In x cpre -> contains (lower nome) (lower x) = false) /\
    (forall n x, In n npre -> In x (columns df) ->
                 contains (lower n) (lower x) = false).
Proof.
  unfold _encontrar_coluna. generalize (columns df) as cols. intros cols.
  induction nomes as [|n nomes IH]; simpl.
  - split; [discriminate|]. intros [npre [nome [npost [? [? [H _]]]]]].
    now destruct npre.
  - rewrite encontrar_nome_find.
    destruct (find (fun x => contains (lower n) (lower x)) cols) as [y|] eqn:Hf.
    + split.
      * intros [= <-]. apply find_primeiro in Hf as [cpre [cpost [Hc [Hy Hpre]]]].
        exists [], n, nomes, cpre, cpost. repeat split; try assumption.
        intros ? ? [].
      * intros [npre [nome [npost [cpre [cpost [Hn [Hc [Hm [Hpre Hnone]]]]]]]]].
        destruct npre as [|n0 npre]; simpl in Hn.
        -- injection Hn as Hnn _. subst nome.
           assert (Hc' : find (fun x => contains (lower n) (lower x)) cols
                         = Some c).
           { apply find_primeiro. now exists cpre, cpost. }
           congruence.
        -- injection Hn as Hnn _. subst n0. apply find_some in Hf as [Hin Hy].
           rewrite (Hnone n y (or_introl eq_refl) Hin) in Hy. discriminate Hy.
    + rewrite IH. split.
      * intros [npre [nome [npost [cpre [cpost [-> [Hc [Hm [Hpre Hnone]]]]]]]]].
        exists (n :: npre), nome, npost, cpre, cpost.
        repeat split; try assumption.
        intros n0 x [<-|Hn0] Hx; [exact (find_none _ _ Hf x Hx)|now apply Hnone].
      * intros [npre [nome [npost [cpre [cpost [Hn [Hc [Hm [Hpre Hnone]]]]]]]]].
        destruct npre as [|n0 npre]; simpl in Hn.
        -- injection Hn as Hnn _. subst nome. exfalso.
           assert (Hin : In c cols) by (rewrite Hc; apply in_elt).
           rewrite (find_none _ _ Hf c Hin) in Hm. discriminate Hm.
        -- injection Hn as Hnn Hn. subst n0 nomes.
           exists npre, nome, npost, cpre, cpost.
           repeat split; try assumption.
           intros n1 x Hn1 Hx. apply Hnone; [now right|exact Hx].
Qed.

(** X2. [_encontrar_coluna] returns [None] exactly when no column name,
    lowercased, contains any of the candidates, lowercased; in particular on
    a table without columns and on an empty list of candidates. *)
Theorem encontrar_coluna_nenhuma (df : DataFrame) (nomes : list string) :
  _encontrar_coluna df nomes = None <->
  forall nome c, In nome nomes -> In c (columns df) ->
                 contains (lower nome) (lower c) = false.
Proof. apply encontrar_nomes_none. Qed.

Lemma encontrar_nomes_some (cols nomes : list string) (c : string) :
  encontrar_nomes (combine cols (map lower cols)) nomes = Some c ->
  In c cols /\
  exists nome, In nome nomes /\ contains (lower nome) (lower c) = true.
Proof.
  induction nomes as [|n nomes IH]; simpl; [discriminate|].
  rewrite encontrar_nome_find.
  destruct (find (fun x => contains (lower n) (lower x)) cols) as [y|] eqn:Hf.
  - intros [= <-]. apply find_some in Hf as [Hin Hy].
    split; [exact Hin|]. exists n. split; [now left|exact Hy].
  - intros H. destruct (IH H) as [Hin [nome [Hn Hm]]].
    split; [exact Hin|]. exists nome. split; [now right|exact Hm].
Qed.

(** ** The status filter of [processar_csv] and [processar_excel] *)

Lemma coluna_status_truthy (df : DataFrame) (c : string) :
  _encontrar_coluna df ["situacao"; "status"; "situacao_processo"; "estado"]
  = Some c ->
  truthy c = true.
Proof.
  intros H. apply encontrar_nomes_some in H as [_ [nome [Hn Hm]]].
  destruct c; [|reflexivity]. simpl in Hn.
  destruct Hn as [<-|[<-|[<-|[<-|[]]]]]; discriminate Hm.
Qed.

Lemma filtrar_concedidos_spec (df : DataFrame) :
  filtrar_concedidos df
  = match _encontrar_coluna df
            ["situacao"; "status"; "situacao_processo"; "estado"] with
    | Some c =>
        {| columns := columns df;
           rows := filter (fun r => str_contains_nocase palavras_concedido
                                      (DF.loc c r)) (rows df) |}
    | None => df
    end.
Proof.
  unfold filtrar_concedidos, filtrar_status.
  destruct (_encontrar_coluna df _) as [c|] eqn:Hc; [|reflexivity].
  rewrite (coluna_status_truthy df c Hc).
  unfold DF.select, DF.column. rewrite map_map. f_equal.
  apply (select_mask (fun r => str_contains_nocase palavras_concedido
                                 (DF.loc c r))).
Qed.

Lemma filtrar_concedidos_columns (df : DataFrame) :
  columns (filtrar_concedidos df) = columns df.
Proof.
  rewrite filtrar_concedidos_spec. now destruct (_encontrar_coluna df _).
Qed.

Lemma str_contains_nocase_spec (palavras : list string) (c : Cell) :
  (forall w, In w palavras -> contains w "nan" = false) ->
  str_contains_nocase palavras c = true <->
  exists t w a b,
    c = Some t /\ In w palavras /\ lower t = a ++ w ++ b.
Proof.
  intros Hnan. unfold str_contains_nocase, contem_padrao.
  rewrite existsb_exists. split.
  - intros [w [Hw Hc]]. destruct c as [t|]; cbn [astype_str] in Hc.
    + apply contains_spec in Hc as [a [b Hab]]. now exists t, w, a, b.
    + change (lower "nan") with "nan" in Hc.
      rewrite (Hnan w Hw) in Hc. discriminate Hc.
  - intros [t [w [a [b [-> [Hw Hab]]]]]]. exists w. split; [exact Hw|].
    apply contains_spec. now exists a, b.
Qed.

(** *** Labels that are not strings *)

Lemma colunas_lower_str (nomes : list string) :
  colunas_lower (map RotuloStr nomes) = Obtido (map lower nomes).
Proof. induction nomes as [|n l IH]; simpl; [reflexivity|]. now rewrite IH. Qed.

Lemma nomes_dos_rotulos_str (nomes : list string) :
  nomes_dos_rotulos (map RotuloStr nomes) = nomes.
Proof. induction nomes as [|n l IH]; simpl; [reflexivity|]. now rewrite IH. Qed.

Lemma colunas_lower_outro (pre : list string) (tipo : string)
    (pos : list Rotulo) :
  colunas_lower (map RotuloStr pre ++ RotuloOutro tipo :: pos)
  = AttributeError tipo "lower".
Proof. induction pre as [|n l IH]; simpl; [reflexivity|]. now rewrite IH. Qed.

(** The labels are all [str], or there is a first one that is not. *)
Lemma rotulos_casos (rotulos : list Rotulo) :
  (exists nomes, rotulos = map RotuloStr nomes) \/
  (exists pre tipo pos,
      rotulos = (map RotuloStr pre ++ RotuloOutro tipo :: pos)%list).
Proof.
  induction rotulos as [|r l IH]; [left; now exists []|].
  destruct r as [nome|tipo]; [|right; now exists [], tipo, l].
  destruct IH as [[nomes ->]|[pre [tipo [pos ->]]]].
  - left. now exists (nome :: nomes).
  - right. now exists (nome :: pre), tipo, pos.
Qed.

Lemma tabela_lida_str (nomes : list string) (linhas : list (list Cell)) :
  tabela_lida (map RotuloStr nomes) linhas
  = {| columns := nomes; rows := map (combine nomes) linhas |}.
Proof. unfold tabela_lida. cbv zeta. now rewrite nomes_dos_rotulos_str. Qed.

(** On labels that are all [str], the search is [_encontrar_coluna] on the
    table of the model. *)
Lemma encontrar_coluna_rotulos_str (nomes possiveis : list string)
    (linhas : list (list Cell)) :
  _encontrar_coluna_rotulos (map RotuloStr nomes) possiveis
  = Obtido (_encontrar_coluna (tabela_lida (map RotuloStr nomes) linhas)
              possiveis).
Proof.
  unfold _encontrar_coluna_rotulos, _encontrar_coluna.
  now rewrite colunas_lower_str, tabela_lida_str, nomes_dos_rotulos_str.
Qed.

Lemma encontrar_coluna_rotulos_outro (pre : list string) (tipo : string)
    (pos : list Rotulo) (possiveis : list string) :
  _encontrar_coluna_rotulos (map RotuloStr pre ++ RotuloOutro tipo :: pos)
    possiveis
  = AttributeError tipo "lower".
Proof. unfold _encontrar_coluna_rotulos. now rewrite colunas_lower_outro. Qed.

Lemma filtrar_concedidos_rotulos_str (nomes : list string)
    (linhas : list (list Cell)) :
  filtrar_concedidos_rotulos (map RotuloStr nomes) linhas
  = Obtido (filtrar_concedidos
              {| columns := nomes; rows := map (combine nomes) linhas |}).
Proof.
  unfold filtrar_concedidos_rotulos, filtrar_concedidos.
  now rewrite (encontrar_coluna_rotulos_str nomes _ linhas), tabela_lida_str.
Qed.

Lemma filtrar_concedidos_rotulos_outro (pre : list string) (tipo : string)
    (pos : list Rotulo) (linhas : list (list Cell)) :
  filtrar_concedidos_rotulos (map RotuloStr pre ++ RotuloOutro tipo :: pos)
    linhas
  = AttributeError tipo "lower".
Proof.
  unfold filtrar_concedidos_rotulos.
  now rewrite encontrar_coluna_rotulos_outro.
Qed.

(** What the search and the block raise on a table that was read: nothing
    but the [AttributeError] of the first label that is not a [str]. *)
Lemma reerguer_levanta (prefixo : string) (rotulos : list Rotulo)
    (linhas : list (list Cell)) (e : Excecao) :
  reerguer prefixo (filtrar_concedidos_rotulos rotulos linhas) = Levanta e ->
  exists pre tipo pos,
    rotulos = (map RotuloStr pre ++ RotuloOutro tipo :: pos)%list /\
    e = Exception (prefixo ++ str_AttributeError tipo "lower").
Proof.
  destruct (rotulos_casos rotulos) as [[nomes ->]|[pre [tipo [pos ->]]]].
  - rewrite filtrar_concedidos_rotulos_str. discriminate.
  - rewrite filtrar_concedidos_rotulos_outro. cbn [reerguer].
    intros [= <-]. now exists pre, tipo, pos.
Qed.

(** X3. On the table it read, [processar_excel] (and [processar_csv] the
    same) looks for a status column among situacao, status,
    situacao_processo and estado.  When the column labels are all strings:
    without a status column the table is returned as it is; with one, the
    columns are kept and the rows returned are, in order, the rows whose
    status text contains, the case ignored, one of concedido, concessao,
    deferido and registrado as a substring; a row with a missing status is
    dropped, and a row whose status contains indeferido is kept.  When some
    label is not a string (a number in the header of a sheet), the search
    raises at the first such label and [processar_excel] raises
    [Exception], the message saying that the type of the label has no
    attribute lower, although the file was read. *)
Theorem processar_excel_linhas (df : DataFrame) (rotulos : list Rotulo)
    (linhas : list (list Cell)) :
  let coluna := _encontrar_coluna df
                  ["situacao"; "status"; "situacao_processo"; "estado"] in
  let concedido := str_contains_nocase palavras_concedido in
  (exists out,
    processar_excel (Lido df) = Retorna out /\
    columns out = columns df /\
    (coluna = None -> out = df) /\
    (forall c, coluna = Some c ->
               rows out = filter (fun r => concedido (DF.loc c r)) (rows df)) /\
    (forall cell,
        concedido cell = true <->
        exists t w a b,
          cell = Some t /\ In w palavras_concedido /\ lower t = a ++ w ++ b) /\
    concedido None = false /\
    (forall t a b, lower t = a ++ "indeferido" ++ b -> concedido (Some t) = true))
  /\ (forall nomes,
        rotulos = map RotuloStr nomes ->
        processar_excel (LidoRotulos rotulos linhas)
        = processar_excel
            (Lido {| columns := nomes; rows := map (combine nomes) linhas |}))
  /\ (forall pre tipo pos,
        rotulos = (map RotuloStr pre ++ RotuloOutro tipo :: pos)%list ->
        processar_excel (LidoRotulos rotulos linhas)
        = Levanta (Exception ("Erro ao processar Excel: '" ++ tipo
                              ++ "' object has no attribute 'lower'")))
  /\ ((exists nomes, rotulos = map RotuloStr nomes) \/
      (exists pre tipo pos,
          rotulos = (map RotuloStr pre ++ RotuloOutro tipo :: pos)%list)).
Proof.
  cbv zeta. split; [|split; [|split]].
  - exists (filtrar_concedidos df).
    split; [reflexivity|]. split; [apply filtrar_concedidos_columns|].
    rewrite filtrar_concedidos_spec. split; [now intros ->|].
    split; [|split; [|split]].
    + intros c ->. reflexivity.
    + intros cell. apply str_contains_nocase_spec.
      intros w [<-|[<-|[<-|[<-|[]]]]]; reflexivity.
    + reflexivity.
    + intros t a b Hab. apply str_contains_nocase_spec.
      * intros w [<-|[<-|[<-|[<-|[]]]]]; reflexivity.
      * exists t, "deferido", (a ++ "in"), b. repeat split.
        -- right. right. now left.
        -- rewrite Hab. clear. induction a as [|x a IH]; [reflexivity|].
           simpl. f_equal. exact IH.
  - intros nomes ->. cbn [processar_excel].
    now rewrite filtrar_concedidos_rotulos_str.
  - intros pre tipo pos ->. cbn [processar_excel].
    now rewrite filtrar_concedidos_rotulos_outro.
  - apply rotulos_casos.
Qed.

(** A sheet whose second header cell is the number 2024. *)
Lemma processar_excel_linhas_witness :
  processar_excel
    (LidoRotulos [RotuloStr "Marca"; RotuloOutro "int"; RotuloStr "Status"]
       [[Some "X"; Some "10"; Some "Registrado"]])
  = Levanta (Exception
               "Erro ao processar Excel: 'int' object has no attribute 'lower'").
Proof.
  exact (proj1 (proj2 (proj2
           (processar_excel_linhas DataFrame_vazio
              [RotuloStr "Marca"; RotuloOutro "int"; RotuloStr "Status"]
              [[Some "X"; Some "10"; Some "Registrado"]])))
           ["Marca"] "int" [RotuloStr "Status"] eq_refl).
Defined.

(** X4. The status filter is stable: run on its own result it changes
    nothing, so a table already reduced to its granted rows goes through
    [processar_excel] unchanged. *)
Theorem processar_excel_estavel (df out : DataFrame) :
  processar_excel (Lido df) = Retorna out ->
  processar_excel (Lido out) = Retorna out.
Proof.
  simpl. intros [= <-]. f_equal.
  assert (Hcol : _encontrar_coluna (filtrar_concedidos df)
                   ["situacao"; "status"; "situacao_processo"; "estado"]
                 = _encontrar_coluna df
                     ["situacao"; "status"; "situacao_processo"; "estado"])
    by (unfold _encontrar_coluna; now rewrite filtrar_concedidos_columns).
  rewrite (filtrar_concedidos_spec (filtrar_concedidos df)), Hcol.
  pose proof (filtrar_concedidos_spec df) as Hs.
  destruct (_encontrar_coluna df _) as [c|]; [|reflexivity].
  rewrite Hs. cbn [rows columns]. f_equal. apply filter_idem.
Qed.

Lemma processar_excel_estavel_witness :
  processar_excel
    (Lido {| columns := ["Marca"; "Status"];
             rows := [[("Marca", Some "X"); ("Status", Some "Registrado")]] |})
  = Retorna {| columns := ["Marca"; "Status"];
               rows := [[("Marca", Some "X"); ("Status", Some "Registrado")]] |}.
Proof.
  exact (processar_excel_estavel
           {| columns := ["Marca"; "Status"];
              rows := [[("Marca", Some "X"); ("Status", Some "Registrado")];
                       [("Marca", Some "Y"); ("Status", Some "Arquivado")]] |}
           _ eq_refl).
Defined.

(** ** The encodings of [processar_csv] *)

Lemma ler_com_encodings_app (read_csv : string -> Leitura)
    (pre resto : list string) :
  (forall e, In e pre -> exists m, read_csv e = UnicodeDecodeError m) ->
  ler_com_encodings read_csv (pre ++ resto)
  = ler_com_encodings read_csv resto.
Proof.
  induction pre as [|e pre IH]; intros H; [reflexivity|]. simpl.
  destruct (H e (or_introl eq_refl)) as [m ->].
  apply IH. intros e' He'. apply H. now right.
Qed.

Lemma ler_com_encodings_falhou (read_csv : string -> Leitura)
    (encodings : list string) (m : string) :
  ler_com_encodings read_csv encodings = Falhou m ->
  exists enc, In enc encodings /\ read_csv enc = ErroDeLeitura m.
Proof.
  induction encodings as [|e l IH]; simpl; [discriminate|].
  destruct (read_csv e) as [df|rotulos linhas|m'|m'] eqn:He.
  - discriminate.
  - discriminate.
  - intros H. destruct (IH H) as [enc [Hin Henc]].
    exists enc. split; [now right|exact Henc].
  - intros [= <-]. exists e. split; [now left|exact He].
Qed.

Lemma ler_com_encodings_rotulos (read_csv : string -> Leitura)
    (encodings : list string) (rotulos : list Rotulo)
    (linhas : list (list Cell)) :
  ler_com_encodings read_csv encodings = LeuRotulos rotulos linhas ->
  exists enc, In enc encodings /\ read_csv enc = LidoRotulos rotulos linhas.
Proof.
  induction encodings as [|e l IH]; simpl; [discriminate|].
  destruct (read_csv e) as [df|rotulos' linhas'|m'|m'] eqn:He.
  - discriminate.
  - intros [= <- <-]. exists e. split; [now left|exact He].
  - intros H. destruct (IH H) as [enc [Hin Henc]].
    exists enc. split; [now right|exact Henc].
  - discriminate.
Qed.

Lemma ler_com_encodings_nenhum (read_csv : string -> Leitura)
    (encodings : list string) :
  ler_com_encodings read_csv encodings = NenhumEncoding ->
  forall enc, In enc encodings -> exists m, read_csv enc = UnicodeDecodeError m.
Proof.
  induction encodings as [|e l IH]; simpl; [intros _ enc []|].
  destruct (read_csv e) as [df|rotulos linhas|m'|m'] eqn:He; try discriminate.
  intros H enc [<-|Hin]; [now exists m'|now apply IH].
Qed.

(** X5. [processar_csv] tries the requested encoding, then latin-1,
    iso-8859-1 and cp1252, and stops at the first one that does not raise
    [UnicodeDecodeError]: when that one reads a table, the result is what
    [processar_excel] gives on that table, whatever the later encodings
    would have done. *)
Theorem processar_csv_primeiro_encoding (read_csv : string -> Leitura)
    (encoding enc : string) (pre pos : list string) (df : DataFrame) :
  [encoding; "latin-1"; "iso-8859-1"; "cp1252"] = (pre ++ enc :: pos)%list ->
  (forall e, In e pre -> exists m, read_csv e = UnicodeDecodeError m) ->
  read_csv enc = Lido df ->
  processar_csv read_csv encoding = processar_excel (Lido df).
Proof.
  intros Hl Hpre Henc. unfold processar_csv. cbv zeta.
  rewrite Hl, (ler_com_encodings_app read_csv pre (enc :: pos) Hpre).
  simpl. now rewrite Henc.
Qed.

Lemma processar_csv_primeiro_encoding_witness :
  processar_csv
    (fun enc => if String.eqb enc "latin-1"
                then Lido {| columns := ["Status"];
                             rows := [[("Status", Some "DEFERIDO")];
                                      [("Status", None)]] |}
                else UnicodeDecodeError "invalid start byte")
    "utf-8"
  = Retorna {| columns := ["Status"];
               rows := [[("Status", Some "DEFERIDO")]] |}.
Proof.
  exact (processar_csv_primeiro_encoding _ "utf-8" "latin-1" ["utf-8"]
           ["iso-8859-1"; "cp1252"] _ eq_refl
           (fun e H => match H with
                       | or_introl E =>
                           ex_intro _ "invalid start byte"
                             (eq_ind "utf-8"
                                (fun x => (if String.eqb x "latin-1"
                                           then Lido _
                                           else UnicodeDecodeError
                                                  "invalid start byte")
                                          = UnicodeDecodeError
                                              "invalid start byte")
                                eq_refl e E)
                       | or_intror F => match F with end
                       end)
           eq_refl).
Defined.

(** X6. Whatever [processar_csv] raises is an [Exception] whose message
    starts with its prefix, and it raises in three cases only: every one of
    the four encodings raised [UnicodeDecodeError], and the message says
    that no encoding could read the file; or the read raised another
    exception under one of them, and the message carries that exception's
    text; or the file was read under one of them and some column label is
    not a string, and the message says that the type of the first such label
    has no attribute lower.  [processar_excel] likewise raises only when the
    read raised or a column label is not a string, with its own prefix. *)
Theorem processar_csv_excecoes (read_csv : string -> Leitura)
    (encoding : string) (e : Excecao) :
  processar_csv read_csv encoding = Levanta e ->
  exists m,
    e = Exception ("Erro ao processar CSV: " ++ m) /\
    ((m = mensagem_sem_encoding /\
      forall enc, In enc [encoding; "latin-1"; "iso-8859-1"; "cp1252"] ->
                  exists m', read_csv enc = UnicodeDecodeError m') \/
     (exists enc, In enc [encoding; "latin-1"; "iso-8859-1"; "cp1252"] /\
                  read_csv enc = ErroDeLeitura m) \/
     (exists enc pre tipo pos linhas,
         In enc [encoding; "latin-1"; "iso-8859-1"; "cp1252"] /\
         read_csv enc
         = LidoRotulos (map RotuloStr pre ++ RotuloOutro tipo :: pos) linhas /\
         m = "'" ++ tipo ++ "' object has no attribute 'lower'")) /\
    (forall l e',
        processar_excel l = Levanta e' ->
        exists m',
          e' = Exception ("Erro ao processar Excel: " ++ m') /\
          (l = UnicodeDecodeError m' \/ l = ErroDeLeitura m' \/
           exists pre tipo pos linhas,
             l = LidoRotulos (map RotuloStr pre ++ RotuloOutro tipo :: pos)
                   linhas /\
             m' = "'" ++ tipo ++ "' object has no attribute 'lower'")).
Proof.
  assert (Hexcel :
            forall l e',
              processar_excel l = Levanta e' ->
              exists m',
                e' = Exception ("Erro ao processar Excel: " ++ m') /\
                (l = UnicodeDecodeError m' \/ l = ErroDeLeitura m' \/
                 exists pre tipo pos linhas,
                   l = LidoRotulos
                         (map RotuloStr pre ++ RotuloOutro tipo :: pos) linhas /\
                   m' = "'" ++ tipo ++ "' object has no attribute 'lower'")).
  { intros [df|rotulos linhas|m'|m'] e'; cbn [processar_excel].
    - discriminate.
    - intros H. apply reerguer_levanta in H as [pre [tipo [pos [-> ->]]]].
      exists (str_AttributeError tipo "lower"). split; [reflexivity|].
      right. right. now exists pre, tipo, pos, linhas.
    - intros [= <-]. exists m'. auto.
    - intros [= <-]. exists m'. auto. }
  unfold processar_csv. cbv zeta.
  destruct (ler_com_encodings read_csv _) as [df|rotulos linhas| |m] eqn:Hl.
  - discriminate.
  - intros H. apply reerguer_levanta in H as [pre [tipo [pos [-> ->]]]].
    exists (str_AttributeError tipo "lower"). split; [reflexivity|].
    split; [|exact Hexcel]. right. right.
    apply ler_com_encodings_rotulos in Hl as [enc [Hin Henc]].
    now exists enc, pre, tipo, pos, linhas.
  - intros [= <-]. exists mensagem_sem_encoding. split; [reflexivity|].
    split; [|exact Hexcel].
    left. split; [reflexivity|]. exact (ler_com_encodings_nenhum _ _ Hl).
  - intros [= <-]. exists m. split; [reflexivity|].
    split; [|exact Hexcel].
    right. left. exact (ler_com_encodings_falhou _ _ _ Hl).
Qed.

(** A file that is not UTF-8 and, read as Latin-1, has the number 2024 as
    its second column label: the exception raised, and its cause. *)
Lemma processar_csv_excecoes_witness :
  exists m,
    Exception "Erro ao processar CSV: 'int' object has no attribute 'lower'"
    = Exception ("Erro ao processar CSV: " ++ m) /\
    m <> mensagem_sem_encoding.
Proof.
  destruct (processar_csv_excecoes
              (fun enc => if String.eqb enc "utf-8"
                          then UnicodeDecodeError "invalid start byte"
                          else LidoRotulos
                                 [RotuloStr "Status"; RotuloOutro "int"]
                                 [[Some "Deferido"; Some "1"]])
              "utf-8"
              (Exception
                 "Erro ao processar CSV: 'int' object has no attribute 'lower'")
              eq_refl) as [m [Hm _]].
  exists m. split; [exact Hm|].
  injection Hm as Hm. subst m. discriminate.
Defined.

(** ** Where the normalizers raise *)

Lemma isdigit_truthy (s : string) : isdigit s = true -> truthy s = true.
Proof. unfold isdigit. now destruct (truthy s). Qed.

Lemma invalido_sem_sequencia (s : string) :
  mem (lower s) ["n/a"; "nan"; "none"; ""] = true -> search_digits s = None.
Proof.
  rewrite mem_invalidos. intros H. apply orb_prop in H as [H|H].
  - now apply invalido_sem_digitos in H.
  - apply negb_true_iff in H. rewrite truthy_lower in H.
    apply truthy_false in H. now subst s.
Qed.

(** Where [int()] refuses a token that [isdigit()] accepted. *)
Lemma int_isdigit (s : string) :
  isdigit s = true ->
  int s = ValueError <-> negb (forallb isdecimal s) || excede s = true.
Proof.
  intros H. rewrite int_erro, orb_true_iff, negb_true_iff, excede_true.
  unfold so_digitos. rewrite (isdigit_truthy s H). reflexivity.
Qed.

(** Where [int()] refuses a match of [\d+]. *)
Lemma int_sequencia (s run : string) :
  search_digits s = Some run ->
  int run = ValueError <-> excede run = true.
Proof.
  intros H. rewrite int_erro, excede_true.
  rewrite (search_digits_so_digitos _ _ H).
  split; [intros [H'|H']; [discriminate H'|exact H']|now right].
Qed.

Lemma extrair_classe_erro (c : Cell) :
  extrair_classe c = ValueError <->
  exists v, c = Some v /\ conversao_recusada (strip v) = true.
Proof.
  unfold conversao_recusada. split.
  - destruct c as [v|]; [|discriminate]. unfold extrair_classe.
    destruct (mem (lower (strip v)) _); [discriminate|].
    destruct (isdigit (strip v)) eqn:Hd.
    + destruct (int (strip v)) eqn:Hi; [discriminate|]. intros _.
      exists v. split; [reflexivity|]. rewrite Hd.
      now apply (int_isdigit _ Hd).
    + destruct (search_digits (strip v)) as [m|] eqn:Hm; [|discriminate].
      destruct (int m) as [num|] eqn:Hi; simpl.
      * now destruct ((1 <=? num)%N && (num <=? 45)%N).
      * intros _. exists v. split; [reflexivity|]. rewrite Hd, Hm.
        now apply (int_sequencia _ _ Hm).
  - intros [v [-> H]]. destruct (isdigit (strip v)) eqn:Hd.
    + apply (extrair_classe_recusa_digitos v Hd).
      now apply (int_isdigit _ Hd).
    + destruct (search_digits (strip v)) as [m|] eqn:Hm; [|discriminate H].
      unfold extrair_classe.
      destruct (mem (lower (strip v)) _) eqn:Hinv.
      * apply invalido_sem_sequencia in Hinv. congruence.
      * rewrite Hd, Hm. now rewrite (proj2 (int_sequencia _ _ Hm) H).
Qed.

(** X7. [extrair_classe] (and [normalizar_valor_classe], the same function)
    raises [ValueError] exactly where it calls [int()] on text that [int()]
    refuses: on the tokens that, trimmed, are made of digit characters not
    all of which are decimal digits (a superscript two) or of more than
    4300 digit characters, and on the other tokens whose first run of
    decimal digits has more than 4300 digits; on every other value it
    returns.  So 4300 zeros give 0 and 4301 zeros raise. *)
Theorem extrair_classe_levanta (c : Cell) :
  (extrair_classe c = ValueError <->
   exists v,
     c = Some v /\
     ((isdigit (strip v) = true /\
       (forallb isdecimal (strip v) = false \/
        int_max_str_digits < String.length (strip v))) \/
      (isdigit (strip v) = false /\
       exists run, search_digits (strip v) = Some run /\
                   int_max_str_digits < String.length run))) /\
  normalizar_valor_classe c = extrair_classe c /\
  extrair_classe (Some (String (ascii_of_N 178) "")) = ValueError /\
  extrair_classe (Some (repetir 4300 "0")) = Ok (Some "0") /\
  extrair_classe (Some (repetir 4301 "0")) = ValueError /\
  extrair_classe (Some ("Classe " ++ repetir 4301 "0")) = ValueError.
Proof.
  split; [|split; [reflexivity|repeat split; vm_compute; reflexivity]].
  rewrite extrair_classe_erro. unfold conversao_recusada.
  split; intros [v [Hc H]]; exists v; (split; [exact Hc|]).
  - destruct (isdigit (strip v)) eqn:Hd; [left|right]; (split; [reflexivity|]).
    + apply orb_prop in H as [H|H]; [left|right].
      * now apply negb_true_iff.
      * now apply excede_true.
    + destruct (search_digits (strip v)) as [run|]; [|discriminate H].
      exists run. split; [reflexivity|]. now apply excede_true.
  - destruct H as [[Hd H]|[Hd [run [Hm H]]]]; rewrite Hd.
    + apply orb_true_iff. destruct H as [H|H]; [left|right].
      * now apply negb_true_iff.
      * now apply excede_true.
    + rewrite Hm. now apply excede_true.
Qed.

Lemma mapM_total (l : list Cell) :
  (forall c, In c l -> extrair_classe c <> ValueError) ->
  mapM extrair_classe l = Ok (map valor_normalizado l).
Proof.
  induction l as [|c l IH]; intros H; [reflexivity|]. simpl.
  unfold valor_normalizado at 1.
  destruct (extrair_classe c) as [v|] eqn:Hc.
  - simpl. rewrite IH; [reflexivity|]. intros c' Hc'. apply H. now right.
  - exfalso. now apply (H c (or_introl eq_refl)).
Qed.

Lemma mapM_erro {A B : Type} (f : A -> Result B) (l : list A) :
  mapM f l = ValueError <-> exists x, In x l /\ f x = ValueError.
Proof.
  induction l as [|x l IH]; simpl.
  - split; [discriminate|intros [x [[] _]]].
  - destruct (f x) as [y|] eqn:Hx; simpl.
    + destruct (mapM f l) as [ys|]; simpl.
      * split; [discriminate|]. intros [x' [[<-|Hin] Hx']]; [congruence|].
        assert (H : @Ok (list B) ys = ValueError)
          by (apply IH; now exists x').
        discriminate H.
      * split; [intros _|reflexivity].
        destruct (proj1 IH eq_refl) as [x' [Hin Hx']]. exists x'.
        split; [now right|exact Hx'].
    + split; [intros _|reflexivity]. exists x. split; [now left|exact Hx].
Qed.

(** ** [normalizar_classes] *)


Lemma row_set_row_set (col : string) (v w : Cell) (r : Row) :
  DF.row_set col v (DF.row_set col w r) = DF.row_set col v r.
Proof.
  induction r as [|[k x] r IH]; simpl.
  - now rewrite String.eqb_refl.
  - destruct (String.eqb k col) eqn:E; simpl; rewrite E; [reflexivity|].
    now rewrite IH.
Qed.


Lemma valor_normalizado_fixo (c : Cell) :
  extrair_classe (valor_normalizado c) = Ok (valor_normalizado c).
Proof.
  unfold valor_normalizado. destruct (extrair_classe c) as [v|] eqn:E.
  - exact (extrair_classe_fixo c v E).
  - reflexivity.
Qed.

Lemma valor_normalizado_idem (c : Cell) :
  valor_normalizado (valor_normalizado c) = valor_normalizado c.
Proof.
  unfold valor_normalizado at 1. now rewrite valor_normalizado_fixo.
Qed.

Lemma linha_normalizada_idem (col : string) (r : Row) :
  linha_normalizada col (linha_normalizada col r) = linha_normalizada col r.
Proof.
  unfold linha_normalizada.
  now rewrite loc_row_set, valor_normalizado_idem, row_set_row_set.
Qed.

Lemma normalizar_classes_retorna (df : DataFrame) (col : string) :
  mem col (columns df) = true ->
  (forall r, In r (rows df) -> extrair_classe (DF.loc col r) <> ValueError) ->
  normalizar_classes df col
  = Retorna {| columns := columns df;
               rows := map (linha_normalizada col) (rows df) |}.
Proof.
  intros Hcol Hok. unfold normalizar_classes. rewrite Hcol.
  unfold DF.column. rewrite mapM_total.
  - simpl. unfold DF.assign. rewrite Hcol. do 2 f_equal.
    rewrite map_map, combine_map_self, map_map. reflexivity.
  - intros c Hc. apply in_map_iff in Hc as [r [<- Hr]]. now apply Hok.
Qed.

Lemma normalizar_classes_inv (df df' : DataFrame) (col : string) :
  normalizar_classes df col = Retorna df' ->
  mem col (columns df) = true /\
  (forall r, In r (rows df) -> extrair_classe (DF.loc col r) <> ValueError) /\
  df' = {| columns := columns df;
           rows := map (linha_normalizada col) (rows df) |}.
Proof.
  intros H.
  assert (Hcol : mem col (columns df) = true).
  { unfold normalizar_classes in H. now destruct (mem col (columns df)). }
  assert (Hok : forall r, In r (rows df) ->
                          extrair_classe (DF.loc col r) <> ValueError).
  { intros r Hr He. unfold normalizar_classes in H. rewrite Hcol in H.
    assert (Hm : mapM extrair_classe (DF.column col df) = ValueError).
    { apply mapM_erro. exists (DF.loc col r). split; [|exact He].
      unfold DF.column. now apply in_map. }
    rewrite Hm in H. discriminate H. }
  rewrite (normalizar_classes_retorna df col Hcol Hok) in H.
  injection H as <-. now repeat split.
Qed.




(** X9. Normalizing the class column of a table that [normalizar_classes]
    returned gives that same table again. *)
Theorem normalizar_classes_idempotente (df df' : DataFrame) (col : string) :
  normalizar_classes df col = Retorna df' ->
  normalizar_classes df' col = Retorna df'.
Proof.
  intros H. apply normalizar_classes_inv in H as [Hcol [Hok ->]].
  rewrite normalizar_classes_retorna; simpl.
  - do 2 f_equal. rewrite map_map. apply map_ext. intros r.
    apply linha_normalizada_idem.
  - exact Hcol.
  - intros r' Hr'. apply in_map_iff in Hr' as [r [<- Hr]].
    unfold linha_normalizada. rewrite loc_row_set, valor_normalizado_fixo.
    discriminate.
Qed.

Lemma normalizar_classes_idempotente_witness :
  normalizar_classes
    {| columns := ["classe"; "especificacao"];
       rows := [ linha_exemplo (Some "3") (Some "Ferramentas manuais");
                 linha_exemplo (Some "Cl. 99") (Some "xyz");
                 linha_exemplo None None ] |} "classe"
  = Retorna
      {| columns := ["classe"; "especificacao"];
         rows := [ linha_exemplo (Some "3") (Some "Ferramentas manuais");
                   linha_exemplo (Some "Cl. 99") (Some "xyz");
                   linha_exemplo None None ] |}.
Proof.
  exact (normalizar_classes_idempotente tabela_exemplo _ "classe" eq_refl).
Defined.

(** ** Where the class filter raises *)




Lemma filtrar_por_classes_retorna (df : DataFrame) (cs cn : list string)
    (col : string) :
  mem col (columns df) = true ->
  DF.empty df = false ->
  classes_normalizadas cs = Ok cn ->
  cn <> [] ->
  (forall r, In r (rows df) -> extrair_classe (DF.loc col r) <> ValueError) ->
  filtrar_por_classes df (Some cs) col
  = Ok {| columns := filter (fun c => negb (String.eqb c (col ++ "_normalizada")))
                            (columns df);
          rows := map (DF.row_drop (col ++ "_normalizada"))
                      (filter (linha_mantida cn col) (rows df)) |}.
Proof.
  intros Hcol Hempty Hcn Hne Hok.
  assert (Hex : exists out, filtrar_por_classes df (Some cs) col = Ok out).
  { unfold filtrar_por_classes.
    rewrite (classes_normalizadas_nonempty cs cn Hcn Hne), Hcol, Hempty, Hcn.
    simpl. apply nonempty_true in Hne. rewrite Hne. simpl.
    assert (Hm : mapM normalizar_valor_classe (DF.column col df)
                 = Ok (map valor_normalizado (DF.column col df))).
    { apply mapM_total. intros c Hc. unfold DF.column in Hc.
      apply in_map_iff in Hc as [r [<- Hr]]. now apply Hok. }
    rewrite Hm. simpl.
    match goal with |- context [if ?b then _ else _] => destruct b end;
      eexists; reflexivity. }
  destruct Hex as [out Hout].
  destruct (filtrar_por_classes_ativo df out cs cn col Hcol Hempty Hcn Hne Hout)
    as [Hc Hr].
  rewrite Hout. destruct out as [ocols orows]. simpl in Hc, Hr. now subst.
Qed.




(** ** More on the class filter *)

Lemma row_drop_idem (col : string) (r : Row) :
  DF.row_drop col (DF.row_drop col r) = DF.row_drop col r.
Proof. apply filter_idem. Qed.

Lemma linha_mantida_row_drop (cn : list string) (col : string) (r : Row) :
  linha_mantida cn col (DF.row_drop (col ++ "_normalizada") r)
  = linha_mantida cn col r.
Proof.
  unfold linha_mantida. now rewrite loc_row_drop by apply temporaria_distinta.
Qed.

Lemma mem_coluna_sem_temporaria (col : string) (cols : list string) :
  mem col cols = true ->
  mem col (filter (fun c => negb (String.eqb c (col ++ "_normalizada"))) cols)
  = true.
Proof.
  intros H. apply mem_In. apply mem_In in H. apply filter_In. split; [exact H|].
  rewrite String.eqb_sym, temporaria_distinta. reflexivity.
Qed.

Lemma filtrar_por_classes_casos (df out : DataFrame) (cs : list string)
    (col : string) :
  filtrar_por_classes df (Some cs) col = Ok out ->
  (out = df /\
   (nonempty cs = false \/ mem col (columns df) = false \/
    DF.empty df = true \/ classes_normalizadas cs = Ok [])) \/
  (exists cn, mem col (columns df) = true /\ DF.empty df = false /\
              classes_normalizadas cs = Ok cn /\ cn <> []).
Proof.
  unfold filtrar_por_classes.
  destruct (nonempty cs) eqn:Hcs; simpl;
    [|intros [= <-]; left; split; [reflexivity|now left]].
  destruct (mem col (columns df)) eqn:Hcol; simpl;
    [|intros [= <-]; left; split; [reflexivity|right; now left]].
  destruct (DF.empty df) eqn:Hempty;
    [intros [= <-]; left; split; [reflexivity|right; right; now left]|].
  destruct (classes_normalizadas cs) as [cn|] eqn:Hcn; simpl; [|discriminate].
  destruct cn as [|x cn]; simpl.
  - intros [= <-]. left. split; [reflexivity|]. now do 3 right.
  - intros _. right. exists (x :: cn). repeat split. discriminate.
Qed.

Lemma linha_mantida_ok (cn : list string) (col : string) (r : Row) :
  linha_mantida cn col r = true ->
  extrair_classe (DF.loc col r) <> ValueError.
Proof.
  unfold linha_mantida. change normalizar_valor_classe with extrair_classe.
  now destruct (extrair_classe (DF.loc col r)).
Qed.

(** X11. The class filter is idempotent: applied with the same request to
    the table it returned, it returns that table again. *)
Theorem filtrar_por_classes_idempotente (df out : DataFrame)
    (cs : list string) (col : string) :
  filtrar_por_classes df (Some cs) col = Ok out ->
  filtrar_por_classes out (Some cs) col = Ok out.
Proof.
  intros Hout.
  destruct (filtrar_por_classes_casos df out cs col Hout)
    as [[-> _]|[cn [Hcol [Hempty [Hcn Hne]]]]]; [exact Hout|].
  destruct (filtrar_por_classes_ativo df out cs cn col Hcol Hempty Hcn Hne Hout)
    as [Hc Hr].
  assert (Hcol' : mem col (columns out) = true)
    by (rewrite Hc; now apply mem_coluna_sem_temporaria).
  destruct (DF.empty out) eqn:Hempty'.
  - unfold filtrar_por_classes.
    rewrite (classes_normalizadas_nonempty cs cn Hcn Hne), Hcol', Hempty'.
    reflexivity.
  - rewrite (filtrar_por_classes_retorna out cs cn col Hcol' Hempty' Hcn Hne).
    + f_equal. destruct out as [ocols orows]. simpl in Hc, Hr. subst. f_equal.
      * cbn [columns]. apply filter_idem.
      * cbn [rows]. rewrite filter_map_comm, map_map.
        rewrite (filter_ext _ (linha_mantida cn col))
          by (intros r; apply linha_mantida_row_drop).
        rewrite filter_idem. apply map_ext. intros r. apply row_drop_idem.
    + intros r' Hr'. rewrite Hr in Hr'. apply in_map_iff in Hr' as [r [<- Hin]].
      apply filter_In in Hin as [_ Hm].
      rewrite loc_row_drop by apply temporaria_distinta.
      exact (linha_mantida_ok cn col r Hm).
Qed.

Lemma filtrar_por_classes_idempotente_witness :
  filtrar_por_classes
    {| columns := ["classe"; "especificacao"];
       rows := [linha_exemplo (Some "3") (Some "Ferramentas manuais")] |}
    (Some ["03"]) "classe"
  = Ok {| columns := ["classe"; "especificacao"];
          rows := [linha_exemplo (Some "3") (Some "Ferramentas manuais")] |}.
Proof.
  exact (filtrar_por_classes_idempotente tabela_exemplo _ ["03"] "classe"
           eq_refl).
Defined.

Lemma isin_ext (cn1 cn2 : list string) :
  (forall x, In x cn1 <-> In x cn2) -> forall c, isin cn1 c = isin cn2 c.
Proof.
  intros H [s|]; [|reflexivity]. simpl.
  destruct (mem s cn1) eqn:E1, (mem s cn2) eqn:E2; try reflexivity.
  - apply mem_In, H, mem_In in E1. congruence.
  - apply mem_In, H, mem_In in E2. congruence.
Qed.

Lemma filtrar_por_classes_sem_normalizadas (df : DataFrame) (cs : list string)
    (col : string) :
  classes_normalizadas cs = Ok [] ->
  filtrar_por_classes df (Some cs) col = Ok df.
Proof.
  intros H. unfold filtrar_por_classes.
  destruct (negb (nonempty cs) || negb (mem col (columns df))); [reflexivity|].
  destruct (DF.empty df); [reflexivity|]. now rewrite H.
Qed.

(** X12. The class filter depends on the request only through the set of
    its normalized classes: two requests that normalize to lists with the
    same members (in any order, with or without repetitions, leading zeros
    or words around the number) give the same result on every table. *)
Theorem filtrar_por_classes_conjunto (df : DataFrame) (cs1 cs2 cn1 cn2 : list string)
    (col : string) :
  classes_normalizadas cs1 = Ok cn1 ->
  classes_normalizadas cs2 = Ok cn2 ->
  (forall x, In x cn1 <-> In x cn2) ->
  filtrar_por_classes df (Some cs1) col = filtrar_por_classes df (Some cs2) col.
Proof.
  intros H1 H2 Heq.
  destruct cn1 as [|x cn1].
  - assert (cn2 = []) as ->.
    { destruct cn2 as [|y cn2]; [reflexivity|].
      destruct (proj2 (Heq y) (or_introl eq_refl)). }
    now rewrite !filtrar_por_classes_sem_normalizadas.
  - assert (Hne1 : x :: cn1 <> []) by discriminate.
    assert (Hne2 : cn2 <> []).
    { intros ->. destruct (proj1 (Heq x) (or_introl eq_refl)). }
    unfold filtrar_por_classes.
    rewrite (classes_normalizadas_nonempty cs1 _ H1 Hne1),
      (classes_normalizadas_nonempty cs2 _ H2 Hne2), H1, H2.
    destruct (negb true || negb (mem col (columns df))); [reflexivity|].
    destruct (DF.empty df); [reflexivity|]. simpl.
    apply nonempty_true in Hne2. rewrite Hne2. simpl.
    destruct (mapM normalizar_valor_classe (DF.column col df)); [|reflexivity].
    simpl.
    now rewrite (map_ext _ _ (isin_ext (x :: cn1) cn2 Heq)).
Qed.

Lemma filtrar_por_classes_conjunto_witness :
  filtrar_por_classes tabela_exemplo (Some ["Classe 03"; "8"; "3"]) "classe"
  = filtrar_por_classes tabela_exemplo (Some ["3"; "08"]) "classe".
Proof.
  apply (filtrar_por_classes_conjunto tabela_exemplo
           ["Classe 03"; "8"; "3"] ["3"; "08"] ["3"; "8"; "3"] ["3"; "8"]
           "classe" eq_refl eq_refl).
  intros x. simpl. tauto.
Defined.

(** ** The class filter and [normalizar_classes] *)

Lemma row_drop_row_set_comm (temp col : string) (v : Cell) (r : Row) :
  String.eqb temp col = false ->
  DF.row_drop temp (DF.row_set col v r) = DF.row_set col v (DF.row_drop temp r).
Proof.
  intros Hne. unfold DF.row_drop. induction r as [|[k w] r IH]; simpl.
  - rewrite String.eqb_sym, Hne. reflexivity.
  - destruct (String.eqb k col) eqn:Ek; simpl.
    + apply String.eqb_eq in Ek. subst k.
      rewrite String.eqb_sym, Hne. simpl. now rewrite String.eqb_refl.
    + destruct (String.eqb k temp) eqn:Et; simpl; [exact IH|].
      rewrite Ek. now rewrite IH.
Qed.

Lemma linha_mantida_normalizada (cn : list string) (col : string) (r : Row) :
  linha_mantida cn col (linha_normalizada col r) = linha_mantida cn col r.
Proof.
  unfold linha_mantida, linha_normalizada.
  change normalizar_valor_classe with extrair_classe.
  rewrite loc_row_set, valor_normalizado_fixo. unfold valor_normalizado.
  now destruct (extrair_classe (DF.loc col r)).
Qed.

Lemma linha_normalizada_row_drop (col : string) (r : Row) :
  DF.row_drop (col ++ "_normalizada") (linha_normalizada col r)
  = linha_normalizada col (DF.row_drop (col ++ "_normalizada") r).
Proof.
  unfold linha_normalizada.
  rewrite row_drop_row_set_comm by apply temporaria_distinta.
  now rewrite loc_row_drop by apply temporaria_distinta.
Qed.

Lemma empty_map (df : DataFrame) (f : Row -> Row) :
  DF.empty {| columns := columns df; rows := map f (rows df) |} = DF.empty df.
Proof. unfold DF.empty. simpl. now destruct (rows df). Qed.

(** X13. Normalizing the class column and filtering by class commute: when
    both succeed on a table, filtering the normalized table gives the
    normalized form of the filtered table.  So the rows an upload keeps do
    not depend on whether the class column was normalized first. *)
Theorem filtrar_normalizada (df dfn out : DataFrame) (cs : list string)
    (col : string) :
  normalizar_classes df col = Retorna dfn ->
  filtrar_por_classes df (Some cs) col = Ok out ->
  exists outn,
    filtrar_por_classes dfn (Some cs) col = Ok outn /\
    normalizar_classes out col = Retorna outn.
Proof.
  intros Hn Hout. pose proof Hn as Hn0.
  apply normalizar_classes_inv in Hn as [Hcol [Hok ->]].
  destruct (filtrar_por_classes_casos df out cs col Hout)
    as [[-> Hid]|[cn [_ [Hempty [Hcn Hne]]]]].
  - eexists. split; [|exact Hn0].
    unfold filtrar_por_classes. cbn [columns]. rewrite empty_map.
    destruct Hid as [H|[H|[H|H]]].
    + now rewrite H.
    + congruence.
    + rewrite H. now destruct (negb (nonempty cs) || negb (mem col (columns df))).
    + rewrite H. simpl.
      destruct (negb (nonempty cs) || negb (mem col (columns df)));
        [reflexivity|]. now destruct (DF.empty df).
  - rewrite (filtrar_por_classes_retorna df cs cn col Hcol Hempty Hcn Hne Hok)
      in Hout. injection Hout as <-.
    eexists. split.
    + apply (filtrar_por_classes_retorna _ cs cn col); try assumption.
      * now rewrite empty_map.
      * cbn [rows]. intros r' Hr'. apply in_map_iff in Hr' as [r [<- _]].
        unfold linha_normalizada. rewrite loc_row_set, valor_normalizado_fixo.
        discriminate.
    + rewrite normalizar_classes_retorna; cbn [columns rows].
      * do 2 f_equal.
        rewrite filter_map_comm, !map_map.
        rewrite (filter_ext
                   (fun r => linha_mantida cn col (linha_normalizada col r))
                   (linha_mantida cn col))
          by (intros r; apply linha_mantida_normalizada).
        apply map_ext. intros r. symmetry. apply linha_normalizada_row_drop.
      * now apply mem_coluna_sem_temporaria.
      * intros r' Hr'. apply in_map_iff in Hr' as [r [<- Hr]].
        apply filter_In in Hr as [Hr _].
        rewrite loc_row_drop by apply temporaria_distinta. now apply Hok.
Qed.

Lemma filtrar_normalizada_witness :
  exists outn,
    filtrar_por_classes
      {| columns := ["classe"; "especificacao"];
         rows := [ linha_exemplo (Some "3") (Some "Ferramentas manuais");
                   linha_exemplo (Some "Cl. 99") (Some "xyz");
                   linha_exemplo None None ] |} (Some ["03"]) "classe"
    = Ok outn /\
    normalizar_classes
      {| columns := ["classe"; "especificacao"];
         rows := [linha_exemplo (Some "3") (Some "Ferramentas manuais")] |}
      "classe"
    = Retorna outn.
Proof.
  exact (filtrar_normalizada tabela_exemplo _ _ ["03"] "classe"
           eq_refl eq_refl).
Defined.

(** ** More on the keyword filter *)

Lemma filtrar_por_palavras_chave_sem_coluna (df : DataFrame)
    (ps : list string) (col : string) :
  mem col (columns df) = false ->
  filtrar_por_palavras_chave df (Some ps) col = df.
Proof.
  intros H. unfold filtrar_por_palavras_chave. rewrite H.
  now rewrite orb_true_r.
Qed.

Lemma filtrar_por_palavras_chave_em_branco (df : DataFrame)
    (ps : list string) (col : string) :
  palavras_lower ps = [] ->
  filtrar_por_palavras_chave df (Some ps) col = df.
Proof.
  intros H. unfold filtrar_por_palavras_chave.
  destruct (negb (nonempty ps) || negb (mem col (columns df))); [reflexivity|].
  destruct (DF.empty df); [reflexivity|]. now rewrite H.
Qed.

(** X14. The keyword filter is idempotent: applied with the same keywords
    to the table it returned, it returns that table again. *)
Theorem filtrar_por_palavras_chave_idempotente (df : DataFrame)
    (ks : option (list string)) (col : string) :
  filtrar_por_palavras_chave (filtrar_por_palavras_chave df ks col) ks col
  = filtrar_por_palavras_chave df ks col.
Proof.
  destruct ks as [ps|]; [|reflexivity].
  destruct (mem col (columns df)) eqn:Hcol.
  - destruct (palavras_lower ps) as [|w ws] eqn:Hps.
    + now rewrite !(filtrar_por_palavras_chave_em_branco df ps col Hps).
    + assert (Hne : palavras_lower ps <> []) by (rewrite Hps; discriminate).
      rewrite (filtrar_por_palavras_chave_ativo df ps col Hcol Hne).
      rewrite filtrar_por_palavras_chave_ativo; [|exact Hcol|exact Hne].
      cbn [columns rows]. now rewrite filter_idem.
  - now rewrite !(filtrar_por_palavras_chave_sem_coluna df ps col Hcol).
Qed.

Lemma palavras_lower_app (ps1 ps2 : list string) :
  palavras_lower (ps1 ++ ps2) = (palavras_lower ps1 ++ palavras_lower ps2)%list.
Proof.
  induction ps1 as [|p ps1 IH]; [reflexivity|]. simpl.
  destruct (truthy p && truthy (strip p)); simpl; now rewrite IH.
Qed.

Lemma palavras_lower_equivalentes (ps1 ps2 : list string) :
  Forall2 (fun p q => strip (lower p) = strip (lower q)) ps1 ps2 ->
  palavras_lower ps1 = palavras_lower ps2.
Proof.
  rewrite !palavras_lower_spec.
  induction 1 as [|p q ps1 ps2 Hpq _ IH]; [reflexivity|]. simpl.
  assert (Ht : truthy (strip p) = truthy (strip q)).
  { rewrite <- (truthy_lower (strip p)), <- (truthy_lower (strip q)).
    now rewrite <- !strip_lower, Hpq. }
  rewrite Ht. destruct (truthy (strip q)); simpl; now rewrite ?Hpq, IH.
Qed.

(** X15. The case of the keywords and the white space around them do not
    matter: two keyword lists whose entries agree, one by one, once
    lowercased and trimmed, give the same result on every table. *)
Theorem filtrar_por_palavras_chave_caixa (df : DataFrame)
    (ps1 ps2 : list string) (col : string) :
  Forall2 (fun p q => strip (lower p) = strip (lower q)) ps1 ps2 ->
  filtrar_por_palavras_chave df (Some ps1) col
  = filtrar_por_palavras_chave df (Some ps2) col.
Proof.
  intros H. unfold filtrar_por_palavras_chave.
  rewrite (palavras_lower_equivalentes ps1 ps2 H).
  assert (Hn : nonempty ps1 = nonempty ps2) by (now destruct H).
  now rewrite Hn.
Qed.

Lemma filtrar_por_palavras_chave_caixa_witness :
  filtrar_por_palavras_chave tabela_exemplo (Some [" FERRAMENTAS "; "XYZ"])
    "especificacao"
  = filtrar_por_palavras_chave tabela_exemplo (Some ["ferramentas"; "xyz"])
      "especificacao".
Proof.
  apply (filtrar_por_palavras_chave_caixa tabela_exemplo
           [" FERRAMENTAS "; "XYZ"] ["ferramentas"; "xyz"] "especificacao").
  repeat constructor.
Defined.

Lemma linha_com_palavra_app (pl1 pl2 : list string) (col : string) (r : Row) :
  linha_com_palavra (pl1 ++ pl2) col r
  = linha_com_palavra pl1 col r || linha_com_palavra pl2 col r.
Proof.
  unfold linha_com_palavra. destruct (DF.loc col r); [|reflexivity].
  apply existsb_app.
Qed.

(** X16. Keywords add up: on a table that has the specification column,
    when the first list holds a keyword that is not blank, the rows kept
    for two lists put together are the rows kept for the one or for the
    other; so adding keywords to such a list never loses a row.  (A list of
    blank keywords only keeps every row, and adding a keyword to it does
    lose rows.) *)
Theorem filtrar_por_palavras_chave_uniao (df : DataFrame)
    (ps1 ps2 : list string) (col : string) :
  mem col (columns df) = true ->
  palavras_lower ps1 <> [] ->
  rows (filtrar_por_palavras_chave df (Some (ps1 ++ ps2)%list) col)
  = filter (fun r => linha_com_palavra (palavras_lower ps1) col r
                     || linha_com_palavra (palavras_lower ps2) col r)
           (rows df)
  /\ incl (rows (filtrar_por_palavras_chave df (Some ps1) col))
          (rows (filtrar_por_palavras_chave df (Some (ps1 ++ ps2)%list) col)).
Proof.
  intros Hcol Hne.
  assert (Hne' : palavras_lower (ps1 ++ ps2) <> []).
  { rewrite palavras_lower_app. destruct (palavras_lower ps1); [congruence|].
    discriminate. }
  rewrite (filtrar_por_palavras_chave_ativo df _ col Hcol Hne'),
    (filtrar_por_palavras_chave_ativo df _ col Hcol Hne).
  cbn [rows]. rewrite palavras_lower_app.
  rewrite (filter_ext _ _ (linha_com_palavra_app _ _ col)).
  split; [reflexivity|].
  intros r Hr. apply filter_In in Hr as [Hin Hr]. apply filter_In.
  split; [exact Hin|]. now rewrite Hr.
Qed.

Lemma filtrar_por_palavras_chave_uniao_witness :
  rows (filtrar_por_palavras_chave tabela_exemplo
          (Some (["manuais"] ++ ["xyz"])%list) "especificacao")
  = [ linha_exemplo (Some "3") (Some "Ferramentas manuais");
      linha_exemplo (Some "Cl. 99") (Some "xyz") ]
  /\ rows (filtrar_por_palavras_chave tabela_exemplo
             (Some ([" "] ++ ["xyz"])%list) "especificacao")
     = [linha_exemplo (Some "Cl. 99") (Some "xyz")].
Proof.
  split; [|reflexivity].
  exact (proj1 (filtrar_por_palavras_chave_uniao tabela_exemplo
                  ["manuais"] ["xyz"] "especificacao"
                  eq_refl ltac:(discriminate))).
Defined.

(** ** Both filters *)

Lemma filter_filter {A : Type} (p q : A -> bool) (l : list A) :
  filter q (filter p l) = filter (fun x => p x && q x) l.
Proof.
  induction l as [|x l IH]; [reflexivity|]. cbn [filter].
  destruct (p x); cbn [filter andb]; [|exact IH].
  destruct (q x); now rewrite IH.
Qed.

Lemma filter_sem_temporaria (temp : string) (cols : list string) :
  mem temp cols = false ->
  filter (fun c => negb (String.eqb c temp)) cols = cols.
Proof.
  unfold mem. induction cols as [|c cols IH]; simpl; [reflexivity|].
  intros H. apply orb_false_elim in H as [Hc Hcols].
  rewrite String.eqb_sym, Hc. simpl. now rewrite IH.
Qed.

(** X17. With both a class request and keywords in force, on a table that
    has the two columns and no column named after the transient one, the
    combined filter returns the columns unchanged and, in order and as they
    were, the rows that pass both tests: a normalized class among the
    requested ones, and a specification that contains a keyword. *)
Theorem filtrar_processos_ambos (df out : DataFrame)
    (cs ks cn : list string) (cc ce : string) :
  mem cc (columns df) = true ->
  mem ce (columns df) = true ->
  mem (cc ++ "_normalizada") (columns df) = false ->
  (forall r, In r (rows df) -> mem (cc ++ "_normalizada") (map fst r) = false) ->
  classes_normalizadas cs = Ok cn ->
  cn <> [] ->
  palavras_lower ks <> [] ->
  filtrar_processos df (Some cs) (Some ks) cc ce = Ok out ->
  columns out = columns df /\
  rows out = filter (fun r => linha_mantida cn cc r
                              && linha_com_palavra (palavras_lower ks) ce r)
                    (rows df).
Proof.
  intros Hcc Hce Htemp Hrows Hcn Hne Hks Hout.
  rewrite filtrar_processos_composto in Hout.
  destruct (filtrar_por_classes df (Some cs) cc) as [d|] eqn:Hd;
    [|discriminate]. cbn [bind] in Hout.
  assert (Ho : filtrar_por_palavras_chave d (Some ks) ce = out)
    by (now injection Hout).
  subst out. clear Hout.
  pose proof (filtrar_por_classes_linhas_intactas df d cs cn cc
                Hcc Hcn Hne Hrows Hd) as Hr.
  assert (Hc : columns d = columns df).
  { destruct (filtrar_por_classes_casos df d cs cc Hd)
      as [[-> _]|[cn' [_ [Hempty [Hcn' Hne']]]]]; [reflexivity|].
    destruct (filtrar_por_classes_ativo df d cs cn' cc Hcc Hempty Hcn' Hne' Hd)
      as [-> _].
    now apply filter_sem_temporaria. }
  rewrite (filtrar_por_palavras_chave_ativo d ks ce); [|now rewrite Hc|exact Hks].
  cbn [columns rows]. split; [exact Hc|].
  rewrite Hr. apply filter_filter.
Qed.

Lemma filtrar_processos_ambos_witness :
  rows {| columns := ["classe"; "especificacao"];
          rows := [linha_exemplo (Some "3") (Some "Ferramentas manuais")] |}
  = filter (fun r => linha_mantida ["3"; "99"] "classe" r
                     && linha_com_palavra (palavras_lower ["Manuais"])
                          "especificacao" r)
           (rows tabela_exemplo).
Proof.
  refine (proj2 (filtrar_processos_ambos tabela_exemplo _
                   ["03"; "99"] ["Manuais"] ["3"; "99"] "classe" "especificacao"
                   eq_refl eq_refl eq_refl _ eq_refl ltac:(discriminate)
                   ltac:(discriminate) eq_refl)).
  intros r [<-|[<-|[<-|[]]]]; reflexivity.
Defined.

(** ** The records and the table of [processar_xml] *)

Lemma or_default_truthy (x : option string) (d : string) :
  truthy d = true -> or_default x d <> "".
Proof.
  intros Hd. unfold or_default. destruct x as [s|].
  - destruct (truthy s) eqn:Hs; now apply truthy_true.
  - now apply truthy_true.
Qed.

Lemma registros_origem (root : Element) (g : GrantedRecord) :
  In g (processar_xml_registros root) ->
  exists processo,
    In processo (ET.findall_desc "processo" root) /\
    tem_concessao processo = true /\
    ((exists classe_nice,
         In classe_nice (ET.findall_desc "classe-nice" processo) /\
         classe_deferida classe_nice = true /\
         g = registro_da_classe processo classe_nice) \/
     (g = registro_sem_classe processo /\
      registros_por_classe processo = [] /\
      ET.get processo "numero" "" <> "")).
Proof.
  rewrite processar_xml_registros_spec, in_flat_map.
  intros [p [Hp Hg]]. exists p. split; [exact Hp|].
  destruct (tem_concessao p); [|destruct Hg]. split; [reflexivity|].
  rewrite extrair_dados_processo_inpi_spec in Hg.
  apply in_app_or in Hg as [Hg|Hg].
  - left. rewrite registros_por_classe_spec in Hg.
    apply in_map_iff in Hg as [c [<- Hc]]. apply filter_In in Hc as [Hin Hd].
    now exists c.
  - right. destruct (registros_por_classe p) as [|g0 l] eqn:Hl;
      [|destruct Hg]. simpl in Hg.
    destruct (truthy (ET.get p "numero" "")) eqn:Hn; [|destruct Hg].
    destruct Hg as [<-|[]]. split; [reflexivity|]. split; [reflexivity|].
    now apply truthy_true.
Qed.

Lemma status_da_classe_deferida (processo classe_nice : Element) :
  classe_deferida classe_nice = true ->
  contains "deferid"
    (lower (strip (status_classe (registro_da_classe processo classe_nice))))
  = true.
Proof.
  unfold classe_deferida, registro_da_classe. cbn [status_classe].
  destruct (ET.find_child "status" classe_nice) as [st|]; [|discriminate].
  cbn [text_of]. destruct (ET.text st) as [t|]; [|discriminate].
  unfold or_default. now destruct (truthy t).
Qed.

(** X18. Every record [processar_xml] extracts, from any document, has a
    mark, a class, a holder and a status that are not empty; and it is
    either the record of a granted class, whose status, trimmed and
    lowercased, contains deferid, or the record without class of a process
    that has a number: class N/A, status Concedido and no specification. *)
Theorem registros_bem_formados (root : Element) (g : GrantedRecord) :
  In g (processar_xml_registros root) ->
  marca g <> "" /\ classe g <> "" /\ titular g <> "" /\
  status_classe g <> "" /\
  (contains "deferid" (lower (strip (status_classe g))) = true \/
   (status_classe g = "Concedido" /\ classe g = "N/A" /\
    especificacao g = "" /\ traducao_especificacao g = "" /\
    numero_processo g <> "")).
Proof.
  intros Hg. apply registros_origem in Hg
    as [p [_ [_ [[c [_ [Hd ->]]]|[-> [_ Hn]]]]]].
  - refine (conj _ (conj _ (conj _ (conj _ _))));
      try (now apply or_default_truthy).
    left. now apply status_da_classe_deferida.
  - refine (conj _ (conj _ (conj _ (conj _ _))));
      try (now apply or_default_truthy); try discriminate.
    right. refine (conj _ (conj _ (conj _ (conj _ _)))); try reflexivity.
    exact Hn.
Qed.

Lemma registros_bem_formados_witness :
  marca (registro_sem_classe processo_sem_classes) <> "" /\
  status_classe (registro_sem_classe processo_sem_classes) = "Concedido".
Proof.
  destruct (registros_bem_formados (revista_de [processo_sem_classes])
              (registro_sem_classe processo_sem_classes)
              (or_introl eq_refl)) as [Hm _].
  split; [exact Hm|reflexivity].
Defined.

(** X19. All the records of one process carry the same process number,
    mark, holder, agent and grant date; and a process gives as many records
    as it has granted classes, or one when it has none and has a number, or
    none. *)
Theorem registros_do_processo (processo : Element) :
  (forall g1 g2,
      In g1 (_extrair_dados_processo_inpi processo) ->
      In g2 (_extrair_dados_processo_inpi processo) ->
      numero_processo g1 = numero_processo g2 /\
      marca g1 = marca g2 /\ titular g1 = titular g2 /\
      procurador g1 = procurador g2 /\
      data_concessao g1 = data_concessao g2) /\
  List.length (_extrair_dados_processo_inpi processo)
  = match List.length (filter classe_deferida
                         (ET.findall_desc "classe-nice" processo)) with
    | O => if truthy (ET.get processo "numero" "") then 1 else 0
    | S n => S n
    end.
Proof.
  split.
  - assert (H : forall g, In g (_extrair_dados_processo_inpi processo) ->
        numero_processo g = ET.get processo "numero" "" /\
        marca g = or_default (extrair_marca processo) "N/A" /\
        titular g = or_default (extrair_titular processo) "N/A" /\
        procurador g = or_default (extrair_procurador processo) "" /\
        data_concessao g
        = or_default (Some (extrair_data_concessao processo)) "").
    { intros g Hg. rewrite extrair_dados_processo_inpi_spec in Hg.
      apply in_app_or in Hg as [Hg|Hg].
      - rewrite registros_por_classe_spec in Hg.
        apply in_map_iff in Hg as [c [<- _]]. now repeat split.
      - destruct (negb (nonempty (registros_por_classe processo))
                  && truthy (ET.get processo "numero" "")); [|destruct Hg].
        destruct Hg as [<-|[]]. now repeat split. }
    intros g1 g2 H1 H2.
    destruct (H g1 H1) as [-> [-> [-> [-> ->]]]].
    destruct (H g2 H2) as [-> [-> [-> [-> ->]]]]. now repeat split.
  - rewrite extrair_dados_processo_inpi_spec, registros_por_classe_spec.
    rewrite length_app, length_map.
    destruct (filter classe_deferida (ET.findall_desc "classe-nice" processo))
      as [|c l]; simpl.
    + now destruct (truthy (ET.get processo "numero" "")).
    + now rewrite Nat.add_0_r.
Qed.

(** ** [agrupar_por_classe] *)

Lemma cell_eqb_eq (a b : Cell) : cell_eqb a b = true <-> a = b.
Proof.
  destruct a as [x|], b as [y|]; simpl; try (split; congruence).
  rewrite String.eqb_eq. split; congruence.
Qed.

Lemma existsb_cell (x : Cell) (l : list Cell) :
  existsb (cell_eqb x) l = true <-> In x l.
Proof.
  rewrite existsb_exists. split.
  - intros [y [Hy E]]. apply cell_eqb_eq in E. now subst.
  - intros H. exists x. split; [exact H|now apply cell_eqb_eq].
Qed.

Lemma unique_desde_In (vistos l : list Cell) (x : Cell) :
  In x (unique_desde vistos l) <-> In x l /\ ~ In x vistos.
Proof.
  revert vistos. induction l as [|y l IH]; intros vistos; simpl.
  - tauto.
  - destruct (existsb (cell_eqb y) vistos) eqn:E.
    + apply existsb_cell in E. rewrite IH. split.
      * intros [H1 H2]. tauto.
      * intros [[<-|H1] H2]; tauto.
    + assert (Hy : ~ In y vistos).
      { intros H. apply existsb_cell in H. congruence. }
      simpl. rewrite IH. simpl. split.
      * intros [<-|[H1 H2]]; tauto.
      * intros [[<-|H1] H2]; [tauto|].
        destruct (cell_eqb y x) eqn:Eyx.
        -- apply cell_eqb_eq in Eyx. tauto.
        -- right. split; [exact H1|]. intros [->|H]; [|tauto].
           assert (cell_eqb x x = true) by now apply cell_eqb_eq.
           congruence.
Qed.

Lemma unique_desde_NoDup (vistos l : list Cell) : NoDup (unique_desde vistos l).
Proof.
  revert vistos. induction l as [|y l IH]; intros vistos; simpl.
  - constructor.
  - destruct (existsb (cell_eqb y) vistos); [apply IH|].
    constructor; [|apply IH]. rewrite unique_desde_In. simpl. tauto.
Qed.

Lemma presentes_In (l : list Cell) (s : string) :
  In s (presentes l) <-> In (Some s) l.
Proof.
  induction l as [|[x|] l IH]; simpl.
  - tauto.
  - rewrite IH. split; intros [H|H]; try tauto; [left|left]; congruence.
  - rewrite IH. split; [tauto|]. intros [H|H]; [discriminate|exact H].
Qed.

Lemma presentes_NoDup (l : list Cell) : NoDup l -> NoDup (presentes l).
Proof.
  induction 1 as [|[x|] l Hx _ IH]; simpl; try constructor; try assumption.
  now rewrite presentes_In.
Qed.

Lemma dict_set_ausente {A : Type} (k : string) (v : A) (d : list (string * A)) :
  ~ In k (map fst d) -> dict_set k v d = (d ++ [(k, v)])%list.
Proof.
  induction d as [|[k' v'] d IH]; simpl; [reflexivity|].
  intros H. destruct (String.eqb k' k) eqn:E.
  - apply String.eqb_eq in E. tauto.
  - rewrite IH; tauto.
Qed.

Lemma agrupar_loop_spec (df : DataFrame) (col : string) (classes : list Cell)
    (grupos : list (string * DataFrame)) :
  NoDup (presentes classes) ->
  (forall s, In s (presentes classes) -> ~ In s (map fst grupos)) ->
  agrupar_loop df col classes grupos
  = (grupos ++ map (fun s => (s, linhas_da_classe df col s))
                   (presentes classes))%list.
Proof.
  revert grupos. induction classes as [|[x|] l IH]; intros grupos Hnd Hfresh;
    simpl.
  - now rewrite List.app_nil_r.
  - simpl in Hnd. inversion Hnd as [|? ? Hx Hl]; subst.
    rewrite dict_set_ausente by (apply Hfresh; now left).
    rewrite IH; [now rewrite <- List.app_assoc|exact Hl|].
    intros s Hs. rewrite map_app, in_app_iff. simpl.
    intros [H|[<-|[]]]; [|tauto]. apply (Hfresh s); [now right|exact H].
  - apply IH; assumption.
Qed.

Lemma linhas_da_classe_rows (df : DataFrame) (col k : string) :
  rows (linhas_da_classe df col k) = filter (da_classe col k) (rows df).
Proof.
  unfold linhas_da_classe, DF.select, DF.column. cbn [rows].
  rewrite map_map. apply (select_mask (da_classe col k)).
Qed.

Lemma length_filter_disjuntos {A : Type} (p q : A -> bool) (l : list A) :
  (forall x, p x && q x = false) ->
  List.length (filter p l) + List.length (filter q l)
  = List.length (filter (fun x => p x || q x) l).
Proof.
  intros H. induction l as [|x l IH]; [reflexivity|]. cbn [filter].
  specialize (H x). destruct (p x), (q x); simpl in *; try discriminate; lia.
Qed.

Lemma contagem_por_classe (col : string) (ks : list string) (l : list Row) :
  NoDup ks ->
  list_sum (map (fun k => List.length (filter (da_classe col k) l)) ks)
  = List.length
      (filter (fun r => match DF.loc col r with
                        | Some s => mem s ks
                        | None => false
                        end) l).
Proof.
  induction 1 as [|k ks Hk _ IH]; simpl.
  - induction l as [|r l IHl]; [reflexivity|]. cbn [filter].
    now destruct (DF.loc col r).
  - rewrite IH, length_filter_disjuntos.
    + f_equal. apply filter_ext. intros r. unfold da_classe.
      destruct (DF.loc col r) as [s|]; reflexivity.
    + intros r. unfold da_classe. destruct (DF.loc col r) as [s|]; [|reflexivity].
      destruct (String.eqb s k) eqn:E; [|reflexivity].
      apply String.eqb_eq in E. subst s. simpl.
      destruct (mem k ks) eqn:Em; [|reflexivity]. apply mem_In in Em. tauto.
Qed.

(** The groups, on a table of the model that has the column. *)
Lemma agrupar_por_classe_grupos (df : DataFrame) (col : string) :
  mem col (columns df) = true ->
  exists grupos,
    agrupar_por_classe df col = Retorna grupos /\
    NoDup (map fst grupos) /\
    (forall k, In k (map fst grupos) <->
               exists r, In r (rows df) /\ DF.loc col r = Some k) /\
    (forall k g, In (k, g) grupos ->
                 dict_get k grupos = Some g /\
                 columns g = columns df /\
                 rows g = filter (da_classe col k) (rows df) /\
                 rows g <> []) /\
    list_sum (map (fun kg => List.length (rows (snd kg))) grupos)
    = List.length (filter (com_classe col) (rows df)).
Proof.
  unfold agrupar_por_classe. intros ->.
  assert (Hnd : NoDup (presentes (unique (DF.column col df))))
    by apply presentes_NoDup, unique_desde_NoDup.
  assert (Hkeys : forall k, In k (presentes (unique (DF.column col df))) <->
                            exists r, In r (rows df) /\ DF.loc col r = Some k).
  { intros k. rewrite presentes_In. unfold unique.
    rewrite unique_desde_In. unfold DF.column. rewrite in_map_iff. simpl.
    split.
    - intros [[r [H1 H2]] _]. now exists r.
    - intros [r [H1 H2]]. split; [now exists r|tauto]. }
  eexists. split; [reflexivity|].
  rewrite agrupar_loop_spec by (try exact Hnd; intros s _ []).
  rewrite List.app_nil_l, !map_map. cbn [fst snd]. rewrite map_id.
  split; [exact Hnd|]. split; [exact Hkeys|]. split.
  - intros k g Hin. apply in_map_iff in Hin as [s [E Hs]].
    injection E as -> <-.
    assert (Hrows : rows (linhas_da_classe df col k)
                    = filter (da_classe col k) (rows df))
      by apply linhas_da_classe_rows.
    split; [|split; [reflexivity|split; [exact Hrows|]]].
    + clear -Hs Hnd. induction (presentes (unique (DF.column col df)))
        as [|s l IH]; [destruct Hs|]. simpl.
      destruct (String.eqb s k) eqn:E.
      * apply String.eqb_eq in E. now subst.
      * inversion Hnd; subst. destruct Hs as [->|Hs];
          [rewrite String.eqb_refl in E; discriminate|]. now apply IH.
    + rewrite Hrows. apply Hkeys in Hs as [r [Hr Hk]]. intros E.
      assert (Hin : In r (filter (da_classe col k) (rows df))).
      { apply filter_In. split; [exact Hr|]. unfold da_classe.
        now rewrite Hk, String.eqb_refl. }
      rewrite E in Hin. destruct Hin.
  - rewrite (map_ext _ (fun k => List.length (filter (da_classe col k) (rows df))))
      by (intros k; now rewrite linhas_da_classe_rows).
    rewrite (contagem_por_classe col _ (rows df) Hnd). f_equal.
    apply filter_ext_in. intros r Hr. unfold com_classe.
    destruct (DF.loc col r) as [s|] eqn:Hs; [|reflexivity].
    apply mem_In, Hkeys. now exists r.
Qed.

(** X21. On a table that [normalizar_classes] returned, whose classes are
    strings or missing, [agrupar_por_classe] returns one group for each
    distinct class that is not missing, each key once: the group of a class
    has the columns of the table and, in order, exactly the rows of that
    class, at least one; every row with a class is in the group of its
    class, the rows without class are in none, and the sizes of the groups
    add up to the number of rows that have a class. *)
Theorem agrupar_por_classe_particao (df0 df : DataFrame) (col : string) :
  normalizar_classes df0 col = Retorna df ->
  exists grupos,
    agrupar_por_classe df col = Retorna grupos /\
    NoDup (map fst grupos) /\
    (forall k, In k (map fst grupos) <->
               exists r, In r (rows df) /\ DF.loc col r = Some k) /\
    (forall k g, In (k, g) grupos ->
                 dict_get k grupos = Some g /\
                 columns g = columns df /\
                 rows g = filter (da_classe col k) (rows df) /\
                 rows g <> []) /\
    list_sum (map (fun kg => List.length (rows (snd kg))) grupos)
    = List.length (filter (com_classe col) (rows df)).
Proof.
  intros H. apply agrupar_por_classe_grupos.
  apply normalizar_classes_inv in H as [Hcol [_ ->]].
  cbn [columns]. exact Hcol.
Qed.

(** The sample table, normalized: three rows, one of them without class,
    and two groups of one row. *)
Lemma agrupar_por_classe_particao_witness :
  exists grupos,
    agrupar_por_classe
      {| columns := ["classe"; "especificacao"];
         rows := [ linha_exemplo (Some "3") (Some "Ferramentas manuais");
                   linha_exemplo (Some "Cl. 99") (Some "xyz");
                   linha_exemplo None None ] |} "classe"
    = Retorna grupos /\
    NoDup (map fst grupos) /\
    list_sum (map (fun kg => List.length (rows (snd kg))) grupos) = 2.
Proof.
  destruct (agrupar_por_classe_particao tabela_exemplo _ "classe" eq_refl)
    as [grupos [Hg [Hnd [_ [_ Hsum]]]]].
  exists grupos. split; [exact Hg|]. split; [exact Hnd|exact Hsum].
Defined.

Lemma agrupar_por_classe_retorna (df : DataFrame) (col : string) :
  mem col (columns df) = true ->
  agrupar_por_classe df col
  = Retorna (map (fun s => (s, linhas_da_classe df col s))
                 (presentes (unique (DF.column col df)))).
Proof.
  intros H. unfold agrupar_por_classe. rewrite H. f_equal.
  rewrite agrupar_loop_spec.
  - reflexivity.
  - apply presentes_NoDup, unique_desde_NoDup.
  - intros s _ [].
Qed.

Lemma dict_get_map {A : Type} (f : string -> A) (ks : list string) (k : string) :
  In k ks -> dict_get k (map (fun s => (s, f s)) ks) = Some (f k).
Proof.
  induction ks as [|s ks IH]; [intros []|]. simpl.
  destruct (String.eqb s k) eqn:E.
  - apply String.eqb_eq in E. now subst.
  - intros [->|H]; [rewrite String.eqb_refl in E; discriminate|now apply IH].
Qed.

(** X22. Grouping after normalizing: the groups of a table returned by
    [normalizar_classes] are keyed by normalized classes (each key is a
    class the normalizer leaves as it is), and a row whose class normalizes
    to a value is found, normalized, in the group of that value; so rows
    written 03 and 3 end in the same group. *)
Theorem agrupar_normalizada (df dfn : DataFrame) (col : string) :
  normalizar_classes df col = Retorna dfn ->
  exists grupos,
    agrupar_por_classe dfn col = Retorna grupos /\
    (forall k, In k (map fst grupos) ->
               extrair_classe (Some k) = Ok (Some k)) /\
    (forall r v, In r (rows df) ->
                 extrair_classe (DF.loc col r) = Ok (Some v) ->
                 exists g, dict_get v grupos = Some g /\
                           In (linha_normalizada col r) (rows g)).
Proof.
  intros H. apply normalizar_classes_inv in H as [Hcol [Hok ->]].
  eexists. split; [now apply agrupar_por_classe_retorna|].
  rewrite map_map. cbn [fst]. rewrite map_id. unfold DF.column. cbn [rows].
  assert (Hloc : forall r, DF.loc col (linha_normalizada col r)
                           = valor_normalizado (DF.loc col r))
    by (intros r; unfold linha_normalizada; apply loc_row_set).
  split.
  - intros k Hk. apply presentes_In in Hk. unfold unique in Hk.
    apply unique_desde_In in Hk as [Hk _].
    apply in_map_iff in Hk as [r' [Hk Hr']].
    apply in_map_iff in Hr' as [r [<- Hr]]. rewrite Hloc in Hk.
    rewrite <- Hk. apply valor_normalizado_fixo.
  - intros r v Hr Hv.
    assert (Hv' : DF.loc col (linha_normalizada col r) = Some v).
    { rewrite Hloc. unfold valor_normalizado. now rewrite Hv. }
    eexists. split.
    + apply (dict_get_map (fun s => linhas_da_classe _ col s)).
      apply presentes_In. unfold unique. apply unique_desde_In.
      split; [|tauto]. apply in_map_iff.
      exists (linha_normalizada col r). split; [exact Hv'|].
      now apply in_map.
    + rewrite linhas_da_classe_rows. cbn [rows]. apply filter_In.
      split; [now apply in_map|]. unfold da_classe.
      now rewrite Hv', String.eqb_refl.
Qed.

Lemma agrupar_normalizada_witness :
  exists grupos,
    agrupar_por_classe
      {| columns := ["classe"; "especificacao"];
         rows := [ linha_exemplo (Some "3") (Some "Ferramentas manuais");
                   linha_exemplo (Some "Cl. 99") (Some "xyz");
                   linha_exemplo None None ] |} "classe"
    = Retorna grupos /\
    forall k, In k (map fst grupos) -> extrair_classe (Some k) = Ok (Some k).
Proof.
  destruct (agrupar_normalizada tabela_exemplo _ "classe" eq_refl)
    as [grupos [H1 [H2 _]]].
  exists grupos. split; [exact H1|exact H2].
Defined.

(** ** Requests put together *)

Lemma classes_normalizadas_app (cs1 cs2 cn1 cn2 : list string) :
  classes_normalizadas cs1 = Ok cn1 ->
  classes_normalizadas cs2 = Ok cn2 ->
  classes_normalizadas (cs1 ++ cs2) = Ok (cn1 ++ cn2)%list.
Proof.
  revert cn1. induction cs1 as [|c cs1 IH]; intros cn1 H1 H2.
  - injection H1 as <-. exact H2.
  - change ((c :: cs1) ++ cs2)%list with (c :: (cs1 ++ cs2))%list.
    rewrite classes_normalizadas_cons in *.
    destruct (normalizar_classe_desejada c) as [novos|]; [|discriminate].
    simpl in *. destruct (classes_normalizadas cs1) as [l|]; [|discriminate].
    simpl in H1. injection H1 as <-. rewrite (IH l eq_refl H2). simpl.
    now rewrite List.app_assoc.
Qed.

Lemma linha_mantida_app (cn1 cn2 : list string) (col : string) (r : Row) :
  linha_mantida (cn1 ++ cn2) col r
  = linha_mantida cn1 col r || linha_mantida cn2 col r.
Proof.
  unfold linha_mantida.
  destruct (normalizar_valor_classe (DF.loc col r)) as [[s|]|]; try reflexivity.
  apply existsb_app.
Qed.

(** X23. Class requests add up: when the first request normalizes to at
    least one class, the rows kept for two requests put together are the
    rows kept for the one or for the other, so adding classes to such a
    request never loses a row.  (A request that normalizes to nothing keeps
    every row, and adding a class to it does lose rows.) *)
Theorem filtrar_por_classes_uniao (df out : DataFrame)
    (cs1 cs2 cn1 cn2 : list string) (col : string) :
  mem col (columns df) = true ->
  classes_normalizadas cs1 = Ok cn1 ->
  cn1 <> [] ->
  classes_normalizadas cs2 = Ok cn2 ->
  filtrar_por_classes df (Some (cs1 ++ cs2)%list) col = Ok out ->
  rows out
  = map (DF.row_drop (col ++ "_normalizada"))
        (filter (fun r => linha_mantida cn1 col r || linha_mantida cn2 col r)
                (rows df))
  /\ forall out1,
       filtrar_por_classes df (Some cs1) col = Ok out1 ->
       incl (rows out1) (rows out).
Proof.
  intros Hcol H1 Hne H2 Hout.
  assert (Hne' : (cn1 ++ cn2)%list <> [])
    by (destruct cn1; [congruence|discriminate]).
  destruct (filtrar_por_classes_linhas df out _ _ col Hcol
              (classes_normalizadas_app _ _ _ _ H1 H2) Hne' Hout) as [Hr _].
  rewrite (filter_ext _ _ (linha_mantida_app cn1 cn2 col)) in Hr.
  split; [exact Hr|].
  intros out1 Hout1.
  destruct (filtrar_por_classes_linhas df out1 _ _ col Hcol H1 Hne Hout1)
    as [Hr1 _].
  rewrite Hr, Hr1. intros r' Hr'. apply in_map_iff in Hr' as [r [<- Hin]].
  apply in_map. apply filter_In in Hin as [Hin Hm]. apply filter_In.
  split; [exact Hin|]. now rewrite Hm.
Qed.

Lemma filtrar_por_classes_uniao_witness :
  rows {| columns := ["classe"; "especificacao"];
          rows := [linha_exemplo (Some "3") (Some "Ferramentas manuais")] |}
  = map (DF.row_drop ("classe" ++ "_normalizada"))
        (filter (fun r => linha_mantida ["3"] "classe" r
                          || linha_mantida ["8"] "classe" r)
                (rows tabela_exemplo)).
Proof.
  exact (proj1 (filtrar_por_classes_uniao tabela_exemplo
                  {| columns := ["classe"; "especificacao"];
                     rows := [linha_exemplo (Some "3")
                                (Some "Ferramentas manuais")] |}
                  ["03"] ["8"] ["3"] ["8"] "classe"
                  eq_refl eq_refl ltac:(discriminate) eq_refl eq_refl)).
Defined.
